(** * Trading: ledger, risk gate, execution pipeline and state store

    A shallow embedding of the paper-trading orchestrator (broker.py, risk.py,
    execution.py, state.py) and the properties of its specification.

    Modelling conventions.
    - Python floats are read as exact rationals [Q]; the comparison operators
      of the source ([==], [<=], [>], ...) are the numeric comparisons of [Q]
      ([Qeq_bool], [Qle_bool], ...), and numeric equalities in the statements
      are [Qeq] (written [==]).  Rounding is therefore left out of the model.
    - A float division is fallible: Python raises [ZeroDivisionError] on a
      zero divisor.
    - Methods of stateful objects are computations in a state-and-exception
      monad: a raised exception keeps the mutations done before it.
    - The positions dictionary is a [gmap] from symbols to position records
      (Python dictionaries compare without regard to order); [_last_prices]
      is an association list in insertion order, because [get_account_info]
      reads its first value.
    - What the program obtains from outside (the price fetch, the clock) is
      handed to the model as an [Env] argument.
    - A file holds bytes; reading it as text decodes them as UTF-8, which
      raises [UnicodeDecodeError] on bytes that are not.
    - An integer too large for a float raises [OverflowError] where the
      source converts it. *)

From Stdlib Require Import QArith Qabs Qminmax Lqa Lia ZArith String List.
From Stdlib Require Import Ascii DecimalString Qpower.
From stdpp Require Import base option list gmap strings.

Local Open Scope Q_scope.
Local Open Scope string_scope.

(** ** Exceptions and the state-and-exception monad *)

Inductive exn : Type :=
| RiskViolation (msg : string)
| RuntimeError (msg : string)
| ZeroDivisionError
| JSONDecodeError
| OtherError (msg : string).

Inductive Res (A : Type) : Type :=
| Ok (a : A)
| Raise (e : exn).
Arguments Ok {A} a.
Arguments Raise {A} e.

Definition M (S A : Type) : Type := S -> Res A * S.

Definition ret {S A} (a : A) : M S A := fun s => (Ok a, s).
Definition raise {S A} (e : exn) : M S A := fun s => (Raise e, s).
Definition bind {S A B} (c : M S A) (k : A -> M S B) : M S B :=
  fun s => match c s with
           | (Ok a, s') => k a s'
           | (Raise e, s') => (Raise e, s')
           end.
Definition get {S} : M S S := fun s => (Ok s, s).
Definition modify {S} (f : S -> S) : M S unit := fun s => (Ok tt, f s).
Definition lift_res {S A} (r : Res A) : M S A := fun s => (r, s).

Declare Scope m_scope.
Delimit Scope m_scope with m.
Notation "x <- c ;; k" := (bind c (fun x => k))
  (at level 100, c at next level, right associativity) : m_scope.
Notation "c ;;; k" := (bind c (fun _ => k))
  (at level 100, right associativity) : m_scope.
Local Open Scope m_scope.

(** Float division: Python raises on a zero divisor. *)
Definition fdiv (a b : Q) : Res Q :=
  if Qeq_bool b 0 then Raise ZeroDivisionError else Ok (a / b).

(** The source's comparison operators on floats. *)
Definition Qltb (a b : Q) : bool := negb (Qle_bool b a).
Definition Qgtb (a b : Q) : bool := Qltb b a.
Definition Qgeb (a b : Q) : bool := Qle_bool b a.

(** ** config.py *)

Record AppConfig : Type := mkConfig {
  symbols : list string;
  data_symbol : string;
  risk_per_trade : Q;
  max_global_exposure : Q;
  max_symbol_exposure : Q;
  max_daily_loss : Q;
  max_drawdown : Q;
  leverage_limit : Q;
  spread_limit : Q;
  volatility_limit : Q;
  simulated_spread : Q;
  simulated_slippage : Q;
  magic_number : string;
  initial_balance : Q
}.

(** The defaults of the dataclass. *)
Definition default_config : AppConfig :=
  {| symbols := ["XAUUSD"];
     data_symbol := "GC=F";
     risk_per_trade := 5 # 1000;
     max_global_exposure := 2;
     max_symbol_exposure := 1;
     max_daily_loss := 2 # 100;
     max_drawdown := 1 # 10;
     leverage_limit := 20;
     spread_limit := 1 # 2;
     volatility_limit := 2 # 100;
     simulated_spread := 2 # 10;
     simulated_slippage := 5 # 100;
     magic_number := "ALGOBOT-001";
     initial_balance := 30000 |}.

(** ** broker.py: data *)

Record PriceTick : Type := mkTick {
  tick_symbol : string;
  tick_bid : Q;
  tick_ask : Q;
  tick_timestamp : Q;
  tick_spread : Q;
  tick_volatility : Q;
  tick_open : option Q;
  tick_high : option Q;
  tick_low : option Q;
  tick_close : option Q
}.

Record OrderRequest : Type := mkOrder {
  order_symbol : string;
  order_side : string;
  order_size : Q;
  order_price : Q;
  order_stop_loss : Q;
  order_take_profit : option Q;
  order_type : string;
  order_time_in_force : string;
  order_client_id : string
}.

Record OrderResult : Type := mkResult {
  success : bool;
  filled_size : Q;
  avg_price : option Q;
  reason : option string;
  order_id : option string
}.

(** One entry of the positions dictionary: the keys "size", "entry", "pnl". *)
Record Position : Type := mkPosition {
  pos_size : Q;
  pos_entry : Q;
  pos_pnl : Q
}.

Definition set_pnl (p : Position) (v : Q) : Position :=
  {| pos_size := pos_size p; pos_entry := pos_entry p; pos_pnl := v |}.
Definition set_entry (p : Position) (v : Q) : Position :=
  {| pos_size := pos_size p; pos_entry := v; pos_pnl := pos_pnl p |}.
Definition set_size (p : Position) (v : Q) : Position :=
  {| pos_size := v; pos_entry := pos_entry p; pos_pnl := pos_pnl p |}.

(** The account dictionary returned by [get_account_info]. *)
Record Account : Type := mkAccount {
  acc_balance : Q;
  acc_equity : Q;
  acc_margin_used : Q;
  acc_unrealized : Q
}.

(** The mutable fields of [PaperBrokerClient]. *)
Record Broker : Type := mkBroker {
  connected : bool;
  balance : Q;
  equity : Q;
  margin_used : Q;
  positions : gmap string Position;
  _last_prices : list (string * Q)
}.

Definition set_balance (v : Q) (b : Broker) : Broker :=
  {| connected := connected b; balance := v; equity := equity b;
     margin_used := margin_used b; positions := positions b;
     _last_prices := _last_prices b |}.
Definition set_equity (v : Q) (b : Broker) : Broker :=
  {| connected := connected b; balance := balance b; equity := v;
     margin_used := margin_used b; positions := positions b;
     _last_prices := _last_prices b |}.
Definition set_margin_used (v : Q) (b : Broker) : Broker :=
  {| connected := connected b; balance := balance b; equity := equity b;
     margin_used := v; positions := positions b;
     _last_prices := _last_prices b |}.
Definition set_positions (v : gmap string Position) (b : Broker) : Broker :=
  {| connected := connected b; balance := balance b; equity := equity b;
     margin_used := margin_used b; positions := v;
     _last_prices := _last_prices b |}.
Definition set_last_prices (v : list (string * Q)) (b : Broker) : Broker :=
  {| connected := connected b; balance := balance b; equity := equity b;
     margin_used := margin_used b; positions := positions b;
     _last_prices := v |}.

(** [PaperBrokerClient.__init__]. *)
Definition new_broker (config : AppConfig) : Broker :=
  {| connected := false;
     balance := initial_balance config;
     equity := initial_balance config;
     margin_used := 0;
     positions := ∅;
     _last_prices := [] |}.

(** The outside world of one call: the outcome of [_fetch_price_sync]
    (open, high, low, close, or the exception it raises) and the clock
    reading [time.time()]. *)
Record Env : Type := mkEnv {
  fetch_price : Res (Q * Q * Q * Q);
  time_now : Q
}.

(** Insertion-ordered dictionary operations used on [_last_prices]. *)
Fixpoint dict_get {V} (k : string) (d : list (string * V)) : option V :=
  match d with
  | [] => None
  | (k', v) :: rest => if String.eqb k k' then Some v else dict_get k rest
  end.

Fixpoint dict_set {V} (k : string) (v : V) (d : list (string * V))
  : list (string * V) :=
  match d with
  | [] => [(k, v)]
  | (k', v') :: rest =>
      if String.eqb k k' then (k', v) :: rest else (k', v') :: dict_set k v rest
  end.

(** [next(iter(d.values()), None)]. *)
Definition dict_first_value {V} (d : list (string * V)) : option V :=
  match d with
  | [] => None
  | (_, v) :: _ => Some v
  end.

(** [int(x)] on a float: truncation towards zero. *)
Definition py_int (x : Q) : Z := Z.quot (Qnum x) (Zpos (Qden x)).

(** [str] of an integer, in decimal. *)
Definition str_of_int (z : Z) : string := NilZero.string_of_int (Z.to_int z).

(** [try: c except Exception as e: h e]. *)
Definition try_catch {S A} (c : M S A) (h : exn -> M S A) : M S A :=
  fun s => match c s with
           | (Raise e, s') => h e s'
           | r => r
           end.

(** ** broker.py: the ledger *)

(** The loop of [_mark_positions] over [list(self.positions.items())].
    [position] is the object held by the dictionary, so the assignment to
    [position["pnl"]] is visible in [self.positions] before the division that
    may raise. *)
Fixpoint mark_loop (config : AppConfig) (mid_price : Q)
    (items : list (string * Position)) (unrealized margin : Q)
  : M Broker (Q * Q) :=
  match items with
  | [] => ret (unrealized, margin)
  | (symbol, position) :: rest =>
      let position :=
        set_pnl position ((mid_price - pos_entry position) * pos_size position) in
      modify (fun b => set_positions (<[symbol := position]> (positions b)) b) ;;;
      let unrealized := unrealized + pos_pnl position in
      d <- lift_res (fdiv (Qabs (pos_size position * mid_price))
                          (leverage_limit config)) ;;
      let margin := margin + d in
      modify (fun b => set_positions (<[symbol := position]> (positions b)) b) ;;;
      mark_loop config mid_price rest unrealized margin
  end.

Definition _mark_positions (config : AppConfig) (mid_price : Q) : M Broker unit :=
  b <- get ;;
  r <- mark_loop config mid_price (map_to_list (positions b)) 0 0 ;;
  modify (set_margin_used (snd r)) ;;;
  modify (fun b => set_equity (balance b + fst r) b).

(** [sum(pos["pnl"] for pos in positions.values())]. *)
Definition sum_pnl (ps : gmap string Position) : Q :=
  fold_left (fun acc kp => acc + pos_pnl (snd kp)) (map_to_list ps) 0.

Definition get_account_info (config : AppConfig) : M Broker Account :=
  b <- get ;;
  match dict_first_value (_last_prices b) with
  | Some last_mid => _mark_positions config last_mid
  | None => ret tt
  end ;;;
  b <- get ;;
  let unrealized := sum_pnl (positions b) in
  modify (set_equity (balance b + unrealized)) ;;;
  b <- get ;;
  ret {| acc_balance := balance b;
         acc_equity := equity b;
         acc_margin_used := margin_used b;
         acc_unrealized := unrealized |}.

(** The fill price of an order at a given mid price: ask for a BUY, bid
    otherwise, moved by the slippage in the trade direction. *)
Definition fill_price_of (config : AppConfig) (side : string) (mid : Q) : Q :=
  let spread := simulated_spread config in
  let bid := mid - spread / 2 in
  let ask := mid + spread / 2 in
  let fill_price := if String.eqb side "BUY" then ask else bid in
  let slip := simulated_slippage config in
  fill_price + (if String.eqb side "BUY" then slip else - slip).

Definition signed_size_of (order : OrderRequest) : Q :=
  if String.eqb (order_side order) "BUY" then order_size order
  else - order_size order.

(** The branch of [submit_order] that updates the position record and the
    balance.  The only statement that can raise (the division of the
    averaged entry) comes before the first assignment to the record. *)
Definition update_position (position : Position) (fill_price signed_size : Q)
  : M Broker Position :=
  if Qeq_bool (pos_size position) 0
     || (Qgtb (pos_size position) 0 && Qgtb signed_size 0)
     || (Qltb (pos_size position) 0 && Qltb signed_size 0)
  then
    let new_size := pos_size position + signed_size in
    position <-
      (if negb (Qeq_bool (pos_size position) 0) then
         e <- lift_res
                (fdiv (pos_entry position * Qabs (pos_size position)
                       + fill_price * Qabs signed_size)
                      (Qabs new_size)) ;;
         ret (set_entry position e)
       else ret position) ;;
    ret (set_size position new_size)
  else
    let closing_size := Qmin (Qabs (pos_size position)) (Qabs signed_size) in
    let realized :=
      (fill_price - pos_entry position) * closing_size
      * (if Qgtb (pos_size position) 0 then 1 else -1) in
    modify (fun b => set_balance (balance b + realized) b) ;;;
    let position := set_size position (pos_size position + signed_size) in
    if Qeq_bool (pos_size position) 0
    then ret (set_entry position 0)
    else ret (set_entry position fill_price).

(** The mid price of the order's symbol: the last known one, or the close
    of a fresh fetch, which is then remembered. *)
Definition lookup_mid (env : Env) (order : OrderRequest) : M Broker Q :=
  b <- get ;;
  match dict_get (order_symbol order) (_last_prices b) with
  | Some mid => ret mid
  | None =>
      r <- lift_res (fetch_price env) ;;
      let '(_, _, _, close) := r in
      modify (fun b => set_last_prices
                         (dict_set (order_symbol order) close
                                   (_last_prices b)) b) ;;;
      ret close
  end.

Definition submit_order (config : AppConfig) (env : Env) (order : OrderRequest)
  : M Broker OrderResult :=
  b <- get ;;
  if negb (connected b) then
    ret (mkResult false 0 None (Some "Disconnected") None)
  else
    mid <- lookup_mid env order ;;
    let fill_price := fill_price_of config (order_side order) mid in
    b <- get ;;
    let position :=
      default {| pos_size := 0; pos_entry := fill_price; pos_pnl := 0 |}
              (positions b !! order_symbol order) in
    let signed_size := signed_size_of order in
    position <- update_position position fill_price signed_size ;;
    let position :=
      set_pnl position ((mid - pos_entry position) * pos_size position) in
    (if Qeq_bool (pos_size position) 0
     then modify (fun b => set_positions
                             (delete (order_symbol order) (positions b)) b)
     else modify (fun b => set_positions
                             (<[order_symbol order := position]> (positions b)) b)) ;;;
    _mark_positions config mid ;;;
    let order_id :=
      order_client_id order ++ "-" ++ str_of_int (py_int (time_now env * 1000)) in
    ret (mkResult true (order_size order) (Some fill_price) None (Some order_id)).

(** One turn of the loop of [price_stream]: [None] when the loop has ended
    (not connected) or when the fetch, or the marking, raised and the
    exception was logged. *)
Definition price_stream_step (config : AppConfig) (env : Env)
    (syms : list string) : M Broker (option PriceTick) :=
  let symbol := match syms with s :: _ => s | [] => data_symbol config end in
  b <- get ;;
  if negb (connected b) then ret None
  else
    try_catch
      (r <- lift_res (fetch_price env) ;;
       let '(open_, high, low, close) := r in
       let mid := close in
       b <- get ;;
       let last_mid := default mid (dict_get symbol (_last_prices b)) in
       let spread := simulated_spread config in
       let bid := mid - spread / 2 in
       let ask := mid + spread / 2 in
       volatility <-
         (if negb (Qeq_bool last_mid 0)
          then lift_res (fdiv (Qabs (mid - last_mid)) last_mid)
          else ret 0) ;;
       modify (fun b => set_last_prices
                          (dict_set symbol mid (_last_prices b)) b) ;;;
       _mark_positions config mid ;;;
       ret (Some {| tick_symbol := symbol; tick_bid := bid; tick_ask := ask;
                    tick_timestamp := time_now env; tick_spread := spread;
                    tick_volatility := volatility;
                    tick_open := Some open_; tick_high := Some high;
                    tick_low := Some low; tick_close := Some close |}))
      (fun _ => ret None).

(** ** risk.py *)

Record OrderContext : Type := mkContext {
  ctx_symbol : string;
  ctx_side : string;
  ctx_price : Q;
  ctx_stop_loss : Q;
  ctx_take_profit : option Q;
  ctx_spread : Q;
  ctx_volatility : Q
}.

(** The mutable fields of [RiskManager]. *)
Record RiskManager : Type := mkRisk {
  daily_start_equity : option Q;
  equity_peak : option Q
}.

Definition new_risk_manager : RiskManager :=
  {| daily_start_equity := None; equity_peak := None |}.

Definition msg_stop_distance : string := "Stop distance must be positive".
Definition msg_daily_loss : string := "Daily loss limit reached; trading halted".
Definition msg_drawdown : string := "Max drawdown breached; trading halted".
Definition msg_margin : string := "Insufficient margin for order".
Definition msg_symbol_exposure : string := "Per-symbol exposure limit exceeded".
Definition msg_global_exposure : string := "Global exposure limit exceeded".
Definition msg_zero_size : string := "Computed size is zero; reject order".

Definition compute_position_size (config : AppConfig)
    (equity stop_distance price : Q) : M RiskManager Q :=
  if Qle_bool stop_distance 0 then raise (RiskViolation msg_stop_distance)
  else
    let risk_amount := equity * risk_per_trade config in
    size <- lift_res (fdiv risk_amount stop_distance) ;;
    ret (Qmax size 0).

Definition _check_circuit_breakers (config : AppConfig) (equity : Q)
  : M RiskManager unit :=
  rm <- get ;;
  (match daily_start_equity rm with
   | None => modify (fun _ => {| daily_start_equity := Some equity;
                                 equity_peak := Some equity |})
   | Some _ => ret tt
   end) ;;;
  rm <- get ;;
  (* self.equity_peak or equity: None and 0.0 are both falsy *)
  let peak := match equity_peak rm with
              | Some p => if Qeq_bool p 0 then equity else p
              | None => equity
              end in
  modify (fun rm => {| daily_start_equity := daily_start_equity rm;
                       equity_peak := Some (Qmax peak equity) |}) ;;;
  rm <- get ;;
  match daily_start_equity rm, equity_peak rm with
  | Some daily_start, Some peak =>
      if Qle_bool equity (daily_start * (1 - max_daily_loss config))
      then raise (RiskViolation msg_daily_loss)
      else if Qle_bool equity (peak * (1 - max_drawdown config))
      then raise (RiskViolation msg_drawdown)
      else ret tt
  | _, _ => raise (OtherError "TypeError")
  end.

(** [sum(abs(pos["size"] * price) for pos in positions.values())]. *)
Definition aggregate_notional (positions : gmap string Position) (price : Q) : Q :=
  fold_left (fun acc kp => acc + Qabs (pos_size (snd kp) * price))
            (map_to_list positions) 0.

Definition _check_leverage_and_exposure (config : AppConfig)
    (symbol : string) (price size : Q) (account : Account)
    (positions : gmap string Position) : M RiskManager unit :=
  let notional := price * size in
  d <- lift_res (fdiv notional (leverage_limit config)) ;;
  let projected_margin := acc_margin_used account + d in
  if Qgtb projected_margin (acc_equity account)
  then raise (RiskViolation msg_margin)
  else
    let current_symbol_notional :=
      Qabs (match positions !! symbol with
            | Some p => pos_size p
            | None => 0
            end * price) in
    if Qgtb (current_symbol_notional + notional)
            (acc_equity account * max_symbol_exposure config)
    then raise (RiskViolation msg_symbol_exposure)
    else
      if Qgtb (aggregate_notional positions price + notional)
              (acc_equity account * max_global_exposure config)
      then raise (RiskViolation msg_global_exposure)
      else ret tt.

Definition validate_order (config : AppConfig) (ctx : OrderContext)
    (account : Account) (positions : gmap string Position)
  : M RiskManager Q :=
  _check_circuit_breakers config (acc_equity account) ;;;
  let stop_distance := Qabs (ctx_price ctx - ctx_stop_loss ctx) in
  size <- compute_position_size config (acc_equity account) stop_distance
                                (ctx_price ctx) ;;
  if Qle_bool size 0 then raise (RiskViolation msg_zero_size)
  else
    _check_leverage_and_exposure config (ctx_symbol ctx) (ctx_price ctx) size
                                 account positions ;;;
    ret size.

(** ** execution.py *)

Record ExecutionDecision : Type := mkDecision {
  signal : string;
  stop_loss : option Q;
  take_profit : option Q
}.

(** The two stateful collaborators held by [OrderHandler]. *)
Record OrderHandler : Type := mkHandler {
  risk_manager : RiskManager;
  broker : Broker
}.

Definition on_risk {A} (c : M RiskManager A) : M OrderHandler A :=
  fun h => let '(r, rm) := c (risk_manager h) in
           (r, {| risk_manager := rm; broker := broker h |}).

Definition on_broker {A} (c : M Broker A) : M OrderHandler A :=
  fun h => let '(r, b) := c (broker h) in
           (r, {| risk_manager := risk_manager h; broker := b |}).

(** [try: c except RiskViolation as exc: h str(exc)]; any other exception
    passes through. *)
Definition except_RiskViolation {S A} (c : M S A) (h : string -> M S A) : M S A :=
  fun s => match c s with
           | (Raise (RiskViolation msg), s') => h msg s'
           | r => r
           end.

Definition rejected (why : string) : OrderResult :=
  mkResult false 0 None (Some why) None.

Definition msg_spread : string := "Spread too wide".
Definition msg_volatility : string := "Volatility too high".
Definition msg_stop_buy : string := "Stop-loss must be below entry for BUY".
Definition msg_stop_sell : string := "Stop-loss must be above entry for SELL".

Definition execute (config : AppConfig) (env : Env) (tick : PriceTick)
    (decision : ExecutionDecision) (account : Account)
    (positions : gmap string Position) : M OrderHandler OrderResult :=
  if String.eqb (signal decision) "HOLD" then
    ret (mkResult true 0 None (Some "No action") None)
  else match stop_loss decision with
  | None => ret (rejected "Stop-loss required")
  | Some sl =>
    if Qgtb (tick_spread tick) (spread_limit config) then
      ret (rejected msg_spread)
    else if Qgtb (tick_volatility tick) (volatility_limit config) then
      ret (rejected msg_volatility)
    else
      let side := if String.eqb (signal decision) "BUY" then "BUY" else "SELL" in
      let ctx :=
        {| ctx_symbol := tick_symbol tick;
           ctx_side := side;
           ctx_price := if String.eqb side "BUY" then tick_ask tick
                        else tick_bid tick;
           ctx_stop_loss := sl;
           ctx_take_profit := take_profit decision;
           ctx_spread := tick_spread tick;
           ctx_volatility := tick_volatility tick |} in
      if String.eqb side "BUY" && Qgeb (ctx_stop_loss ctx) (ctx_price ctx) then
        ret (rejected msg_stop_buy)
      else if String.eqb side "SELL"
              && Qle_bool (ctx_stop_loss ctx) (ctx_price ctx) then
        ret (rejected msg_stop_sell)
      else
        approved <-
          except_RiskViolation
            (size <- on_risk (validate_order config ctx account positions) ;;
             ret (inr size))
            (fun msg => ret (inl (rejected msg))) ;;
        match approved with
        | inl result => ret result
        | inr size =>
            let order :=
              {| order_symbol := tick_symbol tick;
                 order_side := side;
                 order_size := size;
                 order_price := ctx_price ctx;
                 order_stop_loss := sl;
                 order_take_profit := take_profit decision;
                 order_type := "MARKET";
                 order_time_in_force := "IOC";
                 order_client_id := magic_number config |} in
            result <- on_broker (submit_order config env order) ;;
            if negb (success result) then ret result else ret result
        end
  end.

(** ** state.py *)

(** The Python values that [json] writes and reads back. *)
#[warnings="-register-all"]
Inductive pyval : Type :=
| PNone
| PBool (b : bool)
| PFloat (x : Q)
| PStr (s : string)
| PList (items : list pyval)
| PDict (items : list (string * pyval)).

(** Library functions used by the state store: [json.dumps(_, indent=2)],
    [json.loads] (which raises [JSONDecodeError] on malformed text) and
    [Path.with_suffix]. *)
Record Library : Type := mkLibrary {
  json_dumps : pyval -> string;
  json_loads : string -> Res pyval;
  with_suffix : string -> string -> string
}.

Record StateManager : Type := mkStateManager {
  path : string;
  sm_initial_balance : Q
}.

(** The files of the state directory: the bytes of each file by path. *)
Abbreviation FileSystem := (gmap string string).

(** Whether the bytes are well-formed UTF-8, as the strict [utf-8] codec
    demands: [need] continuation bytes are still due, the next of them
    within [lo] and [hi]. *)
Fixpoint utf8_from (need : nat) (lo hi : N) (bytes : string) : bool :=
  match bytes with
  | EmptyString => Nat.eqb need 0
  | String c rest =>
      let n := N_of_ascii c in
      match need with
      | O =>
          if (n <? 128)%N then utf8_from 0 128 191 rest
          else if (194 <=? n)%N && (n <=? 223)%N then utf8_from 1 128 191 rest
          else if (n =? 224)%N then utf8_from 2 160 191 rest
          else if (n =? 237)%N then utf8_from 2 128 159 rest
          else if (225 <=? n)%N && (n <=? 239)%N then utf8_from 2 128 191 rest
          else if (n =? 240)%N then utf8_from 3 144 191 rest
          else if (241 <=? n)%N && (n <=? 243)%N then utf8_from 3 128 191 rest
          else if (n =? 244)%N then utf8_from 3 128 143 rest
          else false
      | S k =>
          if (lo <=? n)%N && (n <=? hi)%N then utf8_from k 128 191 rest
          else false
      end
  end.

Definition utf8_valid (bytes : string) : bool := utf8_from 0 128 191 bytes.

(** The newline translation of a file opened for reading in text mode:
    a carriage return, with or without a line feed after it, is read as a
    line feed. *)
Fixpoint universal_newlines (text : string) : string :=
  match text with
  | EmptyString => EmptyString
  | String c rest =>
      if Ascii.eqb c "013" then
        String "010"
               match rest with
               | String c2 rest2 =>
                   if Ascii.eqb c2 "010" then universal_newlines rest2
                   else universal_newlines rest
               | EmptyString => EmptyString
               end
      else String c (universal_newlines rest)
  end.

(** [Path.read_text(encoding="utf-8")] on the bytes of an existing file:
    bytes that are not UTF-8 raise [UnicodeDecodeError]. *)
Definition read_text (bytes : string) : Res string :=
  if utf8_valid bytes then Ok (universal_newlines bytes)
  else Raise (OtherError "UnicodeDecodeError").

(** [today] is [datetime.date.today().isoformat()]. *)
Definition _default_state (self : StateManager) (today : string) : pyval :=
  PDict [ ("positions", PDict []);
          ("equity", PFloat (sm_initial_balance self));
          ("balance", PFloat (sm_initial_balance self));
          ("unrealized", PFloat 0);
          ("margin_used", PFloat 0);
          ("daily_start_equity", PFloat (sm_initial_balance self));
          ("equity_peak", PFloat (sm_initial_balance self));
          ("trading_day", PStr today) ].

Definition load (lib : Library) (self : StateManager) (today : string)
  : M FileSystem pyval :=
  fs <- get ;;
  match fs !! path self with
  | None => ret (_default_state self today)
  | Some bytes =>
      (* try: read_text, json.loads; except json.JSONDecodeError *)
      fun s => match (content <- lift_res (read_text bytes) ;;
                      lift_res (json_loads lib content)) s with
               | (Raise JSONDecodeError, s') => (Ok (_default_state self today), s')
               | r => r
               end
  end.

Definition persist (lib : Library) (self : StateManager) (state : pyval)
  : M FileSystem unit :=
  let temp_path := with_suffix lib (path self) ".tmp" in
  (* temp_path.write_text(...) *)
  modify (fun fs => <[temp_path := json_dumps lib state]> fs) ;;;
  (* temp_path.replace(self.path) *)
  fs <- get ;;
  match fs !! temp_path with
  | Some content =>
      modify (fun fs => <[path self := content]> (delete temp_path fs))
  | None => raise (OtherError "FileNotFoundError")
  end.

(** ** Marking to market *)

Definition mark_position (mid_price : Q) (p : Position) : Position :=
  set_pnl p ((mid_price - pos_entry p) * pos_size p).

Definition unrealized_at (mid_price : Q) (ps : list (string * Position)) (u : Q) : Q :=
  fold_left (fun acc kp => acc + pos_pnl (mark_position mid_price (snd kp))) ps u.

Definition margin_at (config : AppConfig) (mid_price : Q)
    (ps : list (string * Position)) (m : Q) : Q :=
  fold_left (fun acc kp => acc + Qabs (pos_size (snd kp) * mid_price)
                                 / leverage_limit config) ps m.

Definition marked_into (mid_price : Q) (ps : list (string * Position))
    (m : gmap string Position) : gmap string Position :=
  fold_left (fun m kp => <[fst kp := mark_position mid_price (snd kp)]> m) ps m.

Ltac run_m :=
  unfold bind, get, modify, ret, raise, lift_res; simpl.

(** What a completed [_mark_positions] leaves behind. *)
Definition marked_broker (config : AppConfig) (mid : Q) (b : Broker) : Broker :=
  {| connected := connected b;
     balance := balance b;
     equity := balance b + unrealized_at mid (map_to_list (positions b)) 0;
     margin_used := margin_at config mid (map_to_list (positions b)) 0;
     positions := mark_position mid <$> positions b;
     _last_prices := _last_prices b |}.

(** The ledger invariant. *)
Definition ledger_invariant (b : Broker) : Prop :=
  equity b == balance b + sum_pnl (positions b).

(** ** Filling an order *)

Definition same_direction (p : Position) (signed_size : Q) : bool :=
  Qeq_bool (pos_size p) 0
  || (Qgtb (pos_size p) 0 && Qgtb signed_size 0)
  || (Qltb (pos_size p) 0 && Qltb signed_size 0).

Definition realized_pnl (p : Position) (fill_price signed_size : Q) : Q :=
  (fill_price - pos_entry p)
  * Qmin (Qabs (pos_size p)) (Qabs signed_size)
  * (if Qgtb (pos_size p) 0 then 1 else -1).

Definition position_after (p : Position) (fill_price signed_size : Q) : Position :=
  let new_size := pos_size p + signed_size in
  if same_direction p signed_size then
    if Qeq_bool (pos_size p) 0 then set_size p new_size
    else set_size
           (set_entry p ((pos_entry p * Qabs (pos_size p)
                          + fill_price * Qabs signed_size) / Qabs new_size))
           new_size
  else
    if Qeq_bool new_size 0 then set_entry (set_size p new_size) 0
    else set_entry (set_size p new_size) fill_price.

(** The ledger after the position update of a fill at mid price [mid],
    before the marking. *)
Definition filled_broker (config : AppConfig) (order : OrderRequest) (mid : Q)
    (b : Broker) : Broker :=
  let fill_price := fill_price_of config (order_side order) mid in
  let p := default {| pos_size := 0; pos_entry := fill_price; pos_pnl := 0 |}
                   (positions b !! order_symbol order) in
  let s := signed_size_of order in
  let p' := mark_position mid (position_after p fill_price s) in
  set_positions
    (if Qeq_bool (pos_size p') 0 then delete (order_symbol order) (positions b)
     else <[order_symbol order := p']> (positions b))
    (if same_direction p s then b
     else set_balance (balance b + realized_pnl p fill_price s) b).

Definition filled_result (config : AppConfig) (env : Env) (order : OrderRequest)
    (mid : Q) : OrderResult :=
  mkResult true (order_size order)
           (Some (fill_price_of config (order_side order) mid)) None
           (Some (order_client_id order ++ "-"
                  ++ str_of_int (py_int (time_now env * 1000)))).

(** Scenario data: a connected ledger long 10 at 2000, with the last mid
    price at 2010.15, and a SELL of 15. *)
Definition scenario_broker : Broker :=
  {| connected := true; balance := 30000; equity := 30000; margin_used := 0;
     positions := {[ "XAUUSD" := mkPosition 10 2000 0 ]};
     _last_prices := [("XAUUSD", 201015 # 100)] |}.

Definition scenario_sell : OrderRequest :=
  mkOrder "XAUUSD" "SELL" 15 (201005 # 100) 2020 None "MARKET" "IOC" "ALGOBOT-001".

Definition scenario_env : Env :=
  mkEnv (Raise (RuntimeError "Empty price history from yfinance")) 1700000000.

(** ** Opposite-direction fills (C1) *)

Definition opposes (old_size signed_size : Q) : Prop :=
  (0 < old_size /\ signed_size < 0) \/ (old_size < 0 /\ 0 < signed_size).


(** The sign of a float: 1, 0 or -1. *)
Definition Qsgn (x : Q) : Q := inject_Z (Z.sgn (Qnum x)).

(** ** What [submit_order] returns (C4) *)

(** A connected ledger that has not seen a price yet. *)
Definition fresh_connected_broker : Broker :=
  {| connected := true; balance := 30000; equity := 30000; margin_used := 0;
     positions := ∅; _last_prices := [] |}.

(** ** The risk gate as a verdict and a state update *)

(** The risk state after the circuit breakers have looked at [equity]. *)
Definition breakers_after (equity : Q) (rm : RiskManager) : RiskManager :=
  let rm1 := match daily_start_equity rm with
             | None => {| daily_start_equity := Some equity;
                          equity_peak := Some equity |}
             | Some _ => rm
             end in
  {| daily_start_equity := daily_start_equity rm1;
     equity_peak :=
       Some (Qmax (match equity_peak rm1 with
                   | Some p => if Qeq_bool p 0 then equity else p
                   | None => equity
                   end) equity) |}.

Definition breakers_verdict (config : AppConfig) (equity : Q) (rm : RiskManager)
  : Res unit :=
  match daily_start_equity (breakers_after equity rm),
        equity_peak (breakers_after equity rm) with
  | Some daily_start, Some peak =>
      if Qle_bool equity (daily_start * (1 - max_daily_loss config))
      then Raise (RiskViolation msg_daily_loss)
      else if Qle_bool equity (peak * (1 - max_drawdown config))
      then Raise (RiskViolation msg_drawdown)
      else Ok tt
  | _, _ => Raise (OtherError "TypeError")
  end.

(** The size computed by [compute_position_size] for a positive stop
    distance. *)
Definition sized (config : AppConfig) (equity stop_distance : Q) : Q :=
  Qmax (equity * risk_per_trade config / stop_distance) 0.

Definition exposure_verdict (config : AppConfig) (symbol : string)
    (price size : Q) (account : Account) (positions : gmap string Position)
  : Res unit :=
  let notional := price * size in
  match fdiv notional (leverage_limit config) with
  | Raise e => Raise e
  | Ok d =>
      if Qgtb (acc_margin_used account + d) (acc_equity account)
      then Raise (RiskViolation msg_margin)
      else if Qgtb (Qabs (match positions !! symbol with
                          | Some p => pos_size p
                          | None => 0
                          end * price) + notional)
                   (acc_equity account * max_symbol_exposure config)
      then Raise (RiskViolation msg_symbol_exposure)
      else if Qgtb (aggregate_notional positions price + notional)
                   (acc_equity account * max_global_exposure config)
      then Raise (RiskViolation msg_global_exposure)
      else Ok tt
  end.

Definition validate_verdict (config : AppConfig) (ctx : OrderContext)
    (account : Account) (positions : gmap string Position) (rm : RiskManager)
  : Res Q :=
  match breakers_verdict config (acc_equity account) rm with
  | Raise e => Raise e
  | Ok _ =>
      let stop_distance := Qabs (ctx_price ctx - ctx_stop_loss ctx) in
      if Qle_bool stop_distance 0 then Raise (RiskViolation msg_stop_distance)
      else
        let size := sized config (acc_equity account) stop_distance in
        if Qle_bool size 0 then Raise (RiskViolation msg_zero_size)
        else match exposure_verdict config (ctx_symbol ctx) (ctx_price ctx)
                                    size account positions with
             | Raise e => Raise e
             | Ok _ => Ok size
             end
  end.

(** ** Sizing (C6) *)

Definition scenario_context : OrderContext :=
  mkContext "XAUUSD" "BUY" 2000 1990 None (2 # 10) 0.

Definition scenario_account : Account :=
  mkAccount 30000 30000 0 0.

(** ** Global exposure (C7) *)

(** The aggregate notional with each position valued at its own (entry)
    price. *)
Definition own_price_notional (positions : gmap string Position) : Q :=
  fold_left (fun acc kp => acc + Qabs (pos_size (snd kp) * pos_entry (snd kp)))
            (map_to_list positions) 0.

(** The condition of C7 as stated. *)
Definition claimed_global_condition (config : AppConfig) (ctx : OrderContext)
    (account : Account) (positions : gmap string Position) : Prop :=
  let size := acc_equity account * risk_per_trade config
              / Qabs (ctx_price ctx - ctx_stop_loss ctx) in
  acc_equity account * max_global_exposure config
  < own_price_notional positions + ctx_price ctx * size.

Definition wide_stop_context : OrderContext :=
  mkContext "XAUUSD" "BUY" 2000 1980 None (2 # 10) 0.

Definition tight_stop_context : OrderContext :=
  mkContext "XAUUSD" "BUY" 2000 1999 None (2 # 10) 0.

Definition other_symbol_positions : gmap string Position :=
  {[ "EURUSD" := mkPosition 25 1 0 ]}.

(** ** The daily-loss breaker (C3) *)

(** Successive calls of [validate_order] on one risk manager, with no daily
    reset in between. *)
Fixpoint validate_all (config : AppConfig)
    (calls : list (OrderContext * Account * gmap string Position))
    (rm : RiskManager) : list (Res Q) * RiskManager :=
  match calls with
  | [] => ([], rm)
  | (ctx, account, positions) :: rest =>
      let '(r, rm1) := validate_order config ctx account positions rm in
      let '(rs, rm2) := validate_all config rest rm1 in
      (r :: rs, rm2)
  end.

Definition daily_loss_reached (config : AppConfig) (daily_start equity : Q) : Prop :=
  equity <= daily_start * (1 - max_daily_loss config).

(** ** The execution pipeline (C8) *)

Definition side_of (decision : ExecutionDecision) : string :=
  if String.eqb (signal decision) "BUY" then "BUY" else "SELL".

Definition entry_price (tick : PriceTick) (decision : ExecutionDecision) : Q :=
  if String.eqb (side_of decision) "BUY" then tick_ask tick else tick_bid tick.

Definition context_of (tick : PriceTick) (decision : ExecutionDecision) (sl : Q)
  : OrderContext :=
  {| ctx_symbol := tick_symbol tick;
     ctx_side := side_of decision;
     ctx_price := entry_price tick decision;
     ctx_stop_loss := sl;
     ctx_take_profit := take_profit decision;
     ctx_spread := tick_spread tick;
     ctx_volatility := tick_volatility tick |}.

Definition request_of (config : AppConfig) (tick : PriceTick)
    (decision : ExecutionDecision) (sl size : Q) : OrderRequest :=
  {| order_symbol := tick_symbol tick;
     order_side := side_of decision;
     order_size := size;
     order_price := entry_price tick decision;
     order_stop_loss := sl;
     order_take_profit := take_profit decision;
     order_type := "MARKET";
     order_time_in_force := "IOC";
     order_client_id := magic_number config |}.

(** The three filters that come before the risk manager. *)
Definition gates_pass (config : AppConfig) (tick : PriceTick)
    (decision : ExecutionDecision) (sl : Q) : Prop :=
  tick_spread tick <= spread_limit config
  /\ tick_volatility tick <= volatility_limit config
  /\ (signal decision = "BUY" -> sl < tick_ask tick)
  /\ (signal decision <> "BUY" -> tick_bid tick < sl).

Definition scenario_tick : PriceTick :=
  mkTick "XAUUSD" (19999 # 10) (20001 # 10) 1700000000 (2 # 10) 0
         None None None None.

Definition buy_decision : ExecutionDecision :=
  mkDecision "BUY" (Some 1990) None.


Definition zero_leverage_config : AppConfig :=
  mkConfig ["XAUUSD"] "GC=F" (5 # 1000) 2 1 (2 # 100) (1 # 10) 0 (1 # 2)
           (2 # 100) (2 # 10) (5 # 100) "ALGOBOT-001" 30000.

Definition wide_spread_tick : PriceTick :=
  mkTick "XAUUSD" (19996 # 10) (20004 # 10) 1700000000 (8 # 10) 0
         None None None None.


(** ** The state store (C9) *)

(** [value[key]] on a dictionary value. *)
Definition py_get (key : string) (v : pyval) : option pyval :=
  match v with
  | PDict items => dict_get key items
  | _ => None
  end.

(** A writer and a reader for a fragment of JSON, to run the state store on
    concrete files: objects, arrays, [null], booleans, strings without
    escapes and finite decimal numbers, written with [indent=2]. *)
Module MiniJson.

Definition quote : string := String "034"%char EmptyString.
Definition newline : string := String "010"%char EmptyString.

Fixpoint spaces (n : nat) : string :=
  match n with
  | O => EmptyString
  | S k => " " ++ spaces k
  end.

Definition digit_char (d : Z) : ascii := Ascii.ascii_of_nat (48 + Z.to_nat d).

Fixpoint frac_digits (fuel : nat) (r d : Z) : string :=
  match fuel with
  | O => EmptyString
  | S k => if (r =? 0)%Z then EmptyString
           else String (digit_char (r * 10 / d))
                       (frac_digits k ((r * 10) mod d) d)
  end.

Definition print_float (x : Q) : string :=
  let n := Z.abs (Qnum x) in
  let d := Zpos (Qden x) in
  let frac := frac_digits 17 (n mod d) d in
  (if (Qnum x <? 0)%Z then "-" else EmptyString)
  ++ str_of_int (n / d) ++ "."
  ++ (if String.eqb frac EmptyString then "0" else frac).

Fixpoint join (sep : string) (parts : list string) : string :=
  match parts with
  | [] => EmptyString
  | [p] => p
  | p :: rest => p ++ sep ++ join sep rest
  end.

Fixpoint print (depth : nat) (v : pyval) : string :=
  let inner := newline ++ spaces (2 * S depth) in
  let outer := newline ++ spaces (2 * depth) in
  match v with
  | PNone => "null"
  | PBool true => "true"
  | PBool false => "false"
  | PFloat x => print_float x
  | PStr s => quote ++ s ++ quote
  | PList [] => "[]"
  | PList items =>
      "[" ++ inner
      ++ join ("," ++ inner) (List.map (print (S depth)) items)
      ++ outer ++ "]"
  | PDict [] => "{}"
  | PDict items =>
      "{" ++ inner
      ++ join ("," ++ inner)
           (List.map (fun kv => quote ++ fst kv ++ quote ++ ": "
                                ++ print (S depth) (snd kv)) items)
      ++ outer ++ "}"
  end.

Definition dumps (v : pyval) : string := print 0 v.

Definition is_space (c : ascii) : bool :=
  Ascii.eqb c " " || Ascii.eqb c "010" || Ascii.eqb c "009" || Ascii.eqb c "013".

Definition digit_value (c : ascii) : option Z :=
  let n := Ascii.nat_of_ascii c in
  if (48 <=? n)%nat && (n <=? 57)%nat then Some (Z.of_nat (n - 48)) else None.

Fixpoint skip_spaces (s : string) : string :=
  match s with
  | String c rest => if is_space c then skip_spaces rest else s
  | EmptyString => s
  end.

Fixpoint take_digits (acc : Z) (count : nat) (s : string) : Z * nat * string :=
  match s with
  | String c rest =>
      match digit_value c with
      | Some d => take_digits (acc * 10 + d) (S count) rest
      | None => (acc, count, s)
      end
  | EmptyString => (acc, count, s)
  end.

Definition parse_unsigned (s : string) : option (Q * string) :=
  let '(whole, n1, rest) := take_digits 0 0 s in
  match n1, rest with
  | O, _ => None
  | _, String "." rest' =>
      let '(frac, n2, rest'') := take_digits 0 0 rest' in
      match n2 with
      | O => None
      | _ => Some (Qred (inject_Z whole
                         + Qmake frac (Z.to_pos (10 ^ Z.of_nat n2))), rest'')
      end
  | _, _ => Some (inject_Z whole, rest)
  end.

Definition parse_number (s : string) : option (Q * string) :=
  match s with
  | String "-" rest =>
      match parse_unsigned rest with
      | Some (x, rest') => Some (Qred (- x), rest')
      | None => None
      end
  | _ => parse_unsigned s
  end.

(** The characters up to the closing quote; a backslash is refused. *)
Fixpoint parse_chars (s : string) : option (string * string) :=
  match s with
  | String c rest =>
      if Ascii.eqb c "034" then Some (EmptyString, rest)
      else if Ascii.eqb c "092" then None
      else match parse_chars rest with
           | Some (body, rest') => Some (String c body, rest')
           | None => None
           end
  | EmptyString => None
  end.

Definition expect (word : string) (v : pyval) (s : string)
  : option (pyval * string) :=
  if String.prefix word s
  then Some (v, String.substring (String.length word)
                                 (String.length s - String.length word) s)
  else None.

Fixpoint parse_value (fuel : nat) (s : string) : option (pyval * string) :=
  match fuel with
  | O => None
  | S fuel' =>
      match skip_spaces s with
      | String "n" _ => expect "null" PNone (skip_spaces s)
      | String "t" _ => expect "true" (PBool true) (skip_spaces s)
      | String "f" _ => expect "false" (PBool false) (skip_spaces s)
      | String "034" rest =>
          match parse_chars rest with
          | Some (body, rest') => Some (PStr body, rest')
          | None => None
          end
      | String "[" rest =>
          match skip_spaces rest with
          | String "]" rest' => Some (PList [], rest')
          | _ => match parse_elements fuel' rest with
                 | Some (items, rest') => Some (PList items, rest')
                 | None => None
                 end
          end
      | String "{" rest =>
          match skip_spaces rest with
          | String "}" rest' => Some (PDict [], rest')
          | _ => match parse_members fuel' rest with
                 | Some (items, rest') => Some (PDict items, rest')
                 | None => None
                 end
          end
      | _ => match parse_number (skip_spaces s) with
             | Some (x, rest) => Some (PFloat x, rest)
             | None => None
             end
      end
  end
with parse_elements (fuel : nat) (s : string)
  : option (list pyval * string) :=
  match fuel with
  | O => None
  | S fuel' =>
      match parse_value fuel' s with
      | Some (v, rest) =>
          match skip_spaces rest with
          | String "," rest' =>
              match parse_elements fuel' rest' with
              | Some (vs, rest'') => Some (v :: vs, rest'')
              | None => None
              end
          | String "]" rest' => Some ([v], rest')
          | _ => None
          end
      | None => None
      end
  end
with parse_members (fuel : nat) (s : string)
  : option (list (string * pyval) * string) :=
  match fuel with
  | O => None
  | S fuel' =>
      match skip_spaces s with
      | String "034" rest =>
          match parse_chars rest with
          | Some (key, rest1) =>
              match skip_spaces rest1 with
              | String ":" rest2 =>
                  match parse_value fuel' rest2 with
                  | Some (v, rest3) =>
                      match skip_spaces rest3 with
                      | String "," rest4 =>
                          match parse_members fuel' rest4 with
                          | Some (kvs, rest5) => Some ((key, v) :: kvs, rest5)
                          | None => None
                          end
                      | String "}" rest4 => Some ([(key, v)], rest4)
                      | _ => None
                      end
                  | None => None
                  end
              | _ => None
              end
          | None => None
          end
      | _ => None
      end
  end.

Definition loads (s : string) : Res pyval :=
  match parse_value (S (String.length s)) s with
  | Some (v, rest) =>
      match skip_spaces rest with
      | EmptyString => Ok v
      | _ => Raise JSONDecodeError
      end
  | None => Raise JSONDecodeError
  end.

(** [Path.with_suffix] on a plain file name: the part after the last dot
    is replaced. *)
Fixpoint stem (name : string) : string :=
  match name with
  | EmptyString => EmptyString
  | String c rest =>
      if Ascii.eqb c "." && negb (existsb (Ascii.eqb ".") (list_ascii_of_string rest))
      then EmptyString
      else String c (stem rest)
  end.

Definition library : Library :=
  {| json_dumps := dumps;
     json_loads := loads;
     with_suffix := fun name suffix => stem name ++ suffix |}.

End MiniJson.

Definition the_state_manager : StateManager := mkStateManager "state.json" 30000.

(** ** Same-direction fills (C5) *)










Definition scenario_buy : OrderRequest :=
  mkOrder "XAUUSD" "BUY" 5 (20103 # 10) 1990 None "MARKET" "IOC" "ALGOBOT-001".

Definition quote_env (close : Q) : Env :=
  mkEnv (Ok (close, close, close, close)) 1700000000.


(** * Further code: connection, backoff, engine and strategy *)

(** ** broker.py: connection *)

Definition set_connected (v : bool) (b : Broker) : Broker :=
  {| connected := v; balance := balance b; equity := equity b;
     margin_used := margin_used b; positions := positions b;
     _last_prices := _last_prices b |}.

(** [connect]: a quick fetch validates the data source; the flag is set
    only when the fetch returned. *)
Definition connect (env : Env) : M Broker unit :=
  lift_res (fetch_price env) ;;;
  modify (set_connected true).

Definition close : M Broker unit :=
  modify (set_connected false).

(** The size and the entry price of every position: what a marking leaves
    alone. *)
Definition legs (m : gmap string Position) : gmap string (Q * Q) :=
  (fun p => (pos_size p, pos_entry p)) <$> m.

(** No position of the map is flat. *)
Definition no_flat_positions (b : Broker) : Prop :=
  forall k p, positions b !! k = Some p -> ~ pos_size p == 0.

(** A connected ledger that knows one price and holds no position. *)
Definition priced_broker : Broker :=
  {| connected := true; balance := 30000; equity := 30000; margin_used := 0;
     positions := ∅; _last_prices := [("XAUUSD", 2000)] |}.

(** ** utils.py *)

(** [min(max_delay, base * (2**attempt))] with a float [base] and an
    integer [attempt].  The power is an exact integer, which the product
    converts to a float: from [2**1024] on the conversion raises
    [OverflowError]. *)
Definition compute_backoff (attempt : Z) (base max_delay : Q) : Res Q :=
  if (1024 <=? attempt)%Z then Raise (OtherError "OverflowError")
  else Ok (Qmin max_delay (base * 2 ^ attempt)).

(** ** engine.py: connecting *)

(** The two reconnection settings of the configuration. *)
Record Backoff : Type := mkBackoff {
  reconnect_base : Q;
  reconnect_max : Q
}.

(** The loop of [_connect_with_backoff].  Each turn of the loop sees one
    element of [world]: whether the cancel event is set when the loop tests
    it, and the outside world of the connection attempt.  The result is the
    list of the delays slept, and whether the loop has ended within the
    turns observed; a call that raises reports no delays. *)
Fixpoint connect_loop (bo : Backoff) (world : list (bool * Env)) (attempt : Z)
  : M Broker (list Q * bool) :=
  b <- get ;;
  if connected b then ret ([], true)
  else
    match world with
    | [] => ret ([], false)
    | (cancelled, env) :: rest =>
        if (cancelled : bool) then ret ([], true)
        else
          done <- try_catch (connect env ;;; ret true) (fun _ => ret false) ;;
          if (done : bool) then ret ([], true)
          else
            (* inside the except handler: an exception of compute_backoff
               leaves the loop *)
            delay <- lift_res (compute_backoff attempt (reconnect_base bo)
                                               (reconnect_max bo)) ;;
            r <- connect_loop bo rest (attempt + 1) ;;
            ret (delay :: fst r, snd r)
    end.

Definition _connect_with_backoff (bo : Backoff) (world : list (bool * Env))
  : M Broker (list Q * bool) :=
  connect_loop bo world 0.

(** The delays of [n] failed attempts in a row, from attempt [attempt] on. *)
Definition backoff_delays (bo : Backoff) (attempt : Z) (n : nat) : list Q :=
  List.map (fun i => Qmin (reconnect_max bo)
                          (reconnect_base bo * 2 ^ (attempt + Z.of_nat i)))
           (seq 0 n).

(** A turn in which the loop is not cancelled and the fetch fails. *)
Definition failing_turn (turn : bool * Env) : Prop :=
  fst turn = false /\ exists e, fetch_price (snd turn) = Raise e.

(** ** strategy.py: the interface *)

Record StrategyDecision : Type := mkStrategyDecision {
  sd_signal : string;
  sd_stop_loss : option Q;
  sd_take_profit : option Q
}.

(** A strategy is a state and a [get_signal] method on it. *)
Class Strategy (S : Type) : Type := {
  get_signal : PriceTick -> M S StrategyDecision
}.

(** [BaseStrategy.get_signal] raises [NotImplementedError]. *)
#[global] Instance BaseStrategy : Strategy unit :=
  {| get_signal := fun _ => raise (OtherError "NotImplementedError") |}.

(** ** engine.py: handling a tick *)

(** A value of the [_state] dictionary: a value of its own, or the
    positions dictionary of the broker itself, which [_handle_tick] stores
    by reference. *)
Inductive stval : Type :=
| Own (v : pyval)
| BrokerPositions.

(** The engine with the objects it shares with the order handler (the
    broker and the risk manager), the strategy, the files of the state
    store, and [_state]. *)
Record Engine (S : Type) : Type := mkEngine {
  eng_handler : OrderHandler;
  eng_strategy : S;
  eng_files : FileSystem;
  _state : list (string * stval)
}.
Arguments mkEngine {S} _ _ _ _.
Arguments eng_handler {S} _.
Arguments eng_strategy {S} _.
Arguments eng_files {S} _.
Arguments _state {S} _.

Definition on_handler {S A} (c : M OrderHandler A) : M (Engine S) A :=
  fun e => let '(r, h) := c (eng_handler e) in
           (r, mkEngine h (eng_strategy e) (eng_files e) (_state e)).

Definition on_strategy {S A} (c : M S A) : M (Engine S) A :=
  fun e => let '(r, s) := c (eng_strategy e) in
           (r, mkEngine (eng_handler e) s (eng_files e) (_state e)).

Definition on_files {S A} (c : M FileSystem A) : M (Engine S) A :=
  fun e => let '(r, fs) := c (eng_files e) in
           (r, mkEngine (eng_handler e) (eng_strategy e) fs (_state e)).

Definition set_state {S} (st : list (string * stval)) (e : Engine S) : Engine S :=
  mkEngine (eng_handler e) (eng_strategy e) (eng_files e) st.

Definition set_risk_manager {S} (rm : RiskManager) (e : Engine S) : Engine S :=
  mkEngine {| risk_manager := rm; broker := broker (eng_handler e) |}
           (eng_strategy e) (eng_files e) (_state e).

Definition py_of_option (x : option Q) : pyval :=
  match x with
  | Some v => PFloat v
  | None => PNone
  end.

Definition py_of_position (p : Position) : pyval :=
  PDict [ ("size", PFloat (pos_size p));
          ("entry", PFloat (pos_entry p));
          ("pnl", PFloat (pos_pnl p)) ].

(** The positions dictionary as a value; the symbols come in the order of
    the map, where Python lists them in the order of insertion. *)
Definition py_of_positions (m : gmap string Position) : pyval :=
  PDict (prod_map id py_of_position <$> map_to_list m).

(** What [json.dumps] sees in [_state] at the time of the call: the
    positions are read from the broker then. *)
Definition snapshot (st : list (string * stval)) (b : Broker) : pyval :=
  PDict (List.map (fun kv => (fst kv, match snd kv with
                                      | Own v => v
                                      | BrokerPositions =>
                                          py_of_positions (positions b)
                                      end)) st).

(** [signal not in (BUY, SELL, HOLD)] falls back to HOLD. *)
Definition _map_strategy_decision (sd : StrategyDecision) : ExecutionDecision :=
  let signal := sd_signal sd in
  let signal :=
    if negb (String.eqb signal "BUY" || String.eqb signal "SELL"
             || String.eqb signal "HOLD")
    then "HOLD" else signal in
  {| signal := signal;
     stop_loss := sd_stop_loss sd;
     take_profit := sd_take_profit sd |}.

(** [self._state.get("trading_day") != today]. *)
Definition day_changed (st : list (string * stval)) (today : string) : bool :=
  match dict_get "trading_day" st with
  | Some (Own (PStr day)) => negb (String.eqb day today)
  | _ => true
  end.

(** The bookkeeping of [_handle_tick] between the account refresh and the
    strategy: the day rollover, [_state.update(account)] and the three
    assignments to [_state]. *)
Definition note_account {S} (today : string) (account : Account)
  : M (Engine S) unit :=
  e <- get ;;
  (if day_changed (_state e) today then
     modify (fun e => set_state (dict_set "trading_day" (Own (PStr today))
                                          (_state e)) e) ;;;
     modify (set_risk_manager
               {| daily_start_equity := Some (acc_equity account);
                  equity_peak := Some (acc_equity account) |})
   else ret tt) ;;;
  modify (fun e =>
    set_state
      (dict_set "unrealized" (Own (PFloat (acc_unrealized account)))
         (dict_set "margin_used" (Own (PFloat (acc_margin_used account)))
            (dict_set "equity" (Own (PFloat (acc_equity account)))
               (dict_set "balance" (Own (PFloat (acc_balance account)))
                  (_state e))))) e) ;;;
  modify (fun e => set_state (dict_set "positions" BrokerPositions (_state e)) e) ;;;
  modify (fun e =>
    let rm := risk_manager (eng_handler e) in
    set_state
      (dict_set "equity_peak" (Own (py_of_option (equity_peak rm)))
         (dict_set "daily_start_equity"
                   (Own (py_of_option (daily_start_equity rm)))
                   (_state e))) e).

Definition _handle_tick {S} `{Strategy S} (config : AppConfig) (lib : Library)
    (self : StateManager) (env : Env) (today : string) (tick : PriceTick)
  : M (Engine S) unit :=
  account <- on_handler (on_broker (get_account_info config)) ;;
  note_account today account ;;;
  sd <- on_strategy (get_signal tick) ;;
  let decision := _map_strategy_decision sd in
  if String.eqb (signal decision) "HOLD" then ret tt
  else
    e <- get ;;
    result <- on_handler (execute config env tick decision account
                                  (positions (broker (eng_handler e)))) ;;
    if success result then
      e <- get ;;
      on_files (persist lib self (snapshot (_state e) (broker (eng_handler e))))
    else ret tt.

Definition set_handler {S} (h : OrderHandler) (e : Engine S) : Engine S :=
  mkEngine h (eng_strategy e) (eng_files e) (_state e).

Definition set_strategy {S} (s : S) (e : Engine S) : Engine S :=
  mkEngine (eng_handler e) s (eng_files e) (_state e).

Definition set_files {S} (fs : FileSystem) (e : Engine S) : Engine S :=
  mkEngine (eng_handler e) (eng_strategy e) fs (_state e).

Definition set_broker {S} (b : Broker) (e : Engine S) : Engine S :=
  mkEngine {| risk_manager := risk_manager (eng_handler e); broker := b |}
           (eng_strategy e) (eng_files e) (_state e).

Definition priced_handler : OrderHandler :=
  {| risk_manager := new_risk_manager; broker := priced_broker |}.

(** ** strategy.py: the trend-following strategy *)

(** The parameters and the per-symbol indicator state of
    [TrendFollowingStrategy].  The dictionaries only ever receive floats. *)
Record TrendFollowingStrategy : Type := mkTrend {
  fast_period : Z;
  slow_period : Z;
  rsi_period : Z;
  atr_period : Z;
  atr_multiplier : Q;
  fast_ema : gmap string Q;
  slow_ema : gmap string Q;
  atr : gmap string Q;
  prev_close : gmap string Q;
  avg_gain : gmap string Q;
  avg_loss : gmap string Q;
  rsi_seed : gmap string (list Q)
}.

(** [TrendFollowingStrategy(...)] with the given parameters. *)
Definition new_trend (fast slow rsi atr_p : Z) (mult : Q) : TrendFollowingStrategy :=
  mkTrend fast slow rsi atr_p mult ∅ ∅ ∅ ∅ ∅ ∅ ∅.

Definition default_trend : TrendFollowingStrategy := new_trend 9 21 14 14 2.

Definition set_fast_ema (v : gmap string Q) (s : TrendFollowingStrategy) :=
  mkTrend (fast_period s) (slow_period s) (rsi_period s) (atr_period s)
          (atr_multiplier s) v (slow_ema s) (atr s) (prev_close s)
          (avg_gain s) (avg_loss s) (rsi_seed s).
Definition set_slow_ema (v : gmap string Q) (s : TrendFollowingStrategy) :=
  mkTrend (fast_period s) (slow_period s) (rsi_period s) (atr_period s)
          (atr_multiplier s) (fast_ema s) v (atr s) (prev_close s)
          (avg_gain s) (avg_loss s) (rsi_seed s).
Definition set_atr (v : gmap string Q) (s : TrendFollowingStrategy) :=
  mkTrend (fast_period s) (slow_period s) (rsi_period s) (atr_period s)
          (atr_multiplier s) (fast_ema s) (slow_ema s) v (prev_close s)
          (avg_gain s) (avg_loss s) (rsi_seed s).
Definition set_prev_close (v : gmap string Q) (s : TrendFollowingStrategy) :=
  mkTrend (fast_period s) (slow_period s) (rsi_period s) (atr_period s)
          (atr_multiplier s) (fast_ema s) (slow_ema s) (atr s) v
          (avg_gain s) (avg_loss s) (rsi_seed s).
Definition set_avg_gain (v : gmap string Q) (s : TrendFollowingStrategy) :=
  mkTrend (fast_period s) (slow_period s) (rsi_period s) (atr_period s)
          (atr_multiplier s) (fast_ema s) (slow_ema s) (atr s) (prev_close s)
          v (avg_loss s) (rsi_seed s).
Definition set_avg_loss (v : gmap string Q) (s : TrendFollowingStrategy) :=
  mkTrend (fast_period s) (slow_period s) (rsi_period s) (atr_period s)
          (atr_multiplier s) (fast_ema s) (slow_ema s) (atr s) (prev_close s)
          (avg_gain s) v (rsi_seed s).
Definition set_rsi_seed (v : gmap string (list Q)) (s : TrendFollowingStrategy) :=
  mkTrend (fast_period s) (slow_period s) (rsi_period s) (atr_period s)
          (atr_multiplier s) (fast_ema s) (slow_ema s) (atr s) (prev_close s)
          (avg_gain s) (avg_loss s) v.

(** [_ema]: the price itself when there is no previous value. *)
Definition _ema (price : Q) (prev : option Q) (period : Z)
  : M TrendFollowingStrategy Q :=
  match prev with
  | None => ret price
  | Some prev =>
      k <- lift_res (fdiv 2 (inject_Z (period + 1))) ;;
      ret (price * k + prev * (1 - k))
  end.

(** [deque.append] on a deque of the given [maxlen]: the oldest elements
    give way. *)
Definition deque_append (maxlen : Z) (items : list Q) (x : Q) : list Q :=
  let items := (items ++ [x])%list in
  drop (length items - Z.to_nat maxlen) items.

(** [sum] of a list of floats. *)
Definition fsum (xs : list Q) : Q := fold_left Qplus xs 0.

(** The first half of [_update_rsi] after the previous close is known: the
    update of the two averages.  [false] stands for the early [return None]
    while the seed is still short. *)
Definition update_averages (symbol : string) (close delta : Q)
  : M TrendFollowingStrategy bool :=
  let gain := Qmax delta 0 in
  let loss := Qmax (- delta) 0 in
  self <- get ;;
  match avg_gain self !! symbol with
  | None =>
      (* deque(maxlen=...) is built before setdefault looks the key up *)
      (if (rsi_period self <? 0)%Z
       then raise (OtherError "ValueError") else ret tt) ;;;
      let seed := deque_append (rsi_period self)
                               (default [] (rsi_seed self !! symbol)) delta in
      modify (fun s => set_rsi_seed (<[symbol := seed]> (rsi_seed s)) s) ;;;
      if (Z.of_nat (length seed) <? rsi_period self)%Z then
        modify (fun s => set_prev_close (<[symbol := close]> (prev_close s)) s) ;;;
        ret false
      else
        let gains := List.map (fun x => Qmax x 0) seed in
        let losses := List.map (fun x => Qmax (- x) 0) seed in
        g <- lift_res (fdiv (fsum gains) (inject_Z (rsi_period self))) ;;
        modify (fun s => set_avg_gain (<[symbol := g]> (avg_gain s)) s) ;;;
        l <- lift_res (fdiv (fsum losses) (inject_Z (rsi_period self))) ;;
        modify (fun s => set_avg_loss (<[symbol := l]> (avg_loss s)) s) ;;;
        ret true
  | Some old_gain =>
      g <- lift_res (fdiv (old_gain * inject_Z (rsi_period self - 1) + gain)
                          (inject_Z (rsi_period self))) ;;
      modify (fun s => set_avg_gain (<[symbol := g]> (avg_gain s)) s) ;;;
      match avg_loss self !! symbol with
      | None => raise (OtherError "KeyError")
      | Some old_loss =>
          l <- lift_res (fdiv (old_loss * inject_Z (rsi_period self - 1) + loss)
                              (inject_Z (rsi_period self))) ;;
          modify (fun s => set_avg_loss (<[symbol := l]> (avg_loss s)) s) ;;;
          ret true
      end
  end.

Definition _update_rsi (symbol : string) (close : Q)
  : M TrendFollowingStrategy (option Q) :=
  self <- get ;;
  match prev_close self !! symbol with
  | None =>
      modify (fun s => set_prev_close (<[symbol := close]> (prev_close s)) s) ;;;
      ret None
  | Some prev =>
      let delta := close - prev in
      continue <- update_averages symbol close delta ;;
      if (continue : bool) then
        modify (fun s => set_prev_close (<[symbol := close]> (prev_close s)) s) ;;;
        self <- get ;;
        match avg_gain self !! symbol, avg_loss self !! symbol with
        | Some g, Some l =>
            (* [x or 0.0] *)
            let avg_gain := if Qeq_bool g 0 then 0 else g in
            let avg_loss := if Qeq_bool l 0 then 0 else l in
            if Qeq_bool avg_loss 0 then ret (Some 100)
            else
              rs <- lift_res (fdiv avg_gain avg_loss) ;;
              d <- lift_res (fdiv 100 (1 + rs)) ;;
              ret (Some (100 - d))
        | _, _ => raise (OtherError "KeyError")
        end
      else ret None
  end.

(** The true range of a bar against the previous close. *)
Definition true_range (high low : Q) (prev_close : option Q) : Q :=
  match prev_close with
  | Some prev => Qmax (Qmax (high - low) (Qabs (high - prev))) (Qabs (low - prev))
  | None => high - low
  end.

Definition _update_atr (symbol : string) (high low close : Q)
  : M TrendFollowingStrategy Q :=
  self <- get ;;
  let tr := true_range high low (prev_close self !! symbol) in
  match atr self !! symbol with
  | None =>
      modify (fun s => set_atr (<[symbol := tr]> (atr s)) s) ;;;
      ret tr
  | Some prev_atr =>
      a <- lift_res (fdiv (prev_atr * inject_Z (atr_period self - 1) + tr)
                          (inject_Z (atr_period self))) ;;
      modify (fun s => set_atr (<[symbol := a]> (atr s)) s) ;;;
      ret a
  end.

Definition hold : StrategyDecision := mkStrategyDecision "HOLD" None None.

(** The close, high and low that [get_signal] reads off a tick. *)
Definition bar_close (tick : PriceTick) : Q :=
  match tick_close tick with
  | Some c => c
  | None => (tick_bid tick + tick_ask tick) / 2
  end.
Definition bar_high (tick : PriceTick) : Q := default (bar_close tick) (tick_high tick).
Definition bar_low (tick : PriceTick) : Q := default (bar_close tick) (tick_low tick).

Definition trend_get_signal (tick : PriceTick)
  : M TrendFollowingStrategy StrategyDecision :=
  let close := bar_close tick in
  let high := bar_high tick in
  let low := bar_low tick in
  self <- get ;;
  let prev_fast := fast_ema self !! tick_symbol tick in
  let prev_slow := slow_ema self !! tick_symbol tick in
  fast <- _ema close prev_fast (fast_period self) ;;
  slow <- _ema close prev_slow (slow_period self) ;;
  modify (fun s => set_fast_ema (<[tick_symbol tick := fast]> (fast_ema s)) s) ;;;
  modify (fun s => set_slow_ema (<[tick_symbol tick := slow]> (slow_ema s)) s) ;;;
  atr_now <- _update_atr (tick_symbol tick) high low close ;;
  rsi <- _update_rsi (tick_symbol tick) close ;;
  match prev_fast, prev_slow, rsi with
  | Some prev_fast, Some prev_slow, Some rsi =>
      let bullish_cross :=
        Qle_bool prev_fast prev_slow && Qgtb fast slow && Qltb rsi 70 in
      let bearish_cross :=
        Qgeb prev_fast prev_slow && Qltb fast slow && Qgtb rsi 30 in
      let stop_distance := atr_multiplier self * atr_now in
      if bullish_cross then
        ret (mkStrategyDecision "BUY" (Some (close - stop_distance)) None)
      else if bearish_cross then
        ret (mkStrategyDecision "SELL" (Some (close + stop_distance)) None)
      else ret hold
  | _, _, _ => ret hold
  end.

#[global] Instance TrendFollowing : Strategy TrendFollowingStrategy :=
  {| get_signal := trend_get_signal |}.

(** The strategy fed a list of ticks, one after the other. *)
Fixpoint run_strategy (ticks : list PriceTick)
  : M TrendFollowingStrategy (list StrategyDecision) :=
  match ticks with
  | [] => ret []
  | tick :: rest =>
      d <- trend_get_signal tick ;;
      ds <- run_strategy rest ;;
      ret (d :: ds)
  end.

(** The last step of [get_signal]: the decision from the previous and the
    new averages, the ATR and the RSI. *)
Definition trend_decision (prev_fast prev_slow : option Q) (fast slow atr_now : Q)
    (rsi : option Q) (mult close : Q) : StrategyDecision :=
  match prev_fast, prev_slow, rsi with
  | Some prev_fast, Some prev_slow, Some rsi =>
      if Qle_bool prev_fast prev_slow && Qgtb fast slow && Qltb rsi 70 then
        mkStrategyDecision "BUY" (Some (close - mult * atr_now)) None
      else if Qgeb prev_fast prev_slow && Qltb fast slow && Qgtb rsi 30 then
        mkStrategyDecision "SELL" (Some (close + mult * atr_now)) None
      else hold
  | _, _, _ => hold
  end.

(** The parameters of a strategy, which no method changes. *)
Definition trend_params (s : TrendFollowingStrategy) : Z * Z * Z * Z * Q :=
  (fast_period s, slow_period s, rsi_period s, atr_period s, atr_multiplier s).

(** The part of the state that [_update_rsi] reads and writes. *)
Definition rsi_state (s : TrendFollowingStrategy)
  : gmap string Q * gmap string Q * gmap string Q * gmap string (list Q) :=
  (prev_close s, avg_gain s, avg_loss s, rsi_seed s).

(** After [j] ticks of a strategy that has not yet produced an RSI: no
    average is stored and every seed holds fewer than [j] changes. *)
Definition cold (j : nat) (s : TrendFollowingStrategy) : Prop :=
  avg_gain s = ∅
  /\ (prev_close s = ∅ \/ (1 <= j)%nat)
  /\ (forall sym seed, rsi_seed s !! sym = Some seed -> (S (length seed) <= j)%nat).









(** A bar that closes at [c], with bid and ask a tenth either side and a
    range of one either way; and a short run of closes: a fall, then a jump. *)
Definition bar (c : Q) : PriceTick :=
  mkTick "XAUUSD" (c - (1 # 10)) (c + (1 # 10)) 1700000000 (2 # 10) 0
         (Some c) (Some (c + 1)) (Some (c - 1)) (Some c).

Definition falling_closes : list Q := [2000; 1998; 1996; 1994; 1995; 1993].

Definition quick_trend : TrendFollowingStrategy := new_trend 2 4 3 3 5.

(** The strategy after the fall: one more bar at 1999 makes it buy. *)
Definition primed_trend : TrendFollowingStrategy :=
  snd (run_strategy (List.map bar falling_closes) quick_trend).

Definition primed_engine : Engine TrendFollowingStrategy :=
  mkEngine priced_handler primed_trend ∅ [].

(** The tick on which the primed strategy buys, handled by the engine. *)
Definition primed_tick_outcome : Res unit * Engine TrendFollowingStrategy :=
  _handle_tick default_config MiniJson.library the_state_manager
               (quote_env 1999) "2024-01-02" (bar 1999) primed_engine.

Definition fresh_engine : Engine TrendFollowingStrategy :=
  mkEngine priced_handler default_trend ∅ [].

(** ** risk.py: a run of checks *)

(** The risk manager after [_check_circuit_breakers] has been called with
    each equity of the list in turn, whatever each call returned. *)
Definition after_checks (config : AppConfig) (equities : list Q)
    (rm : RiskManager) : RiskManager :=
  fold_left (fun rm equity => snd (_check_circuit_breakers config equity rm))
            equities rm.

(** The notional that the symbol already carries at the order's price. *)
Definition held_notional (positions : gmap string Position) (symbol : string)
    (price : Q) : Q :=
  Qabs (match positions !! symbol with
        | Some p => pos_size p
        | None => 0
        end * price).

(** * Properties *)

(** ** Numeric comparisons *)

Lemma Qeq_bool_false (a b : Q) : ~ a == b -> Qeq_bool a b = false.
Proof.
  intros H. destruct (Qeq_bool a b) eqn:E; [|reflexivity].
  apply Qeq_bool_iff in E. contradiction.
Qed.

Lemma Qeq_bool_true (a b : Q) : a == b -> Qeq_bool a b = true.
Proof. apply Qeq_bool_iff. Qed.

Lemma Qltb_lt (a b : Q) : Qltb a b = true <-> a < b.
Proof.
  unfold Qltb. rewrite negb_true_iff. split.
  - intros H. apply Qnot_le_lt. intros Hle.
    apply Qle_bool_iff in Hle. congruence.
  - intros H. destruct (Qle_bool b a) eqn:E; [|reflexivity].
    apply Qle_bool_iff in E. lra.
Qed.

Lemma Qltb_ge (a b : Q) : Qltb a b = false <-> b <= a.
Proof.
  unfold Qltb. rewrite negb_false_iff. apply Qle_bool_iff.
Qed.

Lemma Qle_bool_false (a b : Q) : Qle_bool a b = false <-> b < a.
Proof.
  rewrite <- Qltb_lt. unfold Qltb. destruct (Qle_bool a b); simpl; split; congruence.
Qed.

Lemma fdiv_ok (a b : Q) : ~ b == 0 -> fdiv a b = Ok (a / b).
Proof. intros H. unfold fdiv. now rewrite Qeq_bool_false. Qed.

(** ** Marking to market *)

Lemma set_positions_twice (m1 m2 : gmap string Position) (b : Broker) :
  set_positions m1 (set_positions m2 b) = set_positions m1 b.
Proof. reflexivity. Qed.

Lemma mark_loop_eq (config : AppConfig) (mid : Q)
    (items : list (string * Position)) :
  items = [] \/ ~ leverage_limit config == 0 ->
  forall (u mg : Q) (b : Broker),
    mark_loop config mid items u mg b
    = (Ok (unrealized_at mid items u, margin_at config mid items mg),
       set_positions (marked_into mid items (positions b)) b).
Proof.
  intros Hlev. induction items as [|[k p] items IH]; intros u mg b.
  - simpl. unfold ret. destruct b; reflexivity.
  - assert (Hl : ~ leverage_limit config == 0) by (destruct Hlev; [discriminate|assumption]).
    simpl. run_m. rewrite (fdiv_ok _ _ Hl).
    rewrite IH by (right; assumption). simpl.
    rewrite insert_insert_eq. reflexivity.
Qed.

Lemma mark_loop_Ok (config : AppConfig) (mid : Q)
    (items : list (string * Position)) (u mg : Q) (b b' : Broker) r :
  mark_loop config mid items u mg b = (Ok r, b') ->
  items = [] \/ ~ leverage_limit config == 0.
Proof.
  destruct items as [|[k p] items]; [now left|].
  simpl. run_m. unfold fdiv.
  destruct (Qeq_bool (leverage_limit config) 0) eqn:E; [discriminate|].
  intros _. right. intros H. apply Qeq_bool_true in H. congruence.
Qed.

Lemma marked_into_union (mid : Q) (items : list (string * Position))
    (m : gmap string Position) :
  NoDup (items.*1) ->
  marked_into mid items m
  = list_to_map (prod_map id (mark_position mid) <$> items) ∪ m.
Proof.
  revert m. induction items as [|[k p] items IH]; intros m Hnd.
  - simpl. now rewrite (left_id_L ∅ (∪)).
  - apply NoDup_cons in Hnd as [Hk Hnd].
    change (marked_into mid ((k, p) :: items) m)
      with (marked_into mid items (<[k := mark_position mid p]> m)).
    rewrite IH by assumption. simpl.
    rewrite <- insert_union_l. symmetry. apply insert_union_r.
    apply not_elem_of_list_to_map_1.
    rewrite <- list_fmap_compose. intros Hin. apply Hk.
    apply list_elem_of_fmap in Hin as [[k' p'] [-> Hin]].
    apply list_elem_of_fmap. exists (k', p'). split; [reflexivity|assumption].
Qed.

Lemma marked_into_map (mid : Q) (m : gmap string Position) :
  marked_into mid (map_to_list m) m = mark_position mid <$> m.
Proof.
  rewrite marked_into_union by apply NoDup_fst_map_to_list.
  rewrite list_to_map_fmap, list_to_map_to_list.
  apply map_eq. intros i. rewrite lookup_union, !lookup_fmap.
  destruct (m !! i); reflexivity.
Qed.

Lemma sum_pnl_marked (mid : Q) (m : gmap string Position) :
  sum_pnl (mark_position mid <$> m) = unrealized_at mid (map_to_list m) 0.
Proof.
  unfold sum_pnl, unrealized_at. rewrite map_to_list_fmap.
  generalize (map_to_list m) 0. intros l. induction l as [|[k p] l IH]; intros u.
  - reflexivity.
  - simpl. apply IH.
Qed.

Lemma _mark_positions_eq (config : AppConfig) (mid : Q) (b : Broker) :
  positions b = ∅ \/ ~ leverage_limit config == 0 ->
  _mark_positions config mid b = (Ok tt, marked_broker config mid b).
Proof.
  intros H. unfold _mark_positions. unfold bind at 1. unfold get at 1.
  unfold bind at 1. rewrite mark_loop_eq.
  - run_m. rewrite marked_into_map. reflexivity.
  - destruct H as [H|H]; [left|now right].
    rewrite H. apply map_to_list_empty.
Qed.

Lemma _mark_positions_Ok (config : AppConfig) (mid : Q) (b b' : Broker) r :
  _mark_positions config mid b = (Ok r, b') ->
  positions b = ∅ \/ ~ leverage_limit config == 0.
Proof.
  unfold _mark_positions. unfold bind at 1. unfold get at 1. unfold bind at 1.
  destruct (mark_loop _ _ _ _ _ b) as [[r0|e] b0] eqn:E; [|discriminate].
  intros _. apply mark_loop_Ok in E as [E|E]; [left|now right].
  now apply map_to_list_empty_iff.
Qed.

Lemma marked_broker_invariant (config : AppConfig) (mid : Q) (b : Broker) :
  ledger_invariant (marked_broker config mid b).
Proof.
  unfold ledger_invariant. simpl. rewrite sum_pnl_marked. reflexivity.
Qed.

(** ** Filling an order *)

Lemma same_direction_sum_nonzero (p : Position) (s : Q) :
  same_direction p s = true -> ~ pos_size p == 0 ->
  ~ Qabs (pos_size p + s) == 0.
Proof.
  unfold same_direction. intros H Hnz Habs.
  assert (Hsum : pos_size p + s == 0).
  { revert Habs. apply Qabs_case; intros; lra. }
  rewrite (Qeq_bool_false _ _ Hnz) in H. simpl in H.
  apply orb_true_iff in H as [H|H]; apply andb_true_iff in H as [H1 H2].
  - unfold Qgtb in *. apply Qltb_lt in H1, H2. lra.
  - apply Qltb_lt in H1, H2. lra.
Qed.

Lemma update_position_eq (p : Position) (fill_price s : Q) (b : Broker) :
  update_position p fill_price s b
  = (Ok (position_after p fill_price s),
     if same_direction p s then b
     else set_balance (balance b + realized_pnl p fill_price s) b).
Proof.
  unfold update_position, position_after. fold (same_direction p s).
  destruct (same_direction p s) eqn:Hdir.
  - destruct (Qeq_bool (pos_size p) 0) eqn:Hz; simpl.
    + reflexivity.
    + run_m. rewrite fdiv_ok; [reflexivity|].
      apply same_direction_sum_nonzero; [assumption|].
      intros H. apply Qeq_bool_true in H. congruence.
  - run_m. fold (realized_pnl p fill_price s).
    destruct (Qeq_bool (pos_size p + s) 0); reflexivity.
Qed.



Lemma lookup_mid_failed (env : Env) (order : OrderRequest) (b : Broker) (e : exn) :
  dict_get (order_symbol order) (_last_prices b) = None ->
  fetch_price env = Raise e ->
  lookup_mid env order b = (Raise e, b).
Proof. intros H1 H2. unfold lookup_mid. run_m. now rewrite H1, H2. Qed.

Lemma lookup_mid_connected (env : Env) (order : OrderRequest) (b b1 : Broker) r :
  lookup_mid env order b = (r, b1) ->
  connected b1 = connected b /\ balance b1 = balance b
  /\ positions b1 = positions b.
Proof.
  unfold lookup_mid. run_m.
  destruct (dict_get _ _); [intros [= <- <-]; auto|].
  destruct (fetch_price env) as [[[[o h] l] c]|e]; intros [= <- <-]; auto.
Qed.

Lemma submit_order_disconnected (config : AppConfig) (env : Env)
    (order : OrderRequest) (b : Broker) :
  connected b = false ->
  submit_order config env order b
  = (Ok (mkResult false 0 None (Some "Disconnected") None), b).
Proof. intros H. unfold submit_order. run_m. now rewrite H. Qed.

Lemma submit_order_raises_from_lookup (config : AppConfig) (env : Env)
    (order : OrderRequest) (b b1 : Broker) (e : exn) :
  connected b = true ->
  lookup_mid env order b = (Raise e, b1) ->
  submit_order config env order b = (Raise e, b1).
Proof.
  intros Hc Hm. unfold submit_order. unfold bind at 1. unfold get at 1.
  rewrite Hc. simpl. unfold bind at 1. now rewrite Hm.
Qed.

Lemma submit_order_connected (config : AppConfig) (env : Env)
    (order : OrderRequest) (b b1 : Broker) (mid : Q) :
  connected b = true ->
  lookup_mid env order b = (Ok mid, b1) ->
  submit_order config env order b
  = match _mark_positions config mid (filled_broker config order mid b1) with
    | (Ok _, b') => (Ok (filled_result config env order mid), b')
    | (Raise e, b') => (Raise e, b')
    end.
Proof.
  intros Hc Hm. unfold submit_order. unfold bind at 1. unfold get at 1.
  rewrite Hc. simpl. unfold bind at 1. rewrite Hm.
  unfold bind at 1. unfold get at 1.
  unfold bind at 1. rewrite update_position_eq.
  set (fill := fill_price_of config (order_side order) mid) in *.
  set (p := default _ (positions b1 !! order_symbol order)) in *.
  set (s := signed_size_of order) in *.
  fold (mark_position mid (position_after p fill s)).
  set (p' := mark_position mid (position_after p fill s)) in *.
  set (b2 := if same_direction p s then b1 else _).
  assert (Hpos : positions b2 = positions b1)
    by (subst b2; destruct (same_direction p s); reflexivity).
  unfold bind at 1.
  assert (Hfb : filled_broker config order mid b1
                = set_positions
                    (if Qeq_bool (pos_size p') 0
                     then delete (order_symbol order) (positions b2)
                     else <[order_symbol order := p']> (positions b2)) b2).
  { unfold filled_broker. fold fill. fold p. fold s. fold p'. fold b2.
    rewrite Hpos. reflexivity. }
  change (pos_size (position_after p fill s)) with (pos_size p').
  destruct (Qeq_bool (pos_size p') 0) eqn:Hz; unfold modify at 1;
    cbv beta iota; rewrite <- Hfb; unfold bind at 1;
    destruct (_mark_positions config mid (filled_broker config order mid b1))
      as [[[]|e] b']; reflexivity.
Qed.

Lemma submit_order_filled (config : AppConfig) (env : Env)
    (order : OrderRequest) (b b1 : Broker) (mid : Q) :
  connected b = true ->
  lookup_mid env order b = (Ok mid, b1) ->
  positions (filled_broker config order mid b1) = ∅
  \/ ~ leverage_limit config == 0 ->
  submit_order config env order b
  = (Ok (filled_result config env order mid),
     marked_broker config mid (filled_broker config order mid b1)).
Proof.
  intros Hc Hm Hlev. rewrite (submit_order_connected _ _ _ _ _ _ Hc Hm).
  now rewrite _mark_positions_eq.
Qed.

(** A call that returns is either the disconnected refusal, which leaves the
    ledger as it was, or a fill. *)
Lemma submit_order_Ok_inv (config : AppConfig) (env : Env)
    (order : OrderRequest) (b b' : Broker) (r : OrderResult) :
  submit_order config env order b = (Ok r, b') ->
  (connected b = false /\ b' = b /\ success r = false)
  \/ (exists mid b1,
        connected b = true
        /\ lookup_mid env order b = (Ok mid, b1)
        /\ r = filled_result config env order mid
        /\ b' = marked_broker config mid (filled_broker config order mid b1)).
Proof.
  intros H. destruct (connected b) eqn:Hc.
  - right. destruct (lookup_mid env order b) as [[mid|e] b1] eqn:Hm.
    + rewrite (submit_order_connected _ _ _ _ _ _ Hc Hm) in H.
      destruct (_mark_positions config mid _) as [[[]|e] b2] eqn:Hmk;
        [|discriminate].
      pose proof (_mark_positions_Ok _ _ _ _ _ Hmk) as Hlev.
      rewrite (_mark_positions_eq _ _ _ Hlev) in Hmk.
      injection Hmk as <-. injection H as <- <-.
      exists mid, b1. auto.
    + rewrite (submit_order_raises_from_lookup _ _ _ _ _ _ Hc Hm) in H.
      discriminate.
  - left. rewrite submit_order_disconnected in H by assumption.
    injection H as <- <-. auto.
Qed.

Lemma get_account_info_Ok (config : AppConfig) (b b' : Broker) (a : Account) :
  get_account_info config b = (Ok a, b') ->
  equity b' = balance b' + sum_pnl (positions b')
  /\ acc_equity a = equity b' /\ acc_balance a = balance b'
  /\ acc_margin_used a = margin_used b'
  /\ acc_unrealized a = sum_pnl (positions b').
Proof.
  unfold get_account_info. unfold bind at 1. unfold get at 1.
  unfold bind at 1.
  destruct (match dict_first_value (_last_prices b) with
            | Some last_mid => _mark_positions config last_mid
            | None => ret ()
            end b) as [[[]|e] b1]; [|discriminate].
  run_m. intros [= <- <-]. simpl. auto.
Qed.

Lemma get_account_info_total (config : AppConfig) (b : Broker) :
  positions b = ∅ \/ ~ leverage_limit config == 0 ->
  exists a b', get_account_info config b = (Ok a, b').
Proof.
  intros H. unfold get_account_info. unfold bind at 1. unfold get at 1.
  unfold bind at 1.
  destruct (dict_first_value (_last_prices b)) as [last_mid|].
  - rewrite _mark_positions_eq by assumption. run_m. eauto.
  - run_m. eauto.
Qed.

Lemma lookup_mid_Raise (env : Env) (order : OrderRequest) (b b1 : Broker)
    (e : exn) :
  lookup_mid env order b = (Raise e, b1) -> b1 = b.
Proof.
  unfold lookup_mid. run_m.
  destruct (dict_get _ _); [discriminate|].
  destruct (fetch_price env) as [[[[o h] l] c]|e0]; [discriminate|].
  now intros [= _ <-].
Qed.

(** C2, as stated, fails when the leverage limit is zero.  A BUY on a
    sound ledger books the position and its pnl, then the marking divides by
    the leverage limit and raises before the equity is recomputed: the equity
    is still 30000 while the balance plus the pnl is 30000 - 3/4.  A
    [get_account_info] after that raises the same way and repairs nothing, and
    a turn of [price_stream] swallows the error and leaves the ledger just as
    unbalanced. *)
Lemma ledger_invariant_broken_at_zero_leverage :
  let out := submit_order zero_leverage_config (quote_env 2000) scenario_buy
                          fresh_connected_broker in
  ledger_invariant fresh_connected_broker
  /\ fst out = Raise ZeroDivisionError
  /\ positions (snd out) !! "XAUUSD"
     = Some (mkPosition 5 (4000300 # 2000) (-1500 # 2000))
  /\ ~ ledger_invariant (snd out)
  /\ fst (get_account_info zero_leverage_config (snd out))
     = Raise ZeroDivisionError
  /\ ~ ledger_invariant (snd (get_account_info zero_leverage_config (snd out)))
  /\ fst (price_stream_step zero_leverage_config (quote_env 2010) ["XAUUSD"]
                            (snd out)) = Ok None
  /\ ~ ledger_invariant
         (snd (price_stream_step zero_leverage_config (quote_env 2010)
                                 ["XAUUSD"] (snd out))).
Proof.
  cbv zeta. repeat split; try (vm_compute; reflexivity);
    vm_compute; discriminate.
Qed.

(** C2, amended. With a leverage limit other than zero, every ledger
    mutation leaves the equity equal to the balance plus the sum of the [pnl]
    of all positions in the map: a marking ([_mark_positions]) and a
    [get_account_info] always complete and leave the ledger so, and a
    [submit_order] either fills and leaves the ledger so, or -- the broker
    disconnected, or the price fetch raising -- leaves the broker exactly as
    it was. *)
Theorem ledger_invariant_after_mutation (config : AppConfig) (b : Broker) :
  ~ leverage_limit config == 0 ->
  (forall mid,
      exists b', _mark_positions config mid b = (Ok tt, b')
                 /\ ledger_invariant b')
  /\ (forall env order,
        let out := submit_order config env order b in
        (exists r, fst out = Ok r /\ success r = true
                   /\ ledger_invariant (snd out))
        \/ ((forall r, fst out = Ok r -> success r = false) /\ snd out = b))
  /\ (exists a b',
        get_account_info config b = (Ok a, b')
        /\ ledger_invariant b'
        /\ acc_equity a == acc_balance a + acc_unrealized a).
Proof.
  intros Hlev. split; [|split].
  - intros mid. eexists. split.
    + apply _mark_positions_eq. now right.
    + apply marked_broker_invariant.
  - intros env order out. subst out. destruct (connected b) eqn:Hc.
    + destruct (lookup_mid env order b) as [[mid|e] b1] eqn:Hm.
      * left. rewrite (submit_order_filled _ _ _ _ _ _ Hc Hm) by now right.
        eexists. split; [reflexivity|]. split; [reflexivity|].
        apply marked_broker_invariant.
      * right. rewrite (submit_order_raises_from_lookup _ _ _ _ _ _ Hc Hm).
        split; [discriminate|]. now apply lookup_mid_Raise in Hm.
    + right. rewrite submit_order_disconnected by exact Hc.
      split; [|reflexivity]. now intros r [= <-].
  - destruct (get_account_info_total config b) as (a & b' & H); [now right|].
    exists a, b'. split; [exact H|].
    apply get_account_info_Ok in H as (H & -> & -> & _ & ->).
    unfold ledger_invariant. rewrite H. split; reflexivity.
Qed.

Lemma ledger_invariant_after_mutation_witness :
  let out := submit_order default_config scenario_env scenario_sell
                          scenario_broker in
  (exists r, fst out = Ok r /\ success r = true /\ ledger_invariant (snd out))
  \/ ((forall r, fst out = Ok r -> success r = false)
      /\ snd out = scenario_broker).
Proof.
  refine (proj1 (proj2 (ledger_invariant_after_mutation default_config
                          scenario_broker _))
                scenario_env scenario_sell).
  vm_compute. discriminate.
Defined.

(** ** Opposite-direction fills (C1) *)

Lemma Qsgn_pos (x : Q) : 0 < x -> Qsgn x = 1.
Proof.
  destruct x as [n d]. unfold Qsgn, Qlt. simpl. rewrite Z.mul_1_r.
  intros H. now rewrite (Z.sgn_pos n H).
Qed.

Lemma Qsgn_neg (x : Q) : x < 0 -> Qsgn x = -1.
Proof.
  destruct x as [n d]. unfold Qsgn, Qlt. simpl. rewrite Z.mul_1_r.
  intros H. now rewrite (Z.sgn_neg n H).
Qed.

Lemma opposes_not_same_direction (p : Position) (s : Q) :
  opposes (pos_size p) s -> same_direction p s = false.
Proof.
  unfold same_direction, Qgtb. intros [[H1 H2]|[H1 H2]].
  - rewrite Qeq_bool_false by lra.
    rewrite (proj2 (Qltb_ge 0 s)) by lra.
    rewrite (proj2 (Qltb_ge (pos_size p) 0)) by lra.
    now rewrite andb_false_r.
  - rewrite Qeq_bool_false by lra.
    rewrite (proj2 (Qltb_ge 0 (pos_size p))) by lra.
    rewrite (proj2 (Qltb_ge s 0)) by lra.
    now rewrite andb_false_r.
Qed.


Lemma realized_pnl_sign (p : Position) (fill s : Q) :
  ~ pos_size p == 0 ->
  realized_pnl p fill s
  = (fill - pos_entry p) * Qmin (Qabs (pos_size p)) (Qabs s) * Qsgn (pos_size p).
Proof.
  intros Hnz. unfold realized_pnl, Qgtb.
  destruct (Qltb 0 (pos_size p)) eqn:E.
  - apply Qltb_lt in E. now rewrite Qsgn_pos.
  - apply Qltb_ge in E. rewrite Qsgn_neg; [reflexivity|lra].
Qed.

(** The position of a symbol after a fill that returned. *)
Lemma filled_lookup (config : AppConfig) (order : OrderRequest) (mid : Q)
    (b : Broker) :
  let fill := fill_price_of config (order_side order) mid in
  let p := default {| pos_size := 0; pos_entry := fill; pos_pnl := 0 |}
                   (positions b !! order_symbol order) in
  let p' := mark_position mid (position_after p fill (signed_size_of order)) in
  positions (marked_broker config mid (filled_broker config order mid b))
    !! order_symbol order
  = if Qeq_bool (pos_size p') 0 then None else Some p'.
Proof.
  intros fill p p'. unfold marked_broker, filled_broker.
  cbn [positions set_positions]. fold fill. fold p. fold p'.
  rewrite lookup_fmap.
  destruct (Qeq_bool (pos_size p') 0).
  - now rewrite lookup_delete_eq.
  - rewrite lookup_insert_eq. reflexivity.
Qed.

Lemma filled_balance (config : AppConfig) (order : OrderRequest) (mid : Q)
    (b : Broker) :
  let fill := fill_price_of config (order_side order) mid in
  let p := default {| pos_size := 0; pos_entry := fill; pos_pnl := 0 |}
                   (positions b !! order_symbol order) in
  balance (marked_broker config mid (filled_broker config order mid b))
  = if same_direction p (signed_size_of order) then balance b
    else balance b + realized_pnl p fill (signed_size_of order).
Proof.
  intros fill p. unfold marked_broker, filled_broker.
  cbn [balance set_positions]. fold fill. fold p. destruct (same_direction p (signed_size_of order)); reflexivity.
Qed.

(** C1. An order whose signed size opposes the existing position of its
    symbol adds the realized PnL
    [(fill - entry) * min(|old_size|, |signed_size|) * sign(old_size)] to the
    balance, leaves the size [old_size + signed_size], removes the position
    when that size is zero and otherwise gives it the fill price as entry.
    Scenario: long 10 at 2000, SELL 15 filled at 2010 adds 100 to the balance
    and leaves -5 at 2010. *)
Theorem opposing_fill_realizes_pnl :
  (forall (config : AppConfig) (env : Env) (order : OrderRequest)
          (b b1 : Broker) (mid : Q) (p : Position),
      connected b = true ->
      lookup_mid env order b = (Ok mid, b1) ->
      positions b !! order_symbol order = Some p ->
      opposes (pos_size p) (signed_size_of order) ->
      ~ leverage_limit config == 0 ->
      let fill := fill_price_of config (order_side order) mid in
      let signed_size := signed_size_of order in
      let new_size := pos_size p + signed_size in
      exists r b',
        submit_order config env order b = (Ok r, b')
        /\ success r = true
        /\ avg_price r = Some fill
        /\ balance b'
           = balance b
             + (fill - pos_entry p)
               * Qmin (Qabs (pos_size p)) (Qabs signed_size)
               * Qsgn (pos_size p)
        /\ positions b' !! order_symbol order
           = if Qeq_bool new_size 0 then None
             else Some {| pos_size := new_size; pos_entry := fill;
                          pos_pnl := (mid - fill) * new_size |})
  /\ (exists r b' p',
        submit_order default_config scenario_env scenario_sell scenario_broker
        = (Ok r, b')
        /\ avg_price r = Some (fill_price_of default_config "SELL" (201015 # 100))
        /\ fill_price_of default_config "SELL" (201015 # 100) == 2010
        /\ balance b' == balance scenario_broker + 100
        /\ positions b' !! "XAUUSD" = Some p'
        /\ pos_size p' == -5
        /\ pos_entry p' == 2010).
Proof.
  split.
  - intros config env order b b1 mid p Hc Hm Hp Hopp Hlev fill signed_size new_size.
    pose proof (lookup_mid_connected _ _ _ _ _ Hm) as (_ & Hbal & Hpos).
    eexists _, _. split; [|split; [|split; [|split]]].
    + apply (submit_order_filled _ _ _ _ _ _ Hc Hm). now right.
    + reflexivity.
    + reflexivity.
    + rewrite filled_balance, Hpos, Hp. simpl.
      rewrite (opposes_not_same_direction _ _ Hopp), Hbal.
      rewrite realized_pnl_sign; [reflexivity|].
      destruct Hopp as [[? ?]|[? ?]]; lra.
    + rewrite filled_lookup, Hpos, Hp. simpl.
      unfold position_after. rewrite (opposes_not_same_direction _ _ Hopp).
      fold signed_size. fold new_size. fold fill.
      destruct (Qeq_bool new_size 0) eqn:Hz; simpl; rewrite Hz; reflexivity.
  - eexists _, _, _. split; [vm_compute; reflexivity|].
    repeat split; vm_compute; reflexivity.
Qed.

Lemma opposing_fill_realizes_pnl_witness :
  exists r b',
    submit_order default_config scenario_env scenario_sell scenario_broker
    = (Ok r, b')
    /\ success r = true
    /\ avg_price r = Some (fill_price_of default_config "SELL" (201015 # 100))
    /\ balance b'
       = 30000 + (fill_price_of default_config "SELL" (201015 # 100) - 2000)
                 * Qmin (Qabs 10) (Qabs (- (15))) * Qsgn 10
    /\ positions b' !! "XAUUSD"
       = Some {| pos_size := 10 + - (15);
                 pos_entry := fill_price_of default_config "SELL" (201015 # 100);
                 pos_pnl := ((201015 # 100)
                             - fill_price_of default_config "SELL" (201015 # 100))
                            * (10 + - (15)) |}.
Proof.
  refine (proj1 opposing_fill_realizes_pnl default_config scenario_env
            scenario_sell scenario_broker scenario_broker (201015 # 100)
            (mkPosition 10 2000 0) _ _ _ _ _).
  - reflexivity.
  - reflexivity.
  - reflexivity.
  - left. split; reflexivity.
  - vm_compute. discriminate.
Defined.

(** ** What [submit_order] returns (C4) *)

(** C4, as stated, fails: on a connected ledger without a known price for
    the symbol, a failing price fetch is raised past [submit_order]; and with
    a leverage limit of zero the marking that follows the fill raises
    [ZeroDivisionError]. *)
Lemma submit_order_raises_fetch_error :
  submit_order default_config scenario_env scenario_sell fresh_connected_broker
  = (Raise (RuntimeError "Empty price history from yfinance"),
     fresh_connected_broker)
  /\ fst (submit_order zero_leverage_config scenario_env scenario_sell
                       scenario_broker)
     = Raise ZeroDivisionError.
Proof. split; vm_compute; reflexivity. Qed.

(** C4, amended. [submit_order] returns the failure result "Disconnected"
    when the broker is not connected.  When it is connected, the mid price
    of the symbol is known or fetched, and the leverage limit is not zero, it
    returns a successful result with the order's size as filled size and an
    order id.  An exception of the price fetch is passed on. *)
Theorem submit_order_result (config : AppConfig) (env : Env)
    (order : OrderRequest) (b : Broker) :
  (connected b = false ->
   submit_order config env order b
   = (Ok (mkResult false 0 None (Some "Disconnected") None), b))
  /\ (connected b = true ->
      forall mid b1,
        lookup_mid env order b = (Ok mid, b1) ->
        ~ leverage_limit config == 0 ->
        exists r b',
          submit_order config env order b = (Ok r, b')
          /\ success r = true
          /\ filled_size r = order_size order
          /\ order_id r <> None)
  /\ (connected b = true ->
      forall e,
        dict_get (order_symbol order) (_last_prices b) = None ->
        fetch_price env = Raise e ->
        submit_order config env order b = (Raise e, b)).
Proof.
  split; [|split].
  - apply submit_order_disconnected.
  - intros Hc mid b1 Hm Hlev. eexists _, _. split.
    + apply (submit_order_filled _ _ _ _ _ _ Hc Hm). now right.
    + repeat split. discriminate.
  - intros Hc e Hg Hf. apply submit_order_raises_from_lookup; [assumption|].
    now apply lookup_mid_failed.
Qed.

Lemma submit_order_result_witness :
  (exists r b',
      submit_order default_config scenario_env scenario_sell scenario_broker
      = (Ok r, b')
      /\ success r = true
      /\ filled_size r = order_size scenario_sell
      /\ order_id r <> None)
  /\ submit_order default_config scenario_env scenario_sell
                  (new_broker default_config)
     = (Ok (mkResult false 0 None (Some "Disconnected") None),
        new_broker default_config).
Proof.
  split.
  - refine (proj1 (proj2 (submit_order_result default_config scenario_env
                            scenario_sell scenario_broker))
                  _ (201015 # 100) scenario_broker _ _).
    + reflexivity.
    + reflexivity.
    + vm_compute. discriminate.
  - apply (proj1 (submit_order_result default_config scenario_env
                    scenario_sell (new_broker default_config))).
    reflexivity.
Defined.

(** ** The price field of a request (C10) *)

(** C10. Two requests that agree on symbol, side, size and client id --
    whatever their price, stop-loss and take-profit fields -- submitted to
    identical ledgers in the same environment give the same outcome: the same
    result (success, filled size, average price, order id) and the same
    ledger (positions, balance, equity, margin). *)
Theorem submit_order_ignores_price (config : AppConfig) (env : Env)
    (b : Broker) (o1 o2 : OrderRequest) :
  order_symbol o1 = order_symbol o2 ->
  order_side o1 = order_side o2 ->
  order_size o1 = order_size o2 ->
  order_client_id o1 = order_client_id o2 ->
  submit_order config env o1 b = submit_order config env o2 b.
Proof.
  destruct o1, o2. simpl. intros -> -> -> ->. reflexivity.
Qed.

Lemma submit_order_ignores_price_witness :
  submit_order default_config scenario_env scenario_sell scenario_broker
  = submit_order default_config scenario_env
      (mkOrder "XAUUSD" "SELL" 15 1 2020 None "MARKET" "IOC" "ALGOBOT-001")
      scenario_broker.
Proof.
  apply submit_order_ignores_price; reflexivity.
Defined.

(** ** The risk gate as a verdict and a state update *)

Lemma _check_circuit_breakers_eq (config : AppConfig) (equity : Q)
    (rm : RiskManager) :
  _check_circuit_breakers config equity rm
  = (breakers_verdict config equity rm, breakers_after equity rm).
Proof.
  unfold _check_circuit_breakers, breakers_verdict, breakers_after.
  destruct rm as [[d|] pk]; run_m.
  - destruct (Qle_bool equity (d * (1 - max_daily_loss config))); [reflexivity|].
    destruct (Qle_bool equity _); reflexivity.
  - destruct (Qle_bool equity (equity * (1 - max_daily_loss config)));
      [reflexivity|].
    destruct (Qle_bool equity _); reflexivity.
Qed.

Lemma daily_start_after (equity : Q) (rm : RiskManager) :
  daily_start_equity (breakers_after equity rm)
  = Some (default equity (daily_start_equity rm)).
Proof. destruct rm as [[d|] pk]; reflexivity. Qed.

Lemma _check_leverage_and_exposure_eq (config : AppConfig) (symbol : string)
    (price size : Q) (account : Account) (positions : gmap string Position)
    (rm : RiskManager) :
  _check_leverage_and_exposure config symbol price size account positions rm
  = (exposure_verdict config symbol price size account positions, rm).
Proof.
  unfold _check_leverage_and_exposure, exposure_verdict. run_m.
  destruct (fdiv (price * size) (leverage_limit config)); [|reflexivity].
  repeat match goal with |- context [if ?c then _ else _] => destruct c end;
    reflexivity.
Qed.

Lemma validate_order_eq (config : AppConfig) (ctx : OrderContext)
    (account : Account) (positions : gmap string Position) (rm : RiskManager) :
  validate_order config ctx account positions rm
  = (validate_verdict config ctx account positions rm,
     breakers_after (acc_equity account) rm).
Proof.
  unfold validate_order, validate_verdict.
  unfold bind at 1. rewrite _check_circuit_breakers_eq.
  destruct (breakers_verdict config (acc_equity account) rm) as [[]|e];
    [|reflexivity].
  unfold compute_position_size.
  set (sd := Qabs (ctx_price ctx - ctx_stop_loss ctx)).
  destruct (Qle_bool sd 0) eqn:Hsd; [reflexivity|].
  unfold bind at 1. unfold bind at 1. unfold lift_res.
  rewrite fdiv_ok by (apply Qle_bool_false in Hsd; lra).
  unfold ret at 1. fold (sized config (acc_equity account) sd).
  destruct (Qle_bool (sized config (acc_equity account) sd) 0);
    [reflexivity|].
  unfold bind. rewrite _check_leverage_and_exposure_eq.
  destruct (exposure_verdict _ _ _ _ _ _) as [[]|e]; reflexivity.
Qed.

Lemma breakers_verdict_cases (config : AppConfig) (equity : Q) (rm : RiskManager) :
  breakers_verdict config equity rm = Ok tt
  \/ breakers_verdict config equity rm = Raise (RiskViolation msg_daily_loss)
  \/ breakers_verdict config equity rm = Raise (RiskViolation msg_drawdown).
Proof.
  unfold breakers_verdict. rewrite daily_start_after.
  unfold breakers_after. cbn [equity_peak].
  destruct (Qle_bool equity _); [auto|].
  destruct (Qle_bool equity _); auto.
Qed.

Lemma sized_positive (config : AppConfig) (equity sd : Q) :
  Qle_bool (sized config equity sd) 0 = false ->
  sized config equity sd = equity * risk_per_trade config / sd
  /\ 0 < equity * risk_per_trade config / sd.
Proof.
  unfold sized, Qmax, GenericMinMax.gmax. intros H.
  destruct (Qcompare (equity * risk_per_trade config / sd) 0) eqn:E.
  - apply Qle_bool_false in H. split; [reflexivity|assumption].
  - discriminate.
  - apply Qle_bool_false in H. split; [reflexivity|assumption].
Qed.

Lemma sized_nonpositive (config : AppConfig) (equity sd : Q) :
  equity * risk_per_trade config / sd <= 0 ->
  Qle_bool (sized config equity sd) 0 = true.
Proof.
  intros H. destruct (Qle_bool (sized config equity sd) 0) eqn:E;
    [reflexivity|].
  apply sized_positive in E as [_ E]. lra.
Qed.

(** ** Sizing (C6) *)

(** C6. [validate_order] takes [stop_distance = |price - stop_loss|],
    rejects when it is not positive, rejects when the computed size is not
    positive, and a size it approves is
    [equity * risk_per_trade / stop_distance]; with equity 30000, risk 0.005,
    price 2000 and stop 1990 it approves 15. *)
Theorem validate_order_sizing (config : AppConfig) (ctx : OrderContext)
    (account : Account) (positions : gmap string Position) (rm : RiskManager) :
  let equity := acc_equity account in
  let stop_distance := Qabs (ctx_price ctx - ctx_stop_loss ctx) in
  let size := equity * risk_per_trade config / stop_distance in
  let outcome := fst (validate_order config ctx account positions rm) in
  (stop_distance <= 0 ->
   (exists msg, outcome = Raise (RiskViolation msg))
   /\ (breakers_verdict config equity rm = Ok tt ->
       outcome = Raise (RiskViolation msg_stop_distance)))
  /\ (size <= 0 ->
      (exists msg, outcome = Raise (RiskViolation msg))
      /\ (breakers_verdict config equity rm = Ok tt -> 0 < stop_distance ->
          outcome = Raise (RiskViolation msg_zero_size)))
  /\ (forall approved, outcome = Ok approved ->
        approved = size /\ 0 < stop_distance /\ 0 < size)
  /\ (exists approved,
        fst (validate_order default_config scenario_context scenario_account
                            ∅ new_risk_manager) = Ok approved
        /\ approved == 15).
Proof.
  intros equity stop_distance size outcome. subst outcome.
  rewrite validate_order_eq. cbn [fst]. unfold validate_verdict.
  fold equity. fold stop_distance.
  pose proof (breakers_verdict_cases config equity rm) as Hb.
  split; [|split; [|split]].
  - intros Hsd. apply Qle_bool_iff in Hsd. split.
    + destruct Hb as [->|[->| ->]]; [rewrite Hsd|..]; eauto.
    + intros ->. now rewrite Hsd.
  - intros Hsz. apply (sized_nonpositive config) in Hsz. split.
    + destruct Hb as [->|[->| ->]]; [|eauto..].
      destruct (Qle_bool stop_distance 0); [eauto|]. rewrite Hsz. eauto.
    + intros -> Hsd. apply Qle_bool_false in Hsd. now rewrite Hsd, Hsz.
  - intros approved H.
    destruct (breakers_verdict config equity rm) as [[]|e]; [|discriminate].
    destruct (Qle_bool stop_distance 0) eqn:Hsd; [discriminate|].
    destruct (Qle_bool (sized config equity stop_distance) 0) eqn:Hsz;
      [discriminate|].
    destruct (exposure_verdict _ _ _ _ _ _) as [[]|e]; [|discriminate].
    injection H as <-. apply sized_positive in Hsz as [-> Hpos].
    apply Qle_bool_false in Hsd. auto.
  - eexists. split; [vm_compute; reflexivity|reflexivity].
Qed.

Lemma validate_order_sizing_witness :
  fst (validate_order default_config scenario_context scenario_account ∅
                      new_risk_manager)
  = Ok (Qmax (30000 * (5 # 1000) / Qabs (2000 - 1990)) 0)
  /\ Qmax (30000 * (5 # 1000) / Qabs (2000 - 1990)) 0
     = 30000 * (5 # 1000) / Qabs (2000 - 1990)
  /\ 0 < Qabs (2000 - 1990)
  /\ 0 < 30000 * (5 # 1000) / Qabs (2000 - 1990).
Proof.
  assert (H : fst (validate_order default_config scenario_context
                                  scenario_account ∅ new_risk_manager)
              = Ok (Qmax (30000 * (5 # 1000) / Qabs (2000 - 1990)) 0))
    by (vm_compute; reflexivity).
  split; [exact H|].
  exact (proj1 (proj2 (proj2 (validate_order_sizing default_config
                                scenario_context scenario_account ∅
                                new_risk_manager))) _ H).
Defined.

(** ** Global exposure (C7) *)

(** C7, as stated, fails in both directions.  With a tight stop the order's
    notional alone exceeds the global limit, yet the rejection carries the
    per-symbol reason, which is checked first.  With a position of 25 units
    of another symbol entered at 1, the claimed aggregate stays far below the
    limit, yet the order is rejected for global exposure: the position is
    valued at the order's price 2000. *)
Lemma global_exposure_claim_fails :
  (claimed_global_condition default_config tight_stop_context scenario_account ∅
   /\ fst (validate_order default_config tight_stop_context scenario_account ∅
                          new_risk_manager)
      = Raise (RiskViolation msg_symbol_exposure))
  /\ (~ claimed_global_condition default_config wide_stop_context
          scenario_account other_symbol_positions
      /\ fst (validate_order default_config wide_stop_context scenario_account
                             other_symbol_positions new_risk_manager)
         = Raise (RiskViolation msg_global_exposure)).
Proof.
  split; split.
  - vm_compute. reflexivity.
  - vm_compute. reflexivity.
  - vm_compute. discriminate.
  - vm_compute. reflexivity.
Qed.

(** C7, amended. [validate_order] rejects with the global-exposure reason
    exactly when every earlier check passes (circuit breakers, stop
    distance, size, margin, per-symbol exposure) and the aggregate notional
    of all positions, each valued at the order's price, plus the order's
    notional exceeds [equity * max_global_exposure]. *)
Theorem global_exposure_rejection (config : AppConfig) (ctx : OrderContext)
    (account : Account) (positions : gmap string Position) (rm : RiskManager) :
  let equity := acc_equity account in
  let price := ctx_price ctx in
  let stop_distance := Qabs (price - ctx_stop_loss ctx) in
  let size := equity * risk_per_trade config / stop_distance in
  let notional := price * size in
  let symbol_size := match positions !! ctx_symbol ctx with
                     | Some p => pos_size p
                     | None => 0
                     end in
  fst (validate_order config ctx account positions rm)
  = Raise (RiskViolation msg_global_exposure)
  <-> (breakers_verdict config equity rm = Ok tt
       /\ 0 < stop_distance
       /\ 0 < size
       /\ ~ leverage_limit config == 0
       /\ acc_margin_used account + notional / leverage_limit config <= equity
       /\ Qabs (symbol_size * price) + notional
          <= equity * max_symbol_exposure config
       /\ equity * max_global_exposure config
          < aggregate_notional positions price + notional).
Proof.
  intros equity price stop_distance size notional symbol_size.
  rewrite validate_order_eq. cbn [fst]. unfold validate_verdict.
  fold equity. fold price. fold stop_distance.
  split.
  - destruct (breakers_verdict_cases config equity rm) as [->|[->| ->]];
      [|discriminate..].
    destruct (Qle_bool stop_distance 0) eqn:Hsd; [discriminate|].
    destruct (Qle_bool (sized config equity stop_distance) 0) eqn:Hsz;
      [discriminate|].
    apply sized_positive in Hsz as [-> Hpos]. fold size.
    unfold exposure_verdict. fold notional. fold symbol_size. fold equity.
    unfold fdiv.
    destruct (Qeq_bool (leverage_limit config) 0) eqn:Hlev; [discriminate|].
    destruct (Qgtb (acc_margin_used account + _) equity) eqn:Hm;
      [discriminate|].
    destruct (Qgtb (Qabs _ + notional) _) eqn:Hs; [discriminate|].
    destruct (Qgtb (aggregate_notional positions price + notional) _) eqn:Hg;
      [|discriminate].
    intros _. unfold Qgtb in *.
    apply Qltb_ge in Hm, Hs. apply Qltb_lt in Hg. apply Qle_bool_false in Hsd.
    repeat split; try assumption.
    intros H. apply Qeq_bool_true in H. congruence.
  - intros (-> & Hsd & Hsz & Hlev & Hm & Hs & Hg).
    rewrite (proj2 (Qle_bool_false stop_distance 0)) by assumption.
    assert (Hsized : Qle_bool (sized config equity stop_distance) 0 = false).
    { destruct (Qle_bool (sized config equity stop_distance) 0) eqn:E;
        [|reflexivity].
      apply Qle_bool_iff in E. unfold sized in E.
      pose proof (Q.le_max_l (equity * risk_per_trade config / stop_distance) 0).
      fold size in E, H. lra. }
    rewrite Hsized. apply sized_positive in Hsized as [-> _]. fold size.
    unfold exposure_verdict. fold notional. fold symbol_size. fold equity.
    rewrite fdiv_ok by assumption. unfold Qgtb.
    rewrite (proj2 (Qltb_ge _ _) Hm), (proj2 (Qltb_ge _ _) Hs),
      (proj2 (Qltb_lt _ _) Hg).
    reflexivity.
Qed.

Lemma global_exposure_rejection_witness :
  fst (validate_order default_config wide_stop_context scenario_account
                      other_symbol_positions new_risk_manager)
  = Raise (RiskViolation msg_global_exposure).
Proof.
  apply global_exposure_rejection.
  repeat split; vm_compute; try reflexivity; discriminate.
Defined.

(** ** The daily-loss breaker (C3) *)

(** C3, as stated, fails: the breaker is evaluated on the equity of each
    call and keeps no memory of having tripped.  On one risk manager, a first
    call at equity 30000 fixes the daily start, a second at 29000 is at or
    below 30000 * (1 - 0.02) and gets the daily-loss rejection, and a third
    at 29500 is approved. *)
Lemma daily_loss_breaker_not_latched :
  let calls := [ (wide_stop_context, mkAccount 30000 30000 0 0, ∅);
                 (wide_stop_context, mkAccount 30000 29000 0 (-1000), ∅);
                 (wide_stop_context, mkAccount 30000 29500 0 (-500), ∅) ] in
  daily_loss_reached default_config 30000 29000
  /\ exists a1 a3,
       fst (validate_all default_config calls new_risk_manager)
       = [ Ok a1; Raise (RiskViolation msg_daily_loss); Ok a3 ]
       /\ daily_start_equity
            (snd (validate_all default_config calls new_risk_manager))
          = Some 30000.
Proof.
  split.
  - vm_compute. discriminate.
  - eexists _, _. split; vm_compute; reflexivity.
Qed.

Lemma validate_order_daily_loss (config : AppConfig) (ctx : OrderContext)
    (account : Account) (positions : gmap string Position) (rm : RiskManager)
    (d : Q) :
  daily_start_equity rm = Some d ->
  daily_loss_reached config d (acc_equity account) ->
  validate_order config ctx account positions rm
  = (Raise (RiskViolation msg_daily_loss),
     breakers_after (acc_equity account) rm)
  /\ daily_start_equity (breakers_after (acc_equity account) rm) = Some d.
Proof.
  intros Hd Hloss. rewrite validate_order_eq. split.
  - f_equal. unfold validate_verdict, breakers_verdict.
    destruct rm as [ds pk]. cbn [daily_start_equity] in Hd. subst ds.
    unfold breakers_after. cbn [daily_start_equity equity_peak].
    apply Qle_bool_iff in Hloss. now rewrite Hloss.
  - now rewrite daily_start_after, Hd.
Qed.

Lemma validate_order_above_floor (config : AppConfig) (ctx : OrderContext)
    (account : Account) (positions : gmap string Position) (rm : RiskManager)
    (d : Q) :
  daily_start_equity rm = Some d ->
  ~ daily_loss_reached config d (acc_equity account) ->
  fst (validate_order config ctx account positions rm)
  <> Raise (RiskViolation msg_daily_loss).
Proof.
  intros Hd Hloss. rewrite validate_order_eq. cbn [fst].
  unfold validate_verdict, breakers_verdict.
  rewrite daily_start_after, Hd.
  change (default (acc_equity account) (Some d)) with d.
  destruct (Qle_bool (acc_equity account) (d * (1 - max_daily_loss config)))
    eqn:E.
  { apply Qle_bool_iff in E. contradiction. }
  unfold exposure_verdict, fdiv, msg_daily_loss, msg_drawdown,
    msg_stop_distance, msg_zero_size, msg_margin, msg_symbol_exposure,
    msg_global_exposure.
  destruct (equity_peak (breakers_after (acc_equity account) rm)) as [peak|];
    [|discriminate].
  destruct (Qle_bool (acc_equity account) (peak * (1 - max_drawdown config)));
    [discriminate|].
  repeat match goal with |- context [if ?c then _ else _] => destruct c end;
    discriminate.
Qed.

(** C3, amended. The daily start, once set, is not changed by
    [validate_order]; and in any run of calls on one risk manager, a call
    gets the daily-loss rejection exactly when the equity it observes
    itself is at or below [daily_start * (1 - max_daily_loss)], whatever the
    order, the positions and the margin, and whatever the calls before it
    observed -- so a later call that observes a higher equity is not
    rejected for daily loss. *)
Theorem daily_loss_rejections (config : AppConfig) (rm : RiskManager) (d : Q)
    (calls : list (OrderContext * Account * gmap string Position)) :
  daily_start_equity rm = Some d ->
  Forall2 (fun call r =>
             r = Raise (RiskViolation msg_daily_loss)
             <-> daily_loss_reached config d (acc_equity (snd (fst call))))
          calls (fst (validate_all config calls rm))
  /\ daily_start_equity (snd (validate_all config calls rm)) = Some d.
Proof.
  revert rm.
  induction calls as [|[[ctx account] positions] calls IH]; intros rm Hd.
  - split; [constructor|assumption].
  - cbn [validate_all].
    pose proof (validate_order_eq config ctx account positions rm) as Hv.
    destruct (validate_order config ctx account positions rm) as [r rm1]
      eqn:Hcall.
    assert (Hd1 : daily_start_equity rm1 = Some d).
    { injection Hv as _ ->. now rewrite daily_start_after, Hd. }
    specialize (IH rm1 Hd1).
    destruct (validate_all config calls rm1) as [rs rm2]. cbn [fst snd] in *.
    destruct IH as [IH1 IH2]. split; [|assumption].
    constructor; [|assumption]. cbn [fst snd]. split.
    + intros ->. apply Qnot_lt_le. intros Hlt.
      apply (validate_order_above_floor config ctx account positions rm d Hd).
      * unfold daily_loss_reached. lra.
      * now rewrite Hcall.
    + intros Hloss.
      destruct (validate_order_daily_loss config ctx account positions rm d
                  Hd Hloss) as [Hr _].
      rewrite Hcall in Hr. now injection Hr as ->.
Qed.

Lemma daily_loss_rejections_witness :
  let calls := [ (wide_stop_context, mkAccount 30000 29000 0 (-1000), ∅);
                 (tight_stop_context, mkAccount 30000 29300 0 (-700),
                  other_symbol_positions);
                 (wide_stop_context, mkAccount 30000 29500 0 (-500), ∅) ] in
  let rm := mkRisk (Some 30000) (Some 30000) in
  Forall2 (fun call r =>
             r = Raise (RiskViolation msg_daily_loss)
             <-> daily_loss_reached default_config 30000
                   (acc_equity (snd (fst call))))
          calls (fst (validate_all default_config calls rm))
  /\ daily_start_equity (snd (validate_all default_config calls rm))
     = Some 30000.
Proof.
  apply (daily_loss_rejections default_config (mkRisk (Some 30000) (Some 30000))
           30000).
  reflexivity.
Defined.

(** ** The execution pipeline (C8) *)

Lemma side_of_buy (decision : ExecutionDecision) :
  signal decision = "BUY" -> side_of decision = "BUY".
Proof. unfold side_of. now intros ->. Qed.

Lemma side_of_sell (decision : ExecutionDecision) :
  signal decision <> "BUY" -> side_of decision = "SELL".
Proof. unfold side_of. intros H. apply String.eqb_neq in H. now rewrite H. Qed.

(** Past the filters, [execute] is the risk verdict followed by the
    submission. *)
Lemma execute_past_gates (config : AppConfig) (env : Env) (tick : PriceTick)
    (decision : ExecutionDecision) (account : Account)
    (positions : gmap string Position) (h : OrderHandler) (sl : Q) :
  signal decision <> "HOLD" ->
  stop_loss decision = Some sl ->
  gates_pass config tick decision sl ->
  let rm' := breakers_after (acc_equity account) (risk_manager h) in
  execute config env tick decision account positions h
  = match validate_verdict config (context_of tick decision sl) account
                           positions (risk_manager h) with
    | Ok size =>
        let '(r, b') := submit_order config env
                          (request_of config tick decision sl size) (broker h) in
        (r, {| risk_manager := rm'; broker := b' |})
    | Raise (RiskViolation msg) =>
        (Ok (rejected msg), {| risk_manager := rm'; broker := broker h |})
    | Raise e => (Raise e, {| risk_manager := rm'; broker := broker h |})
    end.
Proof.
  intros Hhold Hsl (Hsp & Hvol & Hbuy & Hsell) rm'.
  unfold execute. apply String.eqb_neq in Hhold. rewrite Hhold, Hsl.
  unfold Qgtb. rewrite (proj2 (Qltb_ge _ _) Hsp), (proj2 (Qltb_ge _ _) Hvol).
  fold (side_of decision). cbn [ctx_stop_loss ctx_price].
  fold (entry_price tick decision).
  assert (Hgate :
    String.eqb (side_of decision) "BUY"
      && Qgeb sl (entry_price tick decision) = false
    /\ String.eqb (side_of decision) "SELL"
         && Qle_bool sl (entry_price tick decision) = false).
  { unfold entry_price, Qgeb.
    destruct (String.eqb_spec (signal decision) "BUY") as [E|E].
    - rewrite (side_of_buy _ E). cbn.
      split; [|reflexivity]. apply Qle_bool_false. auto.
    - rewrite (side_of_sell _ E). cbn.
      split; [reflexivity|]. apply Qle_bool_false. auto. }
  destruct Hgate as [-> ->].
  fold (context_of tick decision sl).
  unfold bind at 1. unfold except_RiskViolation. unfold bind at 1.
  unfold on_risk at 1. rewrite validate_order_eq. fold rm'.
  destruct (validate_verdict _ _ _ _ _) as [size|e].
  - unfold ret at 1. cbv beta iota.
    fold (request_of config tick decision sl size).
    unfold bind at 1. unfold on_broker. cbn [broker risk_manager].
    destruct (submit_order _ _ _ _) as [[r|e] b'].
    + unfold ret. destruct (negb (success r)); reflexivity.
    + reflexivity.
  - destruct e; reflexivity.
Qed.







(** ** The state store (C9) *)

Lemma persist_eq (lib : Library) (self : StateManager) (state : pyval)
    (fs : FileSystem) :
  persist lib self state fs
  = (Ok tt,
     <[path self := json_dumps lib state]>
       (delete (with_suffix lib (path self) ".tmp")
          (<[with_suffix lib (path self) ".tmp" := json_dumps lib state]> fs))).
Proof.
  unfold persist. run_m. now rewrite lookup_insert_eq.
Qed.

Lemma load_absent (lib : Library) (self : StateManager) (today : string)
    (fs : FileSystem) :
  fs !! path self = None ->
  load lib self today fs = (Ok (_default_state self today), fs).
Proof. intros H. unfold load. run_m. now rewrite H. Qed.

Lemma load_present (lib : Library) (self : StateManager) (today : string)
    (fs : FileSystem) (bytes : string) :
  fs !! path self = Some bytes ->
  load lib self today fs
  = (match read_text bytes with
     | Ok content =>
         match json_loads lib content with
         | Raise JSONDecodeError => Ok (_default_state self today)
         | r => r
         end
     | Raise e => Raise e
     end, fs).
Proof.
  intros H. unfold load. run_m. rewrite H. unfold read_text.
  destruct (utf8_valid bytes); [|reflexivity].
  destruct (json_loads lib (universal_newlines bytes)) as [v|[]]; reflexivity.
Qed.

Lemma load_undecodable (lib : Library) (self : StateManager) (today : string)
    (fs : FileSystem) (bytes : string) :
  fs !! path self = Some bytes ->
  utf8_valid bytes = false ->
  load lib self today fs = (Raise (OtherError "UnicodeDecodeError"), fs).
Proof.
  intros H Hbad. rewrite (load_present _ _ _ _ _ H). unfold read_text.
  now rewrite Hbad.
Qed.

(** What does hold of the state store: a snapshot whose dump is read back
    by the library survives [persist] and [load]; an absent file, and a file
    of well-formed text that [json.loads] refuses, give the default
    snapshot. *)
Lemma persist_then_load (lib : Library) (self : StateManager)
    (today : string) (fs : FileSystem) (state : pyval) :
  let default_state := _default_state self today in
  (forall text,
      read_text (json_dumps lib state) = Ok text ->
      json_loads lib text = Ok state ->
      exists fs', persist lib self state fs = (Ok tt, fs')
                  /\ load lib self today fs' = (Ok state, fs'))
  /\ (fs !! path self = None ->
      load lib self today fs = (Ok default_state, fs))
  /\ (forall bytes text,
        fs !! path self = Some bytes ->
        read_text bytes = Ok text ->
        json_loads lib text = Raise JSONDecodeError ->
        load lib self today fs = (Ok default_state, fs))
  /\ (py_get "balance" default_state = Some (PFloat (sm_initial_balance self))
      /\ py_get "equity" default_state = Some (PFloat (sm_initial_balance self))
      /\ py_get "positions" default_state = Some (PDict [])
      /\ py_get "margin_used" default_state = Some (PFloat 0)
      /\ py_get "trading_day" default_state = Some (PStr today)).
Proof.
  intros default_state. split; [|split; [|split]].
  - intros text Hread Hrt. eexists. split; [apply persist_eq|].
    erewrite load_present by apply lookup_insert_eq.
    now rewrite Hread, Hrt.
  - apply load_absent.
  - intros bytes text Hc Hread Hp. rewrite (load_present _ _ _ _ _ Hc).
    now rewrite Hread, Hp.
  - repeat split.
Qed.

(** C9.  The claim fails on a corrupted state file whose bytes are not
    UTF-8: [load] means to fall back to the default snapshot on corruption,
    but it catches [JSONDecodeError] only, and [read_text] raises
    [UnicodeDecodeError] before [json.loads] is reached.  On the three bytes
    7B FF 7D the call raises instead of returning the default snapshot; on
    text that merely fails to parse, and on an absent file, it does return
    the default, and a persisted default snapshot is read back. *)
Theorem load_raises_on_undecodable_file :
  let corrupted : FileSystem :=
    {[ "state.json" := String "123" (String "255" (String "125" EmptyString)) ]} in
  let default_state := _default_state the_state_manager "2026-01-06" in
  load MiniJson.library the_state_manager "2026-01-06" corrupted
  = (Raise (OtherError "UnicodeDecodeError"), corrupted)
  /\ load MiniJson.library the_state_manager "2026-01-06"
          {[ "state.json" := "{ broken" ]}
     = (Ok default_state, {[ "state.json" := "{ broken" ]})
  /\ load MiniJson.library the_state_manager "2026-01-06" ∅
     = (Ok default_state, ∅)
  /\ exists fs',
       persist MiniJson.library the_state_manager default_state ∅
       = (Ok tt, fs')
       /\ load MiniJson.library the_state_manager "2026-01-07" fs'
          = (Ok default_state, fs').
Proof.
  cbv zeta. split; [|split; [|split]].
  - eapply load_undecodable; [apply lookup_singleton_eq|].
    vm_compute. reflexivity.
  - apply (proj1 (proj2 (proj2 (persist_then_load MiniJson.library
                                  the_state_manager "2026-01-06"
                                  {[ "state.json" := "{ broken" ]} PNone)))
                 "{ broken" "{ broken").
    + apply lookup_singleton_eq.
    + vm_compute. reflexivity.
    + vm_compute. reflexivity.
  - now apply load_absent.
  - apply (proj1 (persist_then_load MiniJson.library the_state_manager
                    "2026-01-07" ∅
                    (_default_state the_state_manager "2026-01-06"))
                 (json_dumps MiniJson.library
                    (_default_state the_state_manager "2026-01-06"))).
    + vm_compute. reflexivity.
    + vm_compute. reflexivity.
Qed.

(** ** Same-direction fills (C5) *)













(** * Properties of the further code *)

(** ** The price dictionary *)

Lemma dict_get_set_eq {V} (k : string) (v : V) (d : list (string * V)) :
  dict_get k (dict_set k v d) = Some v.
Proof.
  induction d as [|[k' v'] d IH]; simpl.
  - now rewrite String.eqb_refl.
  - destruct (String.eqb k k') eqn:E; simpl; rewrite E; [reflexivity|exact IH].
Qed.

Lemma dict_get_set_ne {V} (k k' : string) (v : V) (d : list (string * V)) :
  k <> k' -> dict_get k' (dict_set k v d) = dict_get k' d.
Proof.
  intros Hne. induction d as [|[k0 v0] d IH]; simpl.
  - apply not_eq_sym in Hne. apply String.eqb_neq in Hne. now rewrite Hne.
  - destruct (String.eqb k k0) eqn:E; simpl.
    + apply String.eqb_eq in E. subst k0.
      apply not_eq_sym in Hne. apply String.eqb_neq in Hne. now rewrite Hne.
    + destruct (String.eqb k' k0); [reflexivity|exact IH].
Qed.

Lemma dict_first_value_set {V} (k : string) (v : V) (d : list (string * V))
    (k0 : string) (v0 : V) :
  k <> k0 ->
  dict_first_value (dict_set k v ((k0, v0) :: d)) = Some v0.
Proof.
  intros Hne. simpl. apply String.eqb_neq in Hne. now rewrite Hne.
Qed.

(** ** Marking moves only pnl, equity and margin *)

Lemma legs_insert_marked (mid : Q) (m : gmap string Position) (k : string)
    (p : Position) :
  legs m !! k = Some (pos_size p, pos_entry p) ->
  legs (<[k := mark_position mid p]> m) = legs m.
Proof.
  intros H. unfold legs in *. rewrite fmap_insert. now apply insert_id.
Qed.

Lemma mark_loop_keeps (config : AppConfig) (mid : Q)
    (items : list (string * Position)) :
  forall (u mg : Q) (b b' : Broker) (r : Res (Q * Q)),
    Forall (fun kp => legs (positions b) !! fst kp
                      = Some (pos_size (snd kp), pos_entry (snd kp))) items ->
    mark_loop config mid items u mg b = (r, b') ->
    legs (positions b') = legs (positions b)
    /\ set_positions (positions b) b' = b.
Proof.
  induction items as [|[k p] items IH]; intros u mg b b' r Hitems Hrun.
  - cbn in Hrun. unfold ret in Hrun. injection Hrun as _ <-.
    split; [reflexivity|]. now destruct b.
  - apply Forall_cons in Hitems as [Hk Hitems]. cbn [fst snd] in Hk.
    cbn [mark_loop] in Hrun. fold (mark_position mid p) in Hrun.
    unfold bind at 1 in Hrun. unfold modify at 1 in Hrun.
    set (b1 := set_positions (<[k := mark_position mid p]> (positions b)) b)
      in *.
    assert (Hlegs1 : legs (positions b1) = legs (positions b))
      by (apply legs_insert_marked; exact Hk).
    unfold bind at 1 in Hrun. unfold lift_res at 1 in Hrun.
    destruct (fdiv _ _) as [d|e].
    + unfold bind at 1 in Hrun. unfold modify at 1 in Hrun.
      assert (Hb1 : set_positions
                      (<[k := mark_position mid p]> (positions b1)) b1 = b1).
      { subst b1. cbn [positions set_positions].
        rewrite insert_insert_eq. reflexivity. }
      rewrite Hb1 in Hrun.
      assert (Hitems1 : Forall (fun kp => legs (positions b1) !! fst kp
                                 = Some (pos_size (snd kp), pos_entry (snd kp)))
                               items) by (rewrite Hlegs1; exact Hitems).
      destruct (IH _ _ _ _ _ Hitems1 Hrun) as [H1 H2].
      split; [now rewrite H1|].
      rewrite <- (set_positions_twice (positions b) (positions b1)), H2.
      subst b1. now destruct b.
    + injection Hrun as _ <-. split; [exact Hlegs1|].
      subst b1. now destruct b.
Qed.

Lemma _mark_positions_keeps (config : AppConfig) (mid : Q) (b b' : Broker)
    (r : Res unit) :
  _mark_positions config mid b = (r, b') ->
  legs (positions b') = legs (positions b)
  /\ connected b' = connected b /\ balance b' = balance b
  /\ _last_prices b' = _last_prices b.
Proof.
  assert (Hitems : Forall (fun kp => legs (positions b) !! fst kp
                             = Some (pos_size (snd kp), pos_entry (snd kp)))
                          (map_to_list (positions b))).
  { apply Forall_forall. intros [k p] Hin. apply elem_of_map_to_list in Hin.
    cbn [fst snd]. unfold legs. rewrite lookup_fmap, Hin. reflexivity. }
  unfold _mark_positions. unfold bind at 1. unfold get at 1.
  unfold bind at 1.
  destruct (mark_loop config mid (map_to_list (positions b)) 0 0 b)
    as [[q|e] b1] eqn:Hloop;
    destruct (mark_loop_keeps config mid _ 0 0 b b1 _ Hitems Hloop) as [H1 H2].
  - unfold bind, modify. cbn. intros [= _ <-]. cbn.
    split; [exact H1|]. rewrite <- H2. now destruct b1.
  - intros [= _ <-]. split; [exact H1|]. rewrite <- H2. now destruct b1.
Qed.

Lemma get_account_info_keeps (config : AppConfig) (b b' : Broker)
    (r : Res Account) :
  get_account_info config b = (r, b') ->
  legs (positions b') = legs (positions b)
  /\ connected b' = connected b /\ balance b' = balance b
  /\ _last_prices b' = _last_prices b.
Proof.
  unfold get_account_info. unfold bind at 1. unfold get at 1.
  unfold bind at 1.
  destruct (dict_first_value (_last_prices b)) as [last_mid|].
  - destruct (_mark_positions config last_mid b) as [[[]|e] b1] eqn:Hmark;
      pose proof (_mark_positions_keeps _ _ _ _ _ Hmark) as (H1 & H2 & H3 & H4).
    + run_m. intros [= _ <-]. cbn. auto.
    + intros [= _ <-]. auto.
  - run_m. intros [= _ <-]. cbn. auto.
Qed.

Lemma price_stream_step_keeps (config : AppConfig) (env : Env)
    (syms : list string) (b b' : Broker) (r : Res (option PriceTick)) :
  price_stream_step config env syms b = (r, b') ->
  legs (positions b') = legs (positions b)
  /\ connected b' = connected b /\ balance b' = balance b.
Proof.
  unfold price_stream_step. unfold bind at 1. unfold get at 1.
  destruct (connected b) eqn:Hc; cbn [negb];
    [|unfold ret; intros [= _ <-]; auto].
  unfold try_catch. unfold bind at 1. unfold lift_res at 1.
  destruct (fetch_price env) as [[[[o hi] lo] c]|e];
    [|unfold ret; intros [= _ <-]; auto].
  unfold bind at 1. unfold get at 1. unfold bind at 1.
  match goal with
  | |- context [(if negb (Qeq_bool ?m 0) then _ else _) b] =>
      assert (Hvol : exists v,
                 (if negb (Qeq_bool m 0)
                  then lift_res (fdiv (Qabs (c - m)) m)
                  else ret 0) b = (Ok v, b))
        by (destruct (Qeq_bool m 0) eqn:E; cbn [negb];
            [eexists; reflexivity
            |unfold lift_res, fdiv; rewrite E; eexists; reflexivity])
  end.
  destruct Hvol as [v ->].
  unfold bind at 1. unfold modify at 1. unfold bind at 1.
  match goal with
  | |- context [_mark_positions config c ?b0] =>
      destruct (_mark_positions config c b0) as [[[]|e] b1] eqn:Hmark;
      pose proof (_mark_positions_keeps _ _ _ _ _ Hmark) as (H1 & H2 & H3 & _)
  end; unfold ret; intros [= _ <-];
    cbn [positions connected balance set_last_prices] in H1, H2, H3;
    (split; [exact H1|split; [congruence|exact H3]]).
Qed.

Lemma no_flat_positions_legs (b b' : Broker) :
  legs (positions b') = legs (positions b) ->
  no_flat_positions b -> no_flat_positions b'.
Proof.
  intros Hlegs Hflat k p Hp.
  assert (H : legs (positions b) !! k = Some (pos_size p, pos_entry p)).
  { rewrite <- Hlegs. unfold legs. now rewrite lookup_fmap, Hp. }
  unfold legs in H. rewrite lookup_fmap in H.
  destruct (positions b !! k) as [p0|] eqn:Hp0; [|discriminate].
  injection H as Hs _. rewrite <- Hs. exact (Hflat k p0 Hp0).
Qed.

(** X1. Marking to market moves only pnl, equity and margin: whatever
    [get_account_info] or a turn of [price_stream] returns or raises, every
    position keeps its size and entry price, no position appears or
    disappears, and the balance and the connection flag stay as they
    were. *)
Theorem marking_changes_only_pnl (config : AppConfig) (env : Env)
    (syms : list string) (b : Broker) :
  (let b' := snd (get_account_info config b) in
   legs (positions b') = legs (positions b)
   /\ balance b' = balance b /\ connected b' = connected b
   /\ _last_prices b' = _last_prices b)
  /\ (let b' := snd (price_stream_step config env syms b) in
      legs (positions b') = legs (positions b)
      /\ balance b' = balance b /\ connected b' = connected b).
Proof.
  split.
  - destruct (get_account_info config b) as [r b'] eqn:H.
    apply get_account_info_keeps in H as (H1 & H2 & H3 & H4). cbn. auto.
  - destruct (price_stream_step config env syms b) as [r b'] eqn:H.
    apply price_stream_step_keeps in H as (H1 & H2 & H3). cbn. auto.
Qed.

(** ** What a fill does to the rest of the ledger *)

Lemma submit_order_state (config : AppConfig) (env : Env)
    (order : OrderRequest) (b b1 : Broker) (mid : Q) :
  connected b = true ->
  lookup_mid env order b = (Ok mid, b1) ->
  snd (submit_order config env order b)
  = snd (_mark_positions config mid (filled_broker config order mid b1)).
Proof.
  intros Hc Hm. rewrite (submit_order_connected _ _ _ _ _ _ Hc Hm).
  destruct (_mark_positions config mid _) as [[[]|e] b']; reflexivity.
Qed.

Lemma filled_broker_other (config : AppConfig) (order : OrderRequest) (mid : Q)
    (b : Broker) (k : string) :
  k <> order_symbol order ->
  positions (filled_broker config order mid b) !! k = positions b !! k.
Proof.
  intros Hk. unfold filled_broker. cbn [positions set_positions].
  match goal with
  | |- context [if ?c then delete ?i ?m else ?z] => destruct c
  end.
  - now rewrite lookup_delete_ne by congruence.
  - now rewrite lookup_insert_ne by congruence.
Qed.

Lemma filled_broker_own (config : AppConfig) (order : OrderRequest) (mid : Q)
    (b : Broker) (p : Position) :
  positions (filled_broker config order mid b) !! order_symbol order = Some p ->
  ~ pos_size p == 0.
Proof.
  unfold filled_broker. cbn [positions set_positions].
  match goal with
  | |- context [if Qeq_bool ?x 0 then delete ?i ?m else ?z] =>
      destruct (Qeq_bool x 0) eqn:E
  end.
  - rewrite lookup_delete_eq. discriminate.
  - rewrite lookup_insert_eq. intros [= <-] H.
    apply Qeq_bool_true in H. congruence.
Qed.

Lemma submit_order_keeps_others (config : AppConfig) (env : Env)
    (order : OrderRequest) (b b' : Broker) (r : Res OrderResult) (k : string) :
  submit_order config env order b = (r, b') ->
  k <> order_symbol order ->
  legs (positions b') !! k = legs (positions b) !! k.
Proof.
  intros Hrun Hk. destruct (connected b) eqn:Hc.
  - destruct (lookup_mid env order b) as [[mid|e] b1] eqn:Hm.
    + pose proof (submit_order_state config env order b b1 mid Hc Hm) as Hs.
      rewrite Hrun in Hs. cbn [snd] in Hs.
      destruct (_mark_positions config mid _) as [r0 b2] eqn:Hmark.
      cbn [snd] in Hs. subst b2.
      apply _mark_positions_keeps in Hmark as (H1 & _).
      rewrite H1. unfold legs. rewrite !lookup_fmap.
      rewrite filled_broker_other by assumption.
      now destruct (lookup_mid_connected _ _ _ _ _ Hm) as (_ & _ & ->).
    + rewrite (submit_order_raises_from_lookup _ _ _ _ _ _ Hc Hm) in Hrun.
      injection Hrun as _ <-.
      now destruct (lookup_mid_connected _ _ _ _ _ Hm) as (_ & _ & ->).
  - rewrite submit_order_disconnected in Hrun by assumption.
    now injection Hrun as _ <-.
Qed.

Lemma submit_order_no_flat (config : AppConfig) (env : Env)
    (order : OrderRequest) (b b' : Broker) (r : Res OrderResult) :
  submit_order config env order b = (r, b') ->
  no_flat_positions b -> no_flat_positions b'.
Proof.
  intros Hrun Hflat. destruct (connected b) eqn:Hc.
  - destruct (lookup_mid env order b) as [[mid|e] b1] eqn:Hm.
    + pose proof (submit_order_state config env order b b1 mid Hc Hm) as Hs.
      rewrite Hrun in Hs. cbn [snd] in Hs.
      destruct (_mark_positions config mid _) as [r0 b2] eqn:Hmark.
      cbn [snd] in Hs. subst b2.
      apply _mark_positions_keeps in Hmark as (H1 & _).
      apply (no_flat_positions_legs _ _ H1).
      intros k p Hp. destruct (string_dec k (order_symbol order)) as [->|Hk].
      * exact (filled_broker_own _ _ _ _ _ Hp).
      * rewrite filled_broker_other in Hp by assumption.
        destruct (lookup_mid_connected _ _ _ _ _ Hm) as (_ & _ & Hpos).
        rewrite Hpos in Hp. exact (Hflat k p Hp).
    + rewrite (submit_order_raises_from_lookup _ _ _ _ _ _ Hc Hm) in Hrun.
      injection Hrun as _ <-.
      destruct (lookup_mid_connected _ _ _ _ _ Hm) as (_ & _ & Hpos).
      intros k p Hp. rewrite Hpos in Hp. exact (Hflat k p Hp).
  - rewrite submit_order_disconnected in Hrun by assumption.
    now injection Hrun as _ <-.
Qed.

(** X2. An order changes the size and the entry price of its own symbol
    only: whatever [submit_order] returns or raises, the positions of every
    other symbol keep their size and entry, and none appears or disappears;
    after a fill they are re-marked at the mid price of the order's
    symbol. *)
Theorem fill_leaves_other_symbols (config : AppConfig) (env : Env)
    (order : OrderRequest) (b : Broker) (k : string) :
  k <> order_symbol order ->
  legs (positions (snd (submit_order config env order b))) !! k
  = legs (positions b) !! k
  /\ (forall mid b1,
        connected b = true ->
        lookup_mid env order b = (Ok mid, b1) ->
        ~ leverage_limit config == 0 ->
        positions (snd (submit_order config env order b)) !! k
        = mark_position mid <$> positions b !! k).
Proof.
  intros Hk. split.
  - destruct (submit_order config env order b) as [r b'] eqn:Hrun.
    exact (submit_order_keeps_others _ _ _ _ _ _ _ Hrun Hk).
  - intros mid b1 Hc Hm Hlev.
    rewrite (submit_order_filled _ _ _ _ _ _ Hc Hm) by now right.
    cbn [snd marked_broker positions]. rewrite lookup_fmap.
    rewrite filled_broker_other by assumption.
    now destruct (lookup_mid_connected _ _ _ _ _ Hm) as (_ & _ & ->).
Qed.

Lemma fill_leaves_other_symbols_witness :
  legs (positions (snd (submit_order default_config scenario_env scenario_sell
                          (set_positions
                             (<["EURUSD" := mkPosition 25 1 0]>
                                (positions scenario_broker))
                             scenario_broker)))) !! "EURUSD"
  = Some (25, 1).
Proof.
  refine (eq_trans (proj1 (fill_leaves_other_symbols default_config scenario_env
                             scenario_sell _ "EURUSD" _)) _).
  - discriminate.
  - vm_compute. reflexivity.
Defined.

(** X3. No flat position is ever stored: a new ledger holds none, and
    if no position of the map has size zero before [submit_order],
    [get_account_info] or a turn of [price_stream], none has afterwards --
    whether the call returns or raises. *)
Theorem no_flat_positions_kept (config : AppConfig) (env : Env) (b : Broker) :
  no_flat_positions (new_broker config)
  /\ (no_flat_positions b ->
      (forall order, no_flat_positions (snd (submit_order config env order b)))
      /\ no_flat_positions (snd (get_account_info config b))
      /\ (forall syms,
            no_flat_positions (snd (price_stream_step config env syms b)))).
Proof.
  split.
  - intros k p Hp. cbn in Hp. now rewrite lookup_empty in Hp.
  - intros Hflat. split; [|split].
    + intros order.
      destruct (submit_order config env order b) as [r b'] eqn:Hrun.
      exact (submit_order_no_flat _ _ _ _ _ _ Hrun Hflat).
    + destruct (get_account_info config b) as [r b'] eqn:Hrun.
      apply get_account_info_keeps in Hrun as (H & _).
      exact (no_flat_positions_legs _ _ H Hflat).
    + intros syms.
      destruct (price_stream_step config env syms b) as [r b'] eqn:Hrun.
      apply price_stream_step_keeps in Hrun as (H & _).
      exact (no_flat_positions_legs _ _ H Hflat).
Qed.

Lemma no_flat_positions_kept_witness :
  no_flat_positions scenario_broker
  /\ no_flat_positions
       (snd (submit_order default_config scenario_env
               (mkOrder "XAUUSD" "SELL" 10 2010 2020 None "MARKET" "IOC"
                        "ALGOBOT-001")
               scenario_broker))
  /\ positions
       (snd (submit_order default_config scenario_env
               (mkOrder "XAUUSD" "SELL" 10 2010 2020 None "MARKET" "IOC"
                        "ALGOBOT-001")
               scenario_broker)) = ∅.
Proof.
  assert (H : no_flat_positions scenario_broker).
  { intros k p Hp. cbn in Hp. apply lookup_singleton_Some in Hp as [_ <-].
    cbn. discriminate. }
  split; [exact H|]. split.
  - exact (proj1 (proj2 (no_flat_positions_kept default_config scenario_env
                           scenario_broker) H) _).
  - vm_compute. reflexivity.
Defined.

(** ** Asking for the account twice *)

Lemma fold_left_fmap_snd {A B} (f : A -> A) (g : A -> B -> B)
    (l : list (string * A)) (u : B) :
  fold_left (fun acc kp => g (snd kp) acc) (prod_map id f <$> l) u
  = fold_left (fun acc kp => g (f (snd kp)) acc) l u.
Proof.
  revert u. induction l as [|[k a] l IH]; intros u; [reflexivity|].
  cbn. apply IH.
Qed.

Lemma mark_position_idem (mid : Q) (p : Position) :
  mark_position mid (mark_position mid p) = mark_position mid p.
Proof. reflexivity. Qed.

Lemma marked_broker_idem (config : AppConfig) (mid : Q) (b : Broker) :
  marked_broker config mid (marked_broker config mid b)
  = marked_broker config mid b.
Proof.
  unfold marked_broker. cbn [connected balance positions _last_prices].
  rewrite <- map_fmap_compose.
  assert (Hpos : (mark_position mid ∘ mark_position mid) <$> positions b
                 = mark_position mid <$> positions b)
    by (apply map_fmap_ext; intros; reflexivity).
  rewrite Hpos.
  f_equal.
  - f_equal. unfold unrealized_at. rewrite map_to_list_fmap.
    apply (fold_left_fmap_snd (mark_position mid)
             (fun p acc => acc + pos_pnl (mark_position mid p))).
  - unfold margin_at. rewrite map_to_list_fmap.
    apply (fold_left_fmap_snd (mark_position mid)
             (fun p acc => acc + Qabs (pos_size p * mid) / leverage_limit config)).
Qed.

(** X4. [get_account_info] is idempotent: a second call right after a
    first one that returned gives the same account figures and leaves the
    ledger as the first call left it. *)
Theorem get_account_info_idempotent (config : AppConfig) (b b1 : Broker)
    (a : Account) :
  get_account_info config b = (Ok a, b1) ->
  get_account_info config b1 = (Ok a, b1).
Proof.
  unfold get_account_info at 1. unfold bind at 1. unfold get at 1.
  unfold bind at 1.
  destruct (dict_first_value (_last_prices b)) as [mid|] eqn:Hfirst.
  - destruct (_mark_positions config mid b) as [[[]|e] bm] eqn:Hmark;
      [|discriminate].
    pose proof (_mark_positions_Ok _ _ _ _ _ Hmark) as Hlev.
    rewrite (_mark_positions_eq _ _ _ Hlev) in Hmark. injection Hmark as <-.
    run_m. intros [= <- <-].
    unfold get_account_info. unfold bind at 1. unfold get at 1.
    unfold bind at 1. cbn [_last_prices set_equity marked_broker].
    rewrite Hfirst.
    assert (Hlev1 : positions (set_equity
                       (balance b + sum_pnl (mark_position mid <$> positions b))
                       (marked_broker config mid b)) = ∅
                    \/ ~ leverage_limit config == 0).
    { destruct Hlev as [H|H]; [left|now right].
      cbn [positions set_equity marked_broker]. rewrite H. apply fmap_empty. }
    rewrite (_mark_positions_eq _ _ _ Hlev1).
    assert (Hb : marked_broker config mid
                   (set_equity
                      (balance b + sum_pnl (mark_position mid <$> positions b))
                      (marked_broker config mid b))
                 = marked_broker config mid b).
    { transitivity (marked_broker config mid (marked_broker config mid b));
        [reflexivity|apply marked_broker_idem]. }
    rewrite Hb. run_m. reflexivity.
  - run_m. intros [= <- <-].
    unfold get_account_info. run_m. rewrite Hfirst. reflexivity.
Qed.

Lemma get_account_info_idempotent_witness :
  get_account_info default_config
    (snd (get_account_info default_config scenario_broker))
  = get_account_info default_config scenario_broker.
Proof.
  assert (H : get_account_info default_config scenario_broker
              = (Ok (match fst (get_account_info default_config scenario_broker)
                     with Ok a => a | Raise _ => mkAccount 0 0 0 0 end),
                 snd (get_account_info default_config scenario_broker)))
    by (vm_compute; reflexivity).
  rewrite H at 2.
  exact (get_account_info_idempotent default_config scenario_broker _ _ H).
Defined.

(** ** A turn of the price stream *)

(** X5. A turn of [price_stream] never raises: a failing fetch is logged
    and leaves the ledger as it was.  When the fetch returns, the tick's bid
    and ask are the close less and plus half the simulated spread -- so they
    lie on either side of the close when the spread is not negative -- the
    close becomes the last price of the symbol, the ledger is marked to it,
    and the first tick of a symbol reports a volatility of zero. *)
Theorem price_stream_turn (config : AppConfig) (env : Env) (syms : list string)
    (b : Broker) :
  let symbol := match syms with s :: _ => s | [] => data_symbol config end in
  (exists t b', price_stream_step config env syms b = (Ok t, b'))
  /\ (forall e, fetch_price env = Raise e ->
                price_stream_step config env syms b = (Ok None, b))
  /\ (forall o h l c,
        connected b = true ->
        fetch_price env = Ok (o, h, l, c) ->
        ~ leverage_limit config == 0 ->
        exists tick b',
          price_stream_step config env syms b = (Ok (Some tick), b')
          /\ tick_symbol tick = symbol
          /\ tick_close tick = Some c
          /\ tick_bid tick = c - simulated_spread config / 2
          /\ tick_ask tick = c + simulated_spread config / 2
          /\ tick_spread tick = simulated_spread config
          /\ (0 <= simulated_spread config ->
              tick_bid tick <= c <= tick_ask tick)
          /\ dict_get symbol (_last_prices b') = Some c
          /\ ledger_invariant b'
          /\ (dict_get symbol (_last_prices b) = None ->
              tick_volatility tick == 0)
          /\ (forall last,
                dict_get symbol (_last_prices b) = Some last -> ~ last == 0 ->
                tick_volatility tick = Qabs (c - last) / last)).
Proof.
  intros symbol. split; [|split].
  - unfold price_stream_step. unfold bind at 1. unfold get at 1.
    destruct (connected b); cbn [negb]; [|unfold ret; eauto].
    unfold try_catch.
    match goal with
    | |- context [match ?body b with _ => _ end] =>
        destruct (body b) as [[t|e] b']
    end; unfold ret; eauto.
  - intros e He. unfold price_stream_step. unfold bind at 1. unfold get at 1.
    destruct (connected b); cbn [negb]; [|reflexivity].
    unfold try_catch. unfold bind at 1. unfold lift_res at 1. rewrite He.
    reflexivity.
  - intros o h l c Hc Hf Hlev.
    unfold price_stream_step. fold symbol.
    unfold bind at 1. unfold get at 1. rewrite Hc. cbn [negb].
    unfold try_catch. unfold bind at 1. unfold lift_res at 1. rewrite Hf.
    unfold bind at 1. unfold get at 1. unfold bind at 1.
    set (last_mid := default c (dict_get symbol (_last_prices b))).
    set (vol := if Qeq_bool last_mid 0 then 0 else Qabs (c - last_mid) / last_mid).
    assert (Hvol : (if negb (Qeq_bool last_mid 0)
                    then lift_res (fdiv (Qabs (c - last_mid)) last_mid)
                    else ret 0) b = (Ok vol, b)).
    { subst vol. destruct (Qeq_bool last_mid 0) eqn:E; cbn [negb];
        [reflexivity|]. unfold lift_res, fdiv. now rewrite E. }
    rewrite Hvol.
    unfold bind at 1. unfold modify at 1. unfold bind at 1.
    rewrite _mark_positions_eq by now right. unfold ret.
    eexists _, _. split; [reflexivity|].
    cbn [tick_symbol tick_close tick_ask tick_bid tick_volatility tick_spread].
    split; [reflexivity|]. split; [reflexivity|].
    split; [reflexivity|]. split; [reflexivity|]. split; [reflexivity|].
    split.
    { intros Hs.
      assert (Hh : 0 <= simulated_spread config / 2)
        by (apply Qle_shift_div_l; [reflexivity|]; lra).
      set (half := simulated_spread config / 2) in *. split; lra. }
    split; [cbn [marked_broker _last_prices set_last_prices];
            apply dict_get_set_eq|].
    split; [apply marked_broker_invariant|].
    split.
    + intros Hnone. subst vol last_mid. rewrite Hnone. cbn [default from_option id].
      destruct (Qeq_bool c 0) eqn:E; [reflexivity|].
      assert (Hz : c - c == 0) by ring.
      rewrite (Qabs_wd _ _ Hz). change (Qabs 0) with 0.
      unfold Qdiv. ring.
    + intros last Hlast Hnz. subst vol last_mid. rewrite Hlast.
      cbn [default from_option id]. now rewrite (Qeq_bool_false _ _ Hnz).
Qed.

Lemma price_stream_turn_witness :
  exists tick b',
    price_stream_step default_config (quote_env 2000) ["XAUUSD"]
                      fresh_connected_broker = (Ok (Some tick), b')
    /\ tick_volatility tick == 0
    /\ dict_get "XAUUSD" (_last_prices b') = Some 2000.
Proof.
  destruct (proj2 (proj2 (price_stream_turn default_config (quote_env 2000)
                            ["XAUUSD"] fresh_connected_broker))
              2000 2000 2000 2000 eq_refl eq_refl
              ltac:(vm_compute; discriminate))
    as (tick & b' & H1 & _ & _ & _ & _ & _ & _ & H6 & _ & H8 & _).
  exists tick, b'. split; [exact H1|]. split; [|exact H6].
  apply H8. reflexivity.
Defined.

(** ** Opening and closing at one price *)





(** ** Backoff *)




Lemma compute_backoff_Ok (attempt : Z) (base max_delay : Q) :
  (attempt < 1024)%Z ->
  compute_backoff attempt base max_delay
  = Ok (Qmin max_delay (base * 2 ^ attempt)).
Proof.
  intros H. unfold compute_backoff.
  now rewrite (proj2 (Z.leb_gt 1024 attempt) H).
Qed.




(** ** Reconnecting *)

Lemma backoff_delays_S (bo : Backoff) (attempt : Z) (n : nat) :
  backoff_delays bo attempt (S n)
  = Qmin (reconnect_max bo) (reconnect_base bo * 2 ^ attempt)
    :: backoff_delays bo (attempt + 1) n.
Proof.
  unfold backoff_delays. cbn [seq List.map]. rewrite Z.add_0_r. f_equal.
  rewrite <- seq_shift, List.map_map.
  apply List.map_ext. intros i. do 3 f_equal. lia.
Qed.

Lemma connect_failing (env : Env) (b : Broker) (e : exn) :
  fetch_price env = Raise e ->
  try_catch (connect env ;;; ret true) (fun _ => ret false) b = (Ok false, b).
Proof.
  intros H. unfold try_catch, connect. run_m. now rewrite H.
Qed.

Lemma connect_succeeding (env : Env) (b : Broker) (ohlc : Q * Q * Q * Q) :
  fetch_price env = Ok ohlc ->
  try_catch (connect env ;;; ret true) (fun _ => ret false) b
  = (Ok true, set_connected true b).
Proof.
  intros H. unfold try_catch, connect. run_m. now rewrite H.
Qed.

Lemma connect_loop_outcome (bo : Backoff) (world : list (bool * Env)) :
  forall (attempt : Z) (b : Broker),
  (attempt + Z.of_nat (length world) <= 1024)%Z ->
  exists delays finished b',
    connect_loop bo world attempt b = (Ok (delays, finished), b')
    /\ delays = backoff_delays bo attempt (length delays)
    /\ (length delays <= length world)%nat
    /\ set_connected (connected b) b' = b
    /\ (connected b = true -> delays = [] /\ b' = b)
    /\ (finished = false ->
        connected b' = false /\ length delays = length world).
Proof.
  induction world as [|[cancelled env] world IH]; intros attempt b Hlen.
  - cbn [connect_loop]. unfold bind at 1. unfold get at 1.
    destruct (connected b) eqn:Hc; unfold ret.
    + exists [], true, b. repeat split; try reflexivity; try discriminate.
      rewrite <- Hc. now destruct b.
    + exists [], false, b. repeat split; try reflexivity; try discriminate.
      * rewrite <- Hc. now destruct b.
      * assumption.
  - cbn [connect_loop]. unfold bind at 1. unfold get at 1.
    destruct (connected b) eqn:Hc.
    { unfold ret. exists [], true, b.
      repeat split; try reflexivity; try discriminate; try (cbn; lia).
      rewrite <- Hc. now destruct b. }
    destruct cancelled.
    { unfold ret. exists [], true, b.
      repeat split; try reflexivity; try discriminate; try (cbn; lia).
      rewrite <- Hc. now destruct b. }
    unfold bind at 1.
    destruct (fetch_price env) as [ohlc|e] eqn:Hf.
    + rewrite (connect_succeeding _ _ _ Hf). unfold ret.
      exists [], true, (set_connected true b).
      repeat split; try reflexivity; try discriminate; try (cbn; lia).
      rewrite <- Hc. now destruct b.
    + rewrite (connect_failing _ _ _ Hf). cbn [length] in Hlen.
      unfold bind at 1. rewrite compute_backoff_Ok by lia.
      unfold lift_res at 1.
      destruct (IH (attempt + 1)%Z b ltac:(lia))
        as (delays & fin & b' & Hrun & Hd & Hlen' & Hb & _ & Hfin).
      unfold bind at 1. rewrite Hrun. unfold ret. cbn [fst snd].
      eexists _, fin, b'. split; [reflexivity|].
      split; [cbn [length]; rewrite backoff_delays_S; now rewrite <- Hd|].
      split; [cbn [length]; lia|]. split; [now rewrite Hc in Hb|].
      split; [discriminate|].
      intros Hf'. destruct (Hfin Hf') as [H1 H2]. split; [exact H1|].
      cbn [length]. now rewrite H2.
Qed.

Lemma connect_loop_first_success (bo : Backoff) (failures : list (bool * Env))
    (env : Env) (rest : list (bool * Env)) (ohlc : Q * Q * Q * Q) :
  Forall failing_turn failures ->
  fetch_price env = Ok ohlc ->
  forall (attempt : Z) (b : Broker),
    connected b = false ->
    (attempt + Z.of_nat (length failures) <= 1024)%Z ->
    connect_loop bo (failures ++ (false, env) :: rest) attempt b
    = (Ok (backoff_delays bo attempt (length failures), true),
       set_connected true b).
Proof.
  intros Hfail Hok. induction Hfail as [|[c env0] failures [Hc0 [e He]] _ IH];
    intros attempt b Hc Hlen.
  - cbn [app connect_loop length]. unfold bind at 1. unfold get at 1.
    rewrite Hc. unfold bind at 1. now rewrite (connect_succeeding _ _ _ Hok).
  - cbn [fst snd] in Hc0, He. subst c. cbn [length] in Hlen.
    cbn [app connect_loop length]. unfold bind at 1. unfold get at 1.
    rewrite Hc. unfold bind at 1. rewrite (connect_failing _ _ _ He).
    unfold bind at 1. rewrite compute_backoff_Ok by lia. unfold lift_res at 1.
    unfold bind at 1. rewrite (IH _ _ Hc) by lia. unfold ret. cbn [fst snd].
    now rewrite backoff_delays_S.
Qed.

Lemma connect_loop_overflow (bo : Backoff) (failures : list (bool * Env))
    (rest : list (bool * Env)) :
  Forall failing_turn failures ->
  forall (attempt : Z) (b : Broker),
    connected b = false ->
    (attempt <= 1024)%Z ->
    (1024 < attempt + Z.of_nat (length failures))%Z ->
    connect_loop bo (failures ++ rest) attempt b
    = (Raise (OtherError "OverflowError"), b).
Proof.
  intros Hfail. induction Hfail as [|[c env0] failures [Hc0 [e He]] _ IH];
    intros attempt b Hc Hle Hlen.
  - cbn [length] in Hlen. lia.
  - cbn [fst snd] in Hc0, He. subst c. cbn [length] in Hlen.
    cbn [app connect_loop]. unfold bind at 1. unfold get at 1.
    rewrite Hc. unfold bind at 1. rewrite (connect_failing _ _ _ He).
    unfold bind at 1.
    destruct (Z.eq_dec attempt 1024%Z) as [->|Hne].
    + reflexivity.
    + rewrite compute_backoff_Ok by lia. unfold lift_res at 1.
      unfold bind at 1. now rewrite (IH _ _ Hc) by lia.
Qed.

(** X8. [_connect_with_backoff] never touches the balance or the
    positions.  It makes no attempt when the broker is already connected;
    otherwise it sleeps [min(cap, base * 2^k)] after the k-th failed attempt
    (k = 0, 1, ...), each delay at most the ceiling, and it connects at the
    first fetch that returns.  It does not raise within 1024 turns of the
    loop; at the 1025th failed attempt in a row the delay cannot be computed
    and [OverflowError] leaves the loop, the broker still disconnected. *)
Theorem connect_with_backoff_behaviour (bo : Backoff)
    (world : list (bool * Env)) (b : Broker) :
  ((length world <= 1024)%nat ->
   exists delays finished b',
     _connect_with_backoff bo world b = (Ok (delays, finished), b')
     /\ delays = backoff_delays bo 0 (length delays)
     /\ Forall (fun d => d <= reconnect_max bo) delays
     /\ balance b' = balance b /\ positions b' = positions b
     /\ (connected b = true -> delays = [] /\ b' = b))
  /\ (forall (failures : list (bool * Env)) (env : Env)
             (rest : list (bool * Env)) (ohlc : Q * Q * Q * Q),
        connected b = false ->
        world = (failures ++ (false, env) :: rest)%list ->
        Forall failing_turn failures ->
        (length failures <= 1024)%nat ->
        fetch_price env = Ok ohlc ->
        _connect_with_backoff bo world b
        = (Ok (backoff_delays bo 0 (length failures), true),
           set_connected true b))
  /\ (forall (failures rest : list (bool * Env)),
        connected b = false ->
        world = (failures ++ rest)%list ->
        Forall failing_turn failures ->
        (1025 <= length failures)%nat ->
        _connect_with_backoff bo world b
        = (Raise (OtherError "OverflowError"), b)).
Proof.
  split; [|split].
  - intros Hlen.
    destruct (connect_loop_outcome bo world 0 b ltac:(lia))
      as (delays & fin & b' & Hrun & Hd & _ & Hb & Hconn & _).
    exists delays, fin, b'. split; [exact Hrun|]. split; [exact Hd|].
    split; [|split; [|split]].
    + rewrite Hd. unfold backoff_delays. apply Forall_forall.
      intros d Hin. apply list_elem_of_In, in_map_iff in Hin as (i & <- & _).
      apply Q.le_min_l.
    + rewrite <- Hb. reflexivity.
    + rewrite <- Hb. reflexivity.
    + exact Hconn.
  - intros failures env rest ohlc Hc -> Hfail Hlen Hok.
    apply (connect_loop_first_success bo failures env rest ohlc);
      [assumption..|lia].
  - intros failures rest Hc -> Hfail Hlen.
    apply (connect_loop_overflow bo failures rest); [assumption..|lia|lia].
Qed.

Lemma connect_with_backoff_behaviour_witness :
  _connect_with_backoff (mkBackoff 1 30)
    [ (false, scenario_env); (false, scenario_env); (false, quote_env 2000);
      (false, scenario_env) ]
    (new_broker default_config)
  = (Ok (backoff_delays (mkBackoff 1 30) 0 2, true),
     set_connected true (new_broker default_config)).
Proof.
  refine (proj1 (proj2 (connect_with_backoff_behaviour (mkBackoff 1 30) _
                          (new_broker default_config)))
                [ (false, scenario_env); (false, scenario_env) ]
                (quote_env 2000) [ (false, scenario_env) ]
                (2000, 2000, 2000, 2000) _ _ _ _ _).
  - reflexivity.
  - reflexivity.
  - repeat constructor; eexists; reflexivity.
  - cbn. lia.
  - reflexivity.
Defined.

(** ** The pipeline and the ledger *)

(** Every way through [execute]: a result that leaves both collaborators
    alone, a risk rejection, an exception of the risk manager, or the
    submission of an order of the approved size. *)
Lemma execute_cases (config : AppConfig) (env : Env) (tick : PriceTick)
    (decision : ExecutionDecision) (account : Account)
    (positions : gmap string Position) (h : OrderHandler) :
  let rm' := breakers_after (acc_equity account) (risk_manager h) in
  (exists r, execute config env tick decision account positions h = (Ok r, h)
             /\ (success r = false \/ signal decision = "HOLD"))
  \/ (exists sl,
        signal decision <> "HOLD" /\ stop_loss decision = Some sl
        /\ gates_pass config tick decision sl
        /\ match validate_verdict config (context_of tick decision sl) account
                                  positions (risk_manager h) with
           | Ok size =>
               execute config env tick decision account positions h
               = (let '(r, b') :=
                      submit_order config env
                        (request_of config tick decision sl size) (broker h) in
                  (r, {| risk_manager := rm'; broker := b' |}))
           | Raise (RiskViolation msg) =>
               execute config env tick decision account positions h
               = (Ok (rejected msg),
                  {| risk_manager := rm'; broker := broker h |})
           | Raise e =>
               execute config env tick decision account positions h
               = (Raise e, {| risk_manager := rm'; broker := broker h |})
           end).
Proof.
  intros rm'.
  destruct (String.eqb_spec (signal decision) "HOLD") as [Hh|Hh].
  { left. eexists. split; [|right].
    - unfold execute. rewrite Hh. reflexivity.
    - exact Hh. }
  destruct (stop_loss decision) as [sl|] eqn:Hsl.
  2:{ left. eexists. split; [|left].
      - unfold execute. rewrite (proj2 (String.eqb_neq _ _) Hh), Hsl.
        reflexivity.
      - reflexivity. }
  destruct (Qlt_le_dec (spread_limit config) (tick_spread tick)) as [G1|G1].
  { left. eexists. split; [|left].
    unfold execute. rewrite (proj2 (String.eqb_neq _ _) Hh), Hsl.
    unfold Qgtb. rewrite (proj2 (Qltb_lt _ _) G1). reflexivity.
    reflexivity. }
  destruct (Qlt_le_dec (volatility_limit config) (tick_volatility tick))
    as [G2|G2].
  { left. eexists. split; [|left].
    unfold execute. rewrite (proj2 (String.eqb_neq _ _) Hh), Hsl.
    unfold Qgtb.
    rewrite (proj2 (Qltb_ge _ _) G1), (proj2 (Qltb_lt _ _) G2). reflexivity.
    reflexivity. }
  destruct (string_dec (signal decision) "BUY") as [E|E].
  - destruct (Qlt_le_dec sl (tick_ask tick)) as [G3|G3].
    + right. exists sl.
      assert (Hg : gates_pass config tick decision sl)
        by (repeat split; [assumption..|intros _; assumption|congruence]).
      split; [exact Hh|]. split; [reflexivity|]. split; [exact Hg|].
      pose proof (execute_past_gates config env tick decision account
                    positions h sl Hh Hsl Hg) as Hpast.
      cbv zeta in Hpast. fold rm' in Hpast.
      destruct (validate_verdict _ _ _ _ _) as [size|[]]; exact Hpast.
    + left. eexists. split; [|left].
      unfold execute. rewrite (proj2 (String.eqb_neq _ _) Hh), Hsl.
      unfold Qgtb. rewrite (proj2 (Qltb_ge _ _) G1), (proj2 (Qltb_ge _ _) G2).
      rewrite E. cbn. unfold Qgeb.
      rewrite (proj2 (Qle_bool_iff _ _) G3). reflexivity.
      reflexivity.
  - destruct (Qlt_le_dec (tick_bid tick) sl) as [G3|G3].
    + right. exists sl.
      assert (Hg : gates_pass config tick decision sl)
        by (repeat split; [assumption..|congruence|intros _; assumption]).
      split; [exact Hh|]. split; [reflexivity|]. split; [exact Hg|].
      pose proof (execute_past_gates config env tick decision account
                    positions h sl Hh Hsl Hg) as Hpast.
      cbv zeta in Hpast. fold rm' in Hpast.
      destruct (validate_verdict _ _ _ _ _) as [size|[]]; exact Hpast.
    + left. eexists. split; [|left].
      unfold execute. rewrite (proj2 (String.eqb_neq _ _) Hh), Hsl.
      unfold Qgtb. rewrite (proj2 (Qltb_ge _ _) G1), (proj2 (Qltb_ge _ _) G2).
      rewrite (proj2 (String.eqb_neq _ _) E). cbn.
      rewrite (proj2 (Qle_bool_iff _ _) G3). reflexivity.
      reflexivity.
Qed.

Lemma validate_verdict_Ok (config : AppConfig) (ctx : OrderContext)
    (account : Account) (positions : gmap string Position) (rm : RiskManager)
    (size : Q) :
  validate_verdict config ctx account positions rm = Ok size ->
  let stop_distance := Qabs (ctx_price ctx - ctx_stop_loss ctx) in
  size = acc_equity account * risk_per_trade config / stop_distance
  /\ 0 < stop_distance /\ 0 < size
  /\ breakers_verdict config (acc_equity account) rm = Ok tt
  /\ exposure_verdict config (ctx_symbol ctx) (ctx_price ctx) size account
                      positions = Ok tt.
Proof.
  unfold validate_verdict. intros H. cbv zeta.
  set (stop_distance := Qabs (ctx_price ctx - ctx_stop_loss ctx)) in *.
  destruct (breakers_verdict config (acc_equity account) rm) as [[]|e];
    [|discriminate].
  destruct (Qle_bool stop_distance 0) eqn:Hsd; [discriminate|].
  destruct (Qle_bool (sized config (acc_equity account) stop_distance) 0)
    eqn:Hsz; [discriminate|].
  destruct (exposure_verdict _ _ _ _ _ _) as [[]|e] eqn:Hex; [|discriminate].
  injection H as <-. apply sized_positive in Hsz as [Hs Hpos].
  apply Qle_bool_false in Hsd. rewrite Hs in *. auto.
Qed.

(** X9. The ledger is reached only through the risk manager: [execute]
    either leaves the broker exactly as it was, or it has passed the three
    filters, the risk manager has approved a size for this tick, and the
    order submitted has that size, the tick's symbol and the decision's
    side. *)
Theorem execute_submits_only_approved (config : AppConfig) (env : Env)
    (tick : PriceTick) (decision : ExecutionDecision) (account : Account)
    (positions : gmap string Position) (h : OrderHandler) :
  let outcome := execute config env tick decision account positions h in
  broker (snd outcome) = broker h
  \/ (exists sl size,
        signal decision <> "HOLD"
        /\ stop_loss decision = Some sl
        /\ gates_pass config tick decision sl
        /\ fst (validate_order config (context_of tick decision sl) account
                               positions (risk_manager h)) = Ok size
        /\ fst outcome
           = fst (submit_order config env
                    (request_of config tick decision sl size) (broker h))
        /\ broker (snd outcome)
           = snd (submit_order config env
                    (request_of config tick decision sl size) (broker h))).
Proof.
  intros outcome. subst outcome.
  destruct (execute_cases config env tick decision account positions h)
    as [(r & -> & _)|(sl & Hh & Hsl & Hg & Hcase)]; [now left|].
  destruct (validate_verdict config (context_of tick decision sl) account
                             positions (risk_manager h)) as [size|e] eqn:Hv.
  - right. exists sl, size. rewrite validate_order_eq, Hcase. cbn [fst].
    destruct (submit_order _ _ _ _) as [r b']. auto 10.
  - left. destruct e; rewrite Hcase; reflexivity.
Qed.

Lemma lookup_mid_Ok_inv (env : Env) (order : OrderRequest) (b b1 : Broker)
    (mid : Q) :
  lookup_mid env order b = (Ok mid, b1) ->
  (forall last, dict_get (order_symbol order) (_last_prices b) = Some last ->
                mid = last)
  /\ (dict_get (order_symbol order) (_last_prices b) = None ->
      exists o hi lo, fetch_price env = Ok (o, hi, lo, mid)).
Proof.
  unfold lookup_mid. run_m.
  destruct (dict_get (order_symbol order) (_last_prices b)) as [last|].
  - intros [= <- _]. split; [now intros ? [= <-]|discriminate].
  - destruct (fetch_price env) as [[[[o hi] lo] c]|e]; [|discriminate].
    intros [= <- _]. split; [discriminate|]. intros _. now exists o, hi, lo.
Qed.

(** X10. A filled order is sized by the budget: when [execute] returns a
    successful result for a BUY or SELL decision, the filled size is positive
    and is [equity * risk_per_trade] divided by the distance between the
    entry price of the tick and the stop-loss; and the order was filled at
    the simulated price of the decision's side around the broker's mid price:
    the last price it knows for the tick's symbol, or else the close of a
    fresh fetch. *)
Theorem executed_order_risks_budget (config : AppConfig) (env : Env)
    (tick : PriceTick) (decision : ExecutionDecision) (account : Account)
    (positions : gmap string Position) (h : OrderHandler) (r : OrderResult) :
  signal decision <> "HOLD" ->
  fst (execute config env tick decision account positions h) = Ok r ->
  success r = true ->
  exists sl mid,
    stop_loss decision = Some sl
    /\ 0 < filled_size r
    /\ filled_size r
       = acc_equity account * risk_per_trade config
         / Qabs (entry_price tick decision - sl)
    /\ avg_price r = Some (fill_price_of config (side_of decision) mid)
    /\ (forall last,
          dict_get (tick_symbol tick) (_last_prices (broker h)) = Some last ->
          mid = last)
    /\ (dict_get (tick_symbol tick) (_last_prices (broker h)) = None ->
        exists o hi lo, fetch_price env = Ok (o, hi, lo, mid)).
Proof.
  intros Hhold Hrun Hs.
  destruct (execute_cases config env tick decision account positions h)
    as [(r0 & Hex & Hr0)|(sl & Hh & Hsl & Hg & Hcase)].
  - rewrite Hex in Hrun. injection Hrun as <-.
    destruct Hr0; congruence.
  - destruct (validate_verdict config (context_of tick decision sl) account
                               positions (risk_manager h)) as [size|e] eqn:Hv.
    + rewrite Hcase in Hrun.
      destruct (submit_order config env
                  (request_of config tick decision sl size) (broker h))
        as [r1 b'] eqn:Hsub.
      cbn [fst] in Hrun. subst r1.
      apply submit_order_Ok_inv in Hsub
        as [(_ & _ & Hf)|(mid & b1 & _ & Hlook & -> & _)]; [congruence|].
      apply lookup_mid_Ok_inv in Hlook as [Hknown Hfetched].
      cbn [request_of order_symbol] in Hknown, Hfetched.
      apply validate_verdict_Ok in Hv as (Hsize & Hsd & Hpos & _).
      cbn [context_of ctx_price ctx_stop_loss] in Hsize, Hsd.
      exists sl, mid. split; [exact Hsl|].
      cbn [filled_result filled_size avg_price request_of order_size
             order_side].
      split; [exact Hpos|]. split; [exact Hsize|].
      split; [reflexivity|]. split; [exact Hknown|exact Hfetched].
    + destruct e; rewrite Hcase in Hrun; cbn [fst] in Hrun;
        try discriminate.
      injection Hrun as <-. discriminate.
Qed.

Lemma executed_order_risks_budget_witness :
  exists r,
    fst (execute default_config scenario_env scenario_tick buy_decision
                 scenario_account ∅ priced_handler) = Ok r
    /\ success r = true
    /\ filled_size r = 30000 * (5 # 1000) / Qabs ((20001 # 10) - 1990)
    /\ avg_price r = Some (fill_price_of default_config "BUY" 2000).
Proof.
  assert (Hrun : fst (execute default_config scenario_env scenario_tick
                              buy_decision scenario_account ∅ priced_handler)
                 = Ok (match fst (execute default_config scenario_env
                                    scenario_tick buy_decision scenario_account
                                    ∅ priced_handler) with
                       | Ok r => r
                       | Raise _ => rejected EmptyString
                       end)) by (vm_compute; reflexivity).
  eexists. split; [exact Hrun|]. split; [vm_compute; reflexivity|].
  destruct (executed_order_risks_budget default_config scenario_env
              scenario_tick buy_decision scenario_account ∅ priced_handler _
              ltac:(discriminate) Hrun ltac:(vm_compute; reflexivity))
    as (sl & mid & Hsl & _ & Hsize & Hprice & Hknown & _).
  injection Hsl as <-. split; [exact Hsize|].
  rewrite Hprice. now rewrite (Hknown 2000 eq_refl).
Defined.

(** ** Handling a tick *)

Lemma dict_get_map {V W} (f : V -> W) (k : string) (d : list (string * V)) :
  dict_get k (List.map (fun kv => (fst kv, f (snd kv))) d)
  = f <$> dict_get k d.
Proof.
  induction d as [|[k' v] d IH]; [reflexivity|].
  cbn. destruct (String.eqb k k'); [reflexivity|exact IH].
Qed.

Lemma note_account_outcome {S} (today : string) (account : Account)
    (e : Engine S) :
  exists e1,
    note_account today account e = (Ok tt, e1)
    /\ eng_files e1 = eng_files e
    /\ eng_strategy e1 = eng_strategy e
    /\ broker (eng_handler e1) = broker (eng_handler e)
    /\ risk_manager (eng_handler e1)
       = (if day_changed (_state e) today
          then {| daily_start_equity := Some (acc_equity account);
                  equity_peak := Some (acc_equity account) |}
          else risk_manager (eng_handler e))
    /\ dict_get "trading_day" (_state e1) = Some (Own (PStr today))
    /\ dict_get "balance" (_state e1) = Some (Own (PFloat (acc_balance account)))
    /\ dict_get "equity" (_state e1) = Some (Own (PFloat (acc_equity account)))
    /\ dict_get "margin_used" (_state e1)
       = Some (Own (PFloat (acc_margin_used account)))
    /\ dict_get "positions" (_state e1) = Some BrokerPositions
    /\ dict_get "daily_start_equity" (_state e1)
       = Some (Own (py_of_option
                      (daily_start_equity (risk_manager (eng_handler e1)))))
    /\ dict_get "equity_peak" (_state e1)
       = Some (Own (py_of_option
                      (equity_peak (risk_manager (eng_handler e1)))))
    /\ dict_get "unrealized" (_state e1)
       = Some (Own (PFloat (acc_unrealized account))).
Proof.
  assert (Hday : day_changed (_state e) today = false ->
                 dict_get "trading_day" (_state e) = Some (Own (PStr today))).
  { unfold day_changed.
    destruct (dict_get "trading_day" (_state e)) as [[[]|]|];
      try discriminate.
    intros H. apply negb_false_iff, String.eqb_eq in H. now subst. }
  unfold note_account. unfold bind at 1. unfold get at 1.
  destruct (day_changed (_state e) today) eqn:Hd;
    (eexists; split; [run_m; reflexivity|]);
    cbn [snd eng_files eng_strategy eng_handler _state set_state
           set_risk_manager broker risk_manager];
    repeat split;
    repeat (first [ rewrite dict_get_set_eq; reflexivity
                  | rewrite dict_get_set_ne by discriminate ]);
    auto.
Qed.

(** The ways through [_handle_tick], step by step. *)
Lemma _handle_tick_shape {S} `{Strategy S} (config : AppConfig) (lib : Library)
    (self : StateManager) (env : Env) (today : string) (tick : PriceTick)
    (e e' : Engine S) (r : Res unit) :
  _handle_tick config lib self env today tick e = (r, e') ->
  let ga := get_account_info config (broker (eng_handler e)) in
  (exists x, fst ga = Raise x /\ r = Raise x /\ e' = set_broker (snd ga) e)
  \/ exists account e1,
       fst ga = Ok account
       /\ note_account today account (set_broker (snd ga) e) = (Ok tt, e1)
       /\ let gs := get_signal tick (eng_strategy e1) in
          (exists x, fst gs = Raise x /\ r = Raise x
                     /\ e' = set_strategy (snd gs) e1)
          \/ exists sd,
               fst gs = Ok sd
               /\ let e2 := set_strategy (snd gs) e1 in
                  let decision := _map_strategy_decision sd in
                  (signal decision = "HOLD" /\ r = Ok tt /\ e' = e2)
                  \/ (signal decision <> "HOLD"
                      /\ let ex := execute config env tick decision account
                                     (positions (broker (eng_handler e2)))
                                     (eng_handler e2) in
                         let e3 := set_handler (snd ex) e2 in
                         (exists x, fst ex = Raise x /\ r = Raise x /\ e' = e3)
                         \/ exists result,
                              fst ex = Ok result /\ r = Ok tt
                              /\ e' = if success result
                                      then set_files
                                             (snd (persist lib self
                                                     (snapshot (_state e3)
                                                        (broker (eng_handler e3)))
                                                     (eng_files e3))) e3
                                      else e3).
Proof.
  intros Hrun ga. unfold _handle_tick in Hrun.
  unfold bind at 1 in Hrun. unfold on_handler at 1, on_broker at 1 in Hrun.
  fold ga in Hrun.
  destruct ga as [[account|x] b1] eqn:Hga; cbn [fst snd].
  2:{ left. exists x. injection Hrun as <- <-. auto. }
  right. exists account.
  change (mkEngine {| risk_manager := risk_manager (eng_handler e);
                      broker := b1 |}
                   (eng_strategy e) (eng_files e) (_state e))
    with (set_broker b1 e) in Hrun.
  destruct (note_account_outcome today account (set_broker b1 e))
    as (e1 & Hnote & _).
  exists e1. split; [reflexivity|]. split; [exact Hnote|].
  unfold bind at 1 in Hrun. rewrite Hnote in Hrun.
  unfold bind at 1 in Hrun. unfold on_strategy at 1 in Hrun.
  cbv zeta.
  destruct (get_signal tick (eng_strategy e1)) as [[sd|x] s1] eqn:Hgs;
    cbn [fst snd].
  2:{ left. exists x. injection Hrun as <- <-. auto. }
  right. exists sd. split; [reflexivity|].
  change (mkEngine (eng_handler e1) s1 (eng_files e1) (_state e1))
    with (set_strategy s1 e1) in Hrun.
  set (e2 := set_strategy s1 e1) in *.
  destruct (String.eqb_spec (signal (_map_strategy_decision sd)) "HOLD")
    as [Hh|Hh].
  { left. unfold ret in Hrun. injection Hrun as <- <-. auto. }
  right. split; [exact Hh|].
  unfold bind at 1 in Hrun. unfold get at 1 in Hrun.
  unfold bind at 1 in Hrun. unfold on_handler at 1 in Hrun.
  destruct (execute config env tick (_map_strategy_decision sd) account
              (positions (broker (eng_handler e2))) (eng_handler e2))
    as [[result|x] h3] eqn:Hex; cbn [fst snd].
  2:{ left. exists x. injection Hrun as <- <-. auto. }
  right. exists result. split; [reflexivity|].
  change (mkEngine h3 (eng_strategy e2) (eng_files e2) (_state e2))
    with (set_handler h3 e2) in Hrun.
  destruct (success result).
  - unfold bind at 1 in Hrun. unfold get at 1 in Hrun.
    unfold on_files in Hrun. rewrite persist_eq in Hrun.
    injection Hrun as <- <-. split; [reflexivity|].
    rewrite persist_eq. reflexivity.
  - unfold ret in Hrun. injection Hrun as <- <-. auto.
Qed.

Lemma execute_keeps_daily_start (config : AppConfig) (env : Env)
    (tick : PriceTick) (decision : ExecutionDecision) (account : Account)
    (positions : gmap string Position) (h : OrderHandler) (d : Q) :
  daily_start_equity (risk_manager h) = Some d ->
  daily_start_equity
    (risk_manager (snd (execute config env tick decision account positions h)))
  = Some d.
Proof.
  intros Hd.
  assert (Hafter : daily_start_equity
                     (breakers_after (acc_equity account) (risk_manager h))
                   = Some d) by now rewrite daily_start_after, Hd.
  destruct (execute_cases config env tick decision account positions h)
    as [(r & -> & _)|(sl & _ & _ & _ & Hcase)]; [exact Hd|].
  destruct (validate_verdict _ _ _ _ _) as [size|e].
  - rewrite Hcase. destruct (submit_order _ _ _ _) as [r b']. exact Hafter.
  - destruct e; rewrite Hcase; exact Hafter.
Qed.

Lemma map_signal_hold (sd : StrategyDecision) :
  sd_signal sd <> "BUY" -> sd_signal sd <> "SELL" ->
  signal (_map_strategy_decision sd) = "HOLD".
Proof.
  intros Hb Hs. unfold _map_strategy_decision. cbn [signal].
  rewrite (proj2 (String.eqb_neq _ _) Hb), (proj2 (String.eqb_neq _ _) Hs).
  cbn [orb]. destruct (String.eqb_spec (sd_signal sd) "HOLD") as [E|E];
    [exact E|reflexivity].
Qed.

(** X11. [_handle_tick] writes the state file only after a successful
    order: either the files are as they were, or the account was read, the
    strategy's decision for this tick was not HOLD, [execute] on the handler
    as the bookkeeping left it returned a successful result, and the handler
    is as that call left it.  The file then holds the positions as the fill
    left them, but the balance, equity, margin and unrealized pnl of the
    account as it was read at the start of the tick, and the daily start and
    peak as they were before the risk manager looked at the order; no file
    other than the state file and its temporary sibling is touched. *)
Theorem handle_tick_checkpoint {S} `{Strategy S} (config : AppConfig)
    (lib : Library) (self : StateManager) (env : Env) (today : string)
    (tick : PriceTick) (e e' : Engine S) (r : Res unit) :
  _handle_tick config lib self env today tick e = (r, e') ->
  let ga := get_account_info config (broker (eng_handler e)) in
  let gs := get_signal tick (eng_strategy e) in
  eng_files e' = eng_files e
  \/ (exists account sd result,
        fst ga = Ok account
        /\ fst gs = Ok sd
        /\ let e1 := snd (note_account today account (set_broker (snd ga) e)) in
           let decision := _map_strategy_decision sd in
           let ex := execute config env tick decision account
                             (positions (broker (eng_handler e1)))
                             (eng_handler e1) in
           let snap := snapshot (_state e') (broker (eng_handler e')) in
           let rm1 := risk_manager (eng_handler e1) in
           signal decision <> "HOLD"
           /\ fst ex = Ok result
           /\ success result = true
           /\ r = Ok tt
           /\ eng_handler e' = snd ex
           /\ eng_strategy e' = snd gs
           /\ eng_files e' !! path self = Some (json_dumps lib snap)
           /\ (forall p, p <> path self ->
                         p <> with_suffix lib (path self) ".tmp" ->
                         eng_files e' !! p = eng_files e !! p)
           /\ py_get "balance" snap = Some (PFloat (acc_balance account))
           /\ py_get "equity" snap = Some (PFloat (acc_equity account))
           /\ py_get "margin_used" snap
              = Some (PFloat (acc_margin_used account))
           /\ py_get "unrealized" snap
              = Some (PFloat (acc_unrealized account))
           /\ py_get "positions" snap
              = Some (py_of_positions (positions (broker (eng_handler e'))))
           /\ py_get "trading_day" snap = Some (PStr today)
           /\ py_get "daily_start_equity" snap
              = Some (py_of_option (daily_start_equity rm1))
           /\ py_get "equity_peak" snap
              = Some (py_of_option (equity_peak rm1))).
Proof.
  intros Hrun ga gs. apply _handle_tick_shape in Hrun. cbv zeta in Hrun.
  fold ga in Hrun.
  destruct Hrun as [(x & _ & _ & ->)|(account & e1 & Hga & Hnote & Hrun)];
    [now left|].
  destruct (note_account_outcome today account (set_broker (snd ga) e))
    as (e1' & Hnote' & Hfiles & Hstrat & _ & _ & Hday & Hbal & Heq & Hmg
        & Hpos & Hds & Hpk & Hun).
  rewrite Hnote in Hnote'. injection Hnote' as <-.
  cbn [set_broker eng_files eng_strategy] in Hfiles, Hstrat.
  rewrite Hstrat in Hrun. fold gs in Hrun.
  destruct Hrun as [(x & _ & _ & ->)|(sd & Hgs & Hrun)]; [now left|].
  destruct Hrun as [(_ & _ & ->)|(Hh & Hrun)]; [now left|].
  cbn [set_strategy eng_handler] in Hrun.
  destruct Hrun as [(x & _ & _ & ->)|(result & Hex & -> & ->)]; [now left|].
  destruct (success result) eqn:Hs; [|now left].
  right. exists account, sd, result.
  split; [exact Hga|]. split; [exact Hgs|].
  rewrite Hnote. cbn [snd]. cbv zeta.
  split; [exact Hh|]. split; [exact Hex|]. split; [exact Hs|].
  split; [reflexivity|].
  rewrite persist_eq.
  cbn [set_files set_handler set_strategy eng_files eng_handler eng_strategy
         _state snd].
  split; [reflexivity|]. split; [reflexivity|].
  split; [apply lookup_insert_eq|]. split.
  - intros p Hp Htmp.
    rewrite lookup_insert_ne by congruence.
    rewrite lookup_delete_ne by congruence.
    rewrite lookup_insert_ne by congruence. now rewrite Hfiles.
  - unfold snapshot, py_get.
    rewrite !(dict_get_map (fun v => match v with
                                        | Own v => v
                                        | BrokerPositions => _
                                        end)).
    rewrite Hbal, Heq, Hmg, Hpos, Hday, Hds, Hpk, Hun. repeat split.
Qed.

(** X12. A decision that is neither BUY nor SELL -- HOLD or a signal the
    engine does not know -- leads to no order and no write: [_handle_tick]
    returns with the files as they were and the broker as the account refresh
    left it. *)
Theorem handle_tick_holds {S} `{Strategy S} (config : AppConfig) (lib : Library)
    (self : StateManager) (env : Env) (today : string) (tick : PriceTick)
    (e : Engine S) (account : Account) (sd : StrategyDecision) (s1 : S) :
  fst (get_account_info config (broker (eng_handler e))) = Ok account ->
  get_signal tick (eng_strategy e) = (Ok sd, s1) ->
  sd_signal sd <> "BUY" -> sd_signal sd <> "SELL" ->
  exists e',
    _handle_tick config lib self env today tick e = (Ok tt, e')
    /\ eng_files e' = eng_files e
    /\ broker (eng_handler e')
       = snd (get_account_info config (broker (eng_handler e)))
    /\ eng_strategy e' = s1.
Proof.
  intros Hga Hgs Hb Hs.
  destruct (_handle_tick config lib self env today tick e) as [r e'] eqn:Hrun.
  apply _handle_tick_shape in Hrun. cbv zeta in Hrun.
  destruct Hrun as [(x & Hx & _)|(account' & e1 & Hga' & Hnote & Hrun)];
    [congruence|].
  destruct (note_account_outcome today account'
              (set_broker (snd (get_account_info config (broker (eng_handler e))))
                          e))
    as (e1' & Hnote' & Hfiles & Hstrat & Hbroker & _).
  rewrite Hnote in Hnote'. injection Hnote' as <-.
  cbn [set_broker eng_files eng_strategy eng_handler broker] in *.
  rewrite Hstrat, Hgs in Hrun. cbn [fst snd] in Hrun.
  destruct Hrun as [(x & Hx & _)|(sd' & [= <-] & Hrun)]; [discriminate|].
  destruct Hrun as [(_ & -> & ->)|(Hh & _)].
  - exists (set_strategy s1 e1). split; [reflexivity|].
    cbn [set_strategy eng_files eng_handler eng_strategy]. auto.
  - contradiction Hh. now apply map_signal_hold.
Qed.

(** X13. On the first tick of a new trading day the daily start equity
    becomes the equity of the account just read, and the day is noted; on a
    later tick of the same day a daily start that is set is left alone --
    whatever the strategy and the order do afterwards. *)
Theorem handle_tick_day_rollover {S} `{Strategy S} (config : AppConfig)
    (lib : Library) (self : StateManager) (env : Env) (today : string)
    (tick : PriceTick) (e e' : Engine S) (r : Res unit) (account : Account) :
  _handle_tick config lib self env today tick e = (r, e') ->
  fst (get_account_info config (broker (eng_handler e))) = Ok account ->
  dict_get "trading_day" (_state e') = Some (Own (PStr today))
  /\ (day_changed (_state e) today = true ->
      daily_start_equity (risk_manager (eng_handler e'))
      = Some (acc_equity account))
  /\ (day_changed (_state e) today = false ->
      forall d, daily_start_equity (risk_manager (eng_handler e)) = Some d ->
                daily_start_equity (risk_manager (eng_handler e')) = Some d).
Proof.
  intros Hrun Hga. apply _handle_tick_shape in Hrun. cbv zeta in Hrun.
  destruct Hrun as [(x & Hx & _)|(account' & e1 & Hga' & Hnote & Hrun)];
    [congruence|].
  assert (account' = account) by congruence. subst account'.
  destruct (note_account_outcome today account
              (set_broker (snd (get_account_info config (broker (eng_handler e))))
                          e))
    as (e1' & Hnote' & _ & _ & _ & Hrm & Hday & _).
  rewrite Hnote in Hnote'. injection Hnote' as <-.
  cbn [set_broker eng_handler _state risk_manager] in Hrm.
  assert (Hstart : forall h,
            (h = eng_handler e1
             \/ exists decision positions,
                  h = snd (execute config env tick decision account positions
                                   (eng_handler e1))) ->
            (day_changed (_state e) today = true ->
             daily_start_equity (risk_manager h) = Some (acc_equity account))
            /\ (day_changed (_state e) today = false ->
                forall d, daily_start_equity (risk_manager (eng_handler e))
                          = Some d ->
                          daily_start_equity (risk_manager h) = Some d)).
  { intros h [->|(decision & positions & ->)]; split; intros Hd.
    - now rewrite Hrm, Hd.
    - intros d Hsome. now rewrite Hrm, Hd.
    - apply execute_keeps_daily_start. now rewrite Hrm, Hd.
    - intros d Hsome. apply execute_keeps_daily_start. now rewrite Hrm, Hd. }
  destruct Hrun as [(x & _ & _ & ->)|(sd & Hgs & Hrun)].
  { split; [exact Hday|]. apply Hstart. now left. }
  destruct Hrun as [(_ & _ & ->)|(Hh & Hrun)].
  { split; [exact Hday|]. apply Hstart. now left. }
  assert (Hex : forall e3,
            e3 = set_handler
                   (snd (execute config env tick (_map_strategy_decision sd)
                           account
                           (positions
                              (broker (eng_handler
                                         (set_strategy
                                            (snd (get_signal tick
                                                    (eng_strategy e1))) e1))))
                           (eng_handler
                              (set_strategy
                                 (snd (get_signal tick (eng_strategy e1))) e1))))
                   (set_strategy (snd (get_signal tick (eng_strategy e1))) e1) ->
            dict_get "trading_day" (_state e3) = Some (Own (PStr today))
            /\ (day_changed (_state e) today = true ->
                daily_start_equity (risk_manager (eng_handler e3))
                = Some (acc_equity account))
            /\ (day_changed (_state e) today = false ->
                forall d, daily_start_equity (risk_manager (eng_handler e))
                          = Some d ->
                          daily_start_equity (risk_manager (eng_handler e3))
                          = Some d)).
  { intros e3 ->. split; [exact Hday|]. apply Hstart. right. eauto. }
  destruct Hrun as [(x & _ & _ & ->)|(result & _ & _ & ->)];
    [now apply Hex|].
  destruct (success result); [|now apply Hex].
  cbn [set_files _state eng_handler]. now apply Hex.
Qed.

(** ** The trend-following strategy *)

Lemma _ema_outcome (price : Q) (prev : option Q) (period : Z)
    (s s' : TrendFollowingStrategy) (r : Res Q) :
  _ema price prev period s = (r, s') -> s' = s.
Proof.
  unfold _ema. destruct prev as [p|]; run_m.
  - destruct (fdiv 2 (inject_Z (period + 1))); now intros [= _ <-].
  - now intros [= _ <-].
Qed.

Lemma _update_atr_outcome (symbol : string) (high low close : Q)
    (s s' : TrendFollowingStrategy) (a : Q) :
  _update_atr symbol high low close s = (Ok a, s') ->
  s' = set_atr (<[symbol := a]> (atr s)) s
  /\ (atr s !! symbol = None ->
      a = true_range high low (prev_close s !! symbol))
  /\ (forall prev_atr,
        atr s !! symbol = Some prev_atr ->
        ~ inject_Z (atr_period s) == 0
        /\ a = (prev_atr * inject_Z (atr_period s - 1)
                + true_range high low (prev_close s !! symbol))
               / inject_Z (atr_period s)).
Proof.
  unfold _update_atr. unfold bind at 1. unfold get at 1.
  destruct (atr s !! symbol) as [prev_atr|]; run_m.
  - unfold fdiv. destruct (Qeq_bool (inject_Z (atr_period s)) 0) eqn:E;
      [discriminate|].
    intros [= <- <-]. split; [reflexivity|]. split; [discriminate|].
    intros p [= <-]. split; [|reflexivity].
    intros H. apply Qeq_bool_true in H. congruence.
  - intros [= <- <-]. split; [reflexivity|]. split; [reflexivity|].
    discriminate.
Qed.

(** [get_signal] step by step, for a call that returns. *)
Lemma trend_get_signal_inv (tick : PriceTick) (s s' : TrendFollowingStrategy)
    (d : StrategyDecision) :
  trend_get_signal tick s = (Ok d, s') ->
  let sym := tick_symbol tick in
  exists fast slow a rsi s1 s2,
    _ema (bar_close tick) (fast_ema s !! sym) (fast_period s) s = (Ok fast, s)
    /\ _ema (bar_close tick) (slow_ema s !! sym) (slow_period s) s = (Ok slow, s)
    /\ s1 = set_slow_ema (<[sym := slow]> (slow_ema s))
              (set_fast_ema (<[sym := fast]> (fast_ema s)) s)
    /\ _update_atr sym (bar_high tick) (bar_low tick) (bar_close tick) s1
       = (Ok a, s2)
    /\ _update_rsi sym (bar_close tick) s2 = (Ok rsi, s')
    /\ d = trend_decision (fast_ema s !! sym) (slow_ema s !! sym) fast slow a
                          rsi (atr_multiplier s) (bar_close tick).
Proof.
  intros Hrun sym. unfold trend_get_signal in Hrun. fold sym in Hrun.
  unfold bind at 1 in Hrun. unfold get at 1 in Hrun.
  unfold bind at 1 in Hrun.
  destruct (_ema (bar_close tick) (fast_ema s !! sym) (fast_period s) s)
    as [[fast|e] s0] eqn:Hfast; [|discriminate].
  pose proof (_ema_outcome _ _ _ _ _ _ Hfast). subst s0.
  unfold bind at 1 in Hrun.
  destruct (_ema (bar_close tick) (slow_ema s !! sym) (slow_period s) s)
    as [[slow|e] s0] eqn:Hslow; [|discriminate].
  pose proof (_ema_outcome _ _ _ _ _ _ Hslow). subst s0.
  unfold bind at 1 in Hrun. unfold modify at 1 in Hrun.
  unfold bind at 1 in Hrun. unfold modify at 1 in Hrun.
  cbn [fast_ema set_fast_ema] in Hrun.
  set (s1 := set_slow_ema _ _) in Hrun.
  unfold bind at 1 in Hrun.
  destruct (_update_atr sym (bar_high tick) (bar_low tick) (bar_close tick) s1)
    as [[a|e] s2] eqn:Hatr; [|discriminate].
  unfold bind at 1 in Hrun.
  destruct (_update_rsi sym (bar_close tick) s2) as [[rsi|e] s3] eqn:Hrsi;
    [|discriminate].
  exists fast, slow, a, rsi, s1, s2.
  split; [reflexivity|]. split; [reflexivity|]. split; [reflexivity|].
  split; [exact Hatr|].
  unfold trend_decision.
  destruct (fast_ema s !! sym) as [pf|]; [|injection Hrun as <- <-; auto].
  destruct (slow_ema s !! sym) as [ps|]; [|injection Hrun as <- <-; auto].
  destruct rsi as [rsi|]; [|injection Hrun as <- <-; auto].
  destruct (Qle_bool pf ps && Qgtb fast slow && Qltb rsi 70);
    [injection Hrun as <- <-; auto|].
  destruct (Qgeb pf ps && Qltb fast slow && Qgtb rsi 30);
    injection Hrun as <- <-; auto.
Qed.

Lemma deque_append_length (maxlen : Z) (items : list Q) (x : Q) :
  (length (deque_append maxlen items x) <= S (length items))%nat
  /\ (0 <= maxlen ->
      Z.of_nat (length (deque_append maxlen items x)) <= maxlen)%Z.
Proof.
  unfold deque_append. rewrite length_drop, length_app. cbn [length].
  split; lia.
Qed.

Lemma trend_decision_no_rsi (pf ps : option Q) (fast slow a mult close : Q) :
  trend_decision pf ps fast slow a None mult close = hold.
Proof. unfold trend_decision. destruct pf, ps; reflexivity. Qed.

Lemma _update_rsi_cold (symbol : string) (close : Q) (j : nat)
    (s s' : TrendFollowingStrategy) (r : option Q) :
  cold j s ->
  (Z.of_nat j < rsi_period s)%Z ->
  _update_rsi symbol close s = (Ok r, s') ->
  r = None /\ cold (S j) s' /\ trend_params s' = trend_params s.
Proof.
  intros (Hgain & Hprev & Hseed) Hj.
  unfold _update_rsi. unfold bind at 1. unfold get at 1.
  destruct (prev_close s !! symbol) as [prev|] eqn:Hp.
  - assert (Hj1 : (1 <= j)%nat).
    { destruct Hprev as [H|H]; [|exact H].
      rewrite H, lookup_empty in Hp. discriminate. }
    unfold bind at 1. unfold update_averages.
    unfold bind at 1. unfold get at 1.
    rewrite Hgain, lookup_empty.
    assert (Hneg : (rsi_period s <? 0)%Z = false) by (apply Z.ltb_ge; lia).
    rewrite Hneg. unfold bind at 1. unfold ret at 1.
    set (seed := deque_append (rsi_period s)
                   (default [] (rsi_seed s !! symbol)) (close - prev)).
    assert (Hlen : (length seed <= j)%nat).
    { subst seed.
      pose proof (deque_append_length (rsi_period s)
                    (default [] (rsi_seed s !! symbol)) (close - prev))
        as [Hl _].
      destruct (rsi_seed s !! symbol) as [seed0|] eqn:Hs0; cbn in Hl |- *.
      - specialize (Hseed _ _ Hs0). lia.
      - lia. }
    unfold bind at 1. unfold modify at 1.
    assert (Hshort : (Z.of_nat (length seed) <? rsi_period s)%Z = true)
      by (apply Z.ltb_lt; lia).
    cbn [rsi_period set_rsi_seed]. rewrite Hshort.
    run_m. intros [= <- <-]. split; [reflexivity|]. split; [|reflexivity].
    split; [exact Hgain|]. split; [right; lia|].
    cbn [rsi_seed set_prev_close set_rsi_seed]. intros sym seed1 Hs1.
    destruct (string_dec symbol sym) as [->|Hne].
    + rewrite lookup_insert_eq in Hs1. injection Hs1 as <-. lia.
    + rewrite lookup_insert_ne in Hs1 by assumption.
      specialize (Hseed _ _ Hs1). lia.
  - run_m. intros [= <- <-]. split; [reflexivity|]. split; [|reflexivity].
    split; [exact Hgain|]. split; [right; lia|].
    cbn [rsi_seed set_prev_close set_rsi_seed]. intros sym seed1 Hs1.
    specialize (Hseed _ _ Hs1). lia.
Qed.

Lemma trend_get_signal_cold (tick : PriceTick) (j : nat)
    (s s' : TrendFollowingStrategy) (d : StrategyDecision) :
  cold j s ->
  (Z.of_nat j < rsi_period s)%Z ->
  trend_get_signal tick s = (Ok d, s') ->
  d = hold /\ cold (S j) s' /\ trend_params s' = trend_params s.
Proof.
  intros Hcold Hj Hrun.
  apply trend_get_signal_inv in Hrun
    as (fast & slow & a & rsi & s1 & s2 & _ & _ & -> & Hatr & Hrsi & ->).
  apply _update_atr_outcome in Hatr as (-> & _).
  apply (_update_rsi_cold _ _ j) in Hrsi as (-> & Hc & Hp);
    [|exact Hcold|exact Hj].
  split; [apply trend_decision_no_rsi|]. split; [exact Hc|exact Hp].
Qed.

Lemma run_strategy_cold (ticks : list PriceTick) :
  forall (j : nat) (s s' : TrendFollowingStrategy) (ds : list StrategyDecision),
    cold j s ->
    (Z.of_nat (j + length ticks) <= rsi_period s)%Z ->
    run_strategy ticks s = (Ok ds, s') ->
    Forall (fun d => d = hold) ds.
Proof.
  induction ticks as [|tick ticks IH]; intros j s s' ds Hcold Hj Hrun.
  - cbn in Hrun. unfold ret in Hrun. injection Hrun as <- _. constructor.
  - cbn [run_strategy] in Hrun. cbn [length] in Hj.
    unfold bind at 1 in Hrun.
    destruct (trend_get_signal tick s) as [[d|e] s1] eqn:Hstep;
      [|discriminate].
    apply (trend_get_signal_cold _ j) in Hstep as (-> & Hc & Hp);
      [|exact Hcold|lia].
    unfold bind at 1 in Hrun.
    destruct (run_strategy ticks s1) as [[ds'|e] s2] eqn:Hrest;
      [|discriminate].
    unfold ret in Hrun. injection Hrun as <- _.
    constructor; [reflexivity|].
    apply (IH (S j) s1 s2 ds' Hc); [|exact Hrest].
    assert (rsi_period s1 = rsi_period s) by (unfold trend_params in Hp; congruence).
    lia.
Qed.

(** X14. The strategy warms up: a new [TrendFollowingStrategy] answers
    HOLD, without a stop-loss, to each of its first [rsi_period] ticks,
    whatever the prices and the symbols. *)
Theorem trend_holds_during_warm_up (fast slow rsi atr_p : Z) (mult : Q)
    (ticks : list PriceTick) (ds : list StrategyDecision)
    (s' : TrendFollowingStrategy) :
  (Z.of_nat (length ticks) <= rsi)%Z ->
  run_strategy ticks (new_trend fast slow rsi atr_p mult) = (Ok ds, s') ->
  Forall (fun d => d = hold) ds.
Proof.
  intros Hlen Hrun.
  apply (run_strategy_cold ticks 0 (new_trend fast slow rsi atr_p mult) s' ds);
    [|exact Hlen|exact Hrun].
  split; [reflexivity|]. split; [now left|].
  intros sym seed H. cbn in H. now rewrite lookup_empty in H.
Qed.

Lemma trend_holds_during_warm_up_witness :
  Forall (fun d => d = hold)
    (match fst (run_strategy
                  [scenario_tick; wide_spread_tick; scenario_tick]
                  default_trend) with
     | Ok ds => ds
     | Raise _ => []
     end).
Proof.
  apply (trend_holds_during_warm_up 9 21 14 14 2
           [scenario_tick; wide_spread_tick; scenario_tick] _
           (snd (run_strategy [scenario_tick; wide_spread_tick; scenario_tick]
                              default_trend))).
  - vm_compute. discriminate.
  - vm_compute. reflexivity.
Defined.



























(** ** Witnesses for the engine's tick handling *)

Lemma handle_tick_checkpoint_witness :
  let e' := snd primed_tick_outcome in
  let snap := snapshot (_state e') (broker (eng_handler e')) in
  fst primed_tick_outcome = Ok tt
  /\ eng_files e' !! "state.json" = Some (json_dumps MiniJson.library snap)
  /\ py_get "balance" snap = Some (PFloat 30000)
  /\ py_get "positions" snap
     = Some (py_of_positions (positions (broker (eng_handler e'))))
  /\ is_Some (positions (broker (eng_handler e')) !! "XAUUSD").
Proof.
  cbv zeta.
  destruct (handle_tick_checkpoint default_config MiniJson.library
              the_state_manager (quote_env 1999) "2024-01-02" (bar 1999)
              primed_engine (snd primed_tick_outcome)
              (fst primed_tick_outcome)
              (surjective_pairing primed_tick_outcome))
    as [Hfiles|(account & sd & result & Hga & _ & _ & _ & _ & Hr & _ & _
                & Hfile & _ & Hbal & _ & _ & _ & Hpos & _)].
  - apply (f_equal (fun fs => fs !! "state.json")) in Hfiles.
    vm_compute in Hfiles. discriminate.
  - vm_compute in Hga. injection Hga as <-.
    split; [exact Hr|]. split; [exact Hfile|]. split; [exact Hbal|].
    split; [exact Hpos|]. vm_compute. eexists. reflexivity.
Defined.

Lemma handle_tick_holds_witness :
  exists e',
    _handle_tick default_config MiniJson.library the_state_manager
                 (quote_env 2000) "2024-01-02" (bar 2000) fresh_engine
    = (Ok tt, e')
    /\ eng_files e' = eng_files fresh_engine
    /\ broker (eng_handler e')
       = snd (get_account_info default_config
                (broker (eng_handler fresh_engine)))
    /\ eng_strategy e' = snd (trend_get_signal (bar 2000) default_trend).
Proof.
  apply (handle_tick_holds default_config MiniJson.library the_state_manager
           (quote_env 2000) "2024-01-02" (bar 2000) fresh_engine
           scenario_account hold
           (snd (trend_get_signal (bar 2000) default_trend)));
    [vm_compute; reflexivity|vm_compute; reflexivity
    |discriminate|discriminate].
Defined.

Lemma handle_tick_day_rollover_witness :
  let e' := snd primed_tick_outcome in
  dict_get "trading_day" (_state e') = Some (Own (PStr "2024-01-02"))
  /\ (day_changed (_state primed_engine) "2024-01-02" = true ->
      daily_start_equity (risk_manager (eng_handler e'))
      = Some (acc_equity scenario_account))
  /\ (day_changed (_state primed_engine) "2024-01-02" = false ->
      forall d,
        daily_start_equity (risk_manager (eng_handler primed_engine)) = Some d ->
        daily_start_equity (risk_manager (eng_handler e')) = Some d).
Proof.
  apply (handle_tick_day_rollover default_config MiniJson.library
           the_state_manager (quote_env 1999) "2024-01-02" (bar 1999)
           primed_engine (snd primed_tick_outcome) (fst primed_tick_outcome)
           scenario_account).
  - apply surjective_pairing.
  - vm_compute. reflexivity.
Defined.

(** ** The risk manager's limits *)

Lemma Qgtb_false (a b : Q) : Qgtb a b = false -> a <= b.
Proof. unfold Qgtb. apply Qltb_ge. Qed.

Lemma exposure_verdict_Ok (config : AppConfig) (symbol : string)
    (price size : Q) (account : Account) (positions : gmap string Position) :
  exposure_verdict config symbol price size account positions = Ok tt ->
  ~ leverage_limit config == 0
  /\ acc_margin_used account + price * size / leverage_limit config
     <= acc_equity account
  /\ held_notional positions symbol price + price * size
     <= acc_equity account * max_symbol_exposure config
  /\ aggregate_notional positions price + price * size
     <= acc_equity account * max_global_exposure config.
Proof.
  unfold exposure_verdict, fdiv, held_notional.
  destruct (Qeq_bool (leverage_limit config) 0) eqn:Hl; [discriminate|].
  destruct (Qgtb (acc_margin_used account + _) _) eqn:H1; [discriminate|].
  destruct (Qgtb (Qabs _ + _) _) eqn:H2; [discriminate|].
  destruct (Qgtb (aggregate_notional _ _ + _) _) eqn:H3; [discriminate|].
  intros _. split.
  - intros H. apply Qeq_bool_true in H. congruence.
  - split; [now apply Qgtb_false|]. split; now apply Qgtb_false.
Qed.

Lemma breakers_verdict_Ok (config : AppConfig) (equity : Q) (rm : RiskManager) :
  breakers_verdict config equity rm = Ok tt ->
  exists d p,
    daily_start_equity (breakers_after equity rm) = Some d
    /\ equity_peak (breakers_after equity rm) = Some p
    /\ d * (1 - max_daily_loss config) < equity
    /\ p * (1 - max_drawdown config) < equity
    /\ equity <= p.
Proof.
  unfold breakers_verdict.
  destruct (daily_start_equity (breakers_after equity rm)) as [d|] eqn:Hd;
    [|discriminate].
  destruct (equity_peak (breakers_after equity rm)) as [p|] eqn:Hp;
    [|discriminate].
  destruct (Qle_bool equity (d * _)) eqn:H1; [discriminate|].
  destruct (Qle_bool equity (p * _)) eqn:H2; [discriminate|].
  intros _. exists d, p. split; [reflexivity|]. split; [reflexivity|].
  apply Qle_bool_false in H1, H2. split; [exact H1|]. split; [exact H2|].
  unfold breakers_after in Hp. cbn [equity_peak] in Hp. injection Hp as <-.
  apply Q.le_max_r.
Qed.

(** X17.  The risk manager approves only within its limits.  When
    [validate_order] returns a size, the size is positive, the margin in use
    plus the order's margin does not exceed the equity, the symbol's and the
    book's notional with the order stay within the symbol and the global
    exposure limits, and the equity lies strictly above both the daily-loss
    floor and the drawdown floor of the marks the manager now keeps. *)
Theorem validate_order_within_limits (config : AppConfig) (ctx : OrderContext)
    (account : Account) (positions : gmap string Position)
    (rm rm' : RiskManager) (size : Q) :
  validate_order config ctx account positions rm = (Ok size, rm') ->
  let notional := ctx_price ctx * size in
  let equity := acc_equity account in
  0 < size
  /\ ~ leverage_limit config == 0
  /\ acc_margin_used account + notional / leverage_limit config <= equity
  /\ held_notional positions (ctx_symbol ctx) (ctx_price ctx) + notional
     <= equity * max_symbol_exposure config
  /\ aggregate_notional positions (ctx_price ctx) + notional
     <= equity * max_global_exposure config
  /\ exists d p,
       daily_start_equity rm' = Some d /\ equity_peak rm' = Some p
       /\ d * (1 - max_daily_loss config) < equity
       /\ p * (1 - max_drawdown config) < equity
       /\ equity <= p.
Proof.
  rewrite validate_order_eq. intros [= Hv <-]. cbv zeta.
  apply validate_verdict_Ok in Hv as (_ & _ & Hpos & Hb & He).
  apply exposure_verdict_Ok in He as (Hl & Hm & Hs & Hg).
  split; [exact Hpos|]. split; [exact Hl|]. split; [exact Hm|].
  split; [exact Hs|]. split; [exact Hg|].
  now apply breakers_verdict_Ok.
Qed.

Lemma validate_order_within_limits_witness :
  let out := validate_order default_config scenario_context scenario_account
                            ∅ new_risk_manager in
  let size := match fst out with Ok size => size | Raise _ => 0 end in
  let notional := ctx_price scenario_context * size in
  let equity := acc_equity scenario_account in
  0 < size
  /\ ~ leverage_limit default_config == 0
  /\ acc_margin_used scenario_account + notional / leverage_limit default_config
     <= equity
  /\ held_notional ∅ (ctx_symbol scenario_context) (ctx_price scenario_context)
     + notional
     <= equity * max_symbol_exposure default_config
  /\ aggregate_notional ∅ (ctx_price scenario_context) + notional
     <= equity * max_global_exposure default_config
  /\ exists d p,
       daily_start_equity (snd out) = Some d /\ equity_peak (snd out) = Some p
       /\ d * (1 - max_daily_loss default_config) < equity
       /\ p * (1 - max_drawdown default_config) < equity
       /\ equity <= p.
Proof.
  apply (validate_order_within_limits default_config scenario_context
           scenario_account ∅ new_risk_manager).
  vm_compute. reflexivity.
Defined.

Lemma breakers_after_peak (equity e1 : Q) (rm : RiskManager) (p : Q) :
  daily_start_equity rm <> None -> equity_peak rm = Some p ->
  0 < e1 -> e1 <= p ->
  daily_start_equity (breakers_after equity rm) <> None
  /\ exists p', equity_peak (breakers_after equity rm) = Some p' /\ e1 <= p'.
Proof.
  intros Hd Hp H0 Hle. split; [now rewrite daily_start_after|].
  unfold breakers_after. destruct (daily_start_equity rm); [|congruence].
  rewrite Hp. cbn [equity_peak]. rewrite Qeq_bool_false by lra.
  eexists. split; [reflexivity|].
  pose proof (Q.le_max_l p equity). lra.
Qed.

Lemma breakers_after_first (equity : Q) (rm : RiskManager) :
  daily_start_equity (breakers_after equity rm) <> None
  /\ exists p', equity_peak (breakers_after equity rm) = Some p'
                /\ equity <= p'.
Proof.
  split; [now rewrite daily_start_after|].
  unfold breakers_after. cbn [equity_peak]. eexists. split; [reflexivity|].
  apply Q.le_max_r.
Qed.

Lemma after_checks_peak (config : AppConfig) (later : list Q) :
  forall (rm : RiskManager) (e1 p : Q),
    daily_start_equity rm <> None -> equity_peak rm = Some p ->
    0 < e1 -> e1 <= p ->
    daily_start_equity (after_checks config later rm) <> None
    /\ exists p', equity_peak (after_checks config later rm) = Some p'
                  /\ e1 <= p'.
Proof.
  induction later as [|e later IH]; intros rm e1 p Hd Hp H0 Hle.
  - split; [exact Hd|]. now exists p.
  - cbn [after_checks fold_left]. rewrite _check_circuit_breakers_eq.
    cbn [snd].
    destruct (breakers_after_peak e e1 rm p Hd Hp H0 Hle)
      as (Hd' & p' & Hp' & Hle').
    exact (IH _ e1 p' Hd' Hp' H0 Hle').
Qed.

(** X18.  The drawdown breaker remembers the peak.  Once the breakers have
    been checked at a positive equity [e1], then after any further checks a
    check at an equity at or below [e1 * (1 - max_drawdown)] is refused, with
    the daily-loss or the drawdown message. *)
Theorem drawdown_breaker_remembers_peak (config : AppConfig)
    (earlier later : list Q) (e1 e2 : Q) (rm : RiskManager) :
  0 < e1 -> max_drawdown config <= 1 ->
  e2 <= e1 * (1 - max_drawdown config) ->
  let rm' := after_checks config (earlier ++ e1 :: later)%list rm in
  fst (_check_circuit_breakers config e2 rm')
  = Raise (RiskViolation msg_daily_loss)
  \/ fst (_check_circuit_breakers config e2 rm')
     = Raise (RiskViolation msg_drawdown).
Proof.
  intros H0 Hdd He2 rm'.
  assert (Hinv : daily_start_equity rm' <> None
                 /\ exists p, equity_peak rm' = Some p /\ e1 <= p).
  { unfold rm', after_checks. rewrite fold_left_app. cbn [fold_left].
    rewrite _check_circuit_breakers_eq. cbn [snd].
    destruct (breakers_after_first e1
                (fold_left
                   (fun rm equity =>
                      snd (_check_circuit_breakers config equity rm))
                   earlier rm)) as (Hd & p & Hp & Hle).
    exact (after_checks_peak config later _ e1 p Hd Hp H0 Hle). }
  destruct Hinv as (Hd & p & Hp & Hle).
  rewrite _check_circuit_breakers_eq. cbn [fst].
  destruct (breakers_after_peak e2 e1 rm' p Hd Hp H0 Hle)
    as (Hd' & p' & Hp' & Hle').
  unfold breakers_verdict.
  destruct (daily_start_equity (breakers_after e2 rm')) as [d|];
    [|congruence].
  rewrite Hp'.
  destruct (Qle_bool e2 (d * _)); [now left|].
  right. rewrite (proj2 (Qle_bool_iff _ _)); [reflexivity|]. nra.
Qed.

Lemma drawdown_breaker_remembers_peak_witness :
  let rm' := after_checks default_config ([29000] ++ 30000 :: [29500])%list
                          new_risk_manager in
  fst (_check_circuit_breakers default_config 27000 rm')
  = Raise (RiskViolation msg_daily_loss)
  \/ fst (_check_circuit_breakers default_config 27000 rm')
     = Raise (RiskViolation msg_drawdown).
Proof.
  apply (drawdown_breaker_remembers_peak default_config [29000] [29500]
           30000 27000 new_risk_manager);
    vm_compute; first [reflexivity|discriminate].
Defined.

(** ** The state file *)

(** X19.  [persist] replaces the state file in one move and cleans up after
    itself: it never raises, the state file then holds the new snapshot, the
    temporary file is gone even if a stale one lay there before (unless the
    state file itself carries that name), no other file is touched, and of two
    writes in a row only the second can be seen. *)
Theorem persist_replaces_state_file (lib : Library) (self : StateManager)
    (state1 state2 : pyval) (fs : FileSystem) :
  let tmp := with_suffix lib (path self) ".tmp" in
  let fs1 := snd (persist lib self state1 fs) in
  fst (persist lib self state1 fs) = Ok tt
  /\ fs1 !! path self = Some (json_dumps lib state1)
  /\ (tmp <> path self -> fs1 !! tmp = None)
  /\ (forall p, p <> path self -> p <> tmp -> fs1 !! p = fs !! p)
  /\ snd (persist lib self state2 fs1) = snd (persist lib self state2 fs).
Proof.
  cbv zeta. rewrite !persist_eq. cbn [fst snd].
  split; [reflexivity|]. split; [apply lookup_insert_eq|]. split; [|split].
  - intros Hne. rewrite lookup_insert_ne by congruence.
    apply lookup_delete_eq.
  - intros p Hp Htmp. rewrite lookup_insert_ne by congruence.
    rewrite lookup_delete_ne by congruence.
    now rewrite lookup_insert_ne by congruence.
  - apply map_eq. intros p.
    destruct (decide (p = path self)) as [->|Hp].
    + now rewrite !lookup_insert_eq.
    + rewrite !(lookup_insert_ne _ (path self)) by congruence.
      destruct (decide (p = with_suffix lib (path self) ".tmp")) as [->|Ht].
      * now rewrite !lookup_delete_eq.
      * rewrite !lookup_delete_ne by congruence.
        rewrite !lookup_insert_ne by congruence.
        rewrite lookup_delete_ne by congruence.
        now rewrite lookup_insert_ne by congruence.
Qed.

Lemma persist_replaces_state_file_witness :
  let fs1 := snd (persist MiniJson.library the_state_manager
                    (_default_state the_state_manager "2024-01-02")
                    {[ "state.tmp" := "stale" ]}) in
  fs1 !! "state.tmp" = None
  /\ fs1 !! "state.json"
     = Some (json_dumps MiniJson.library
               (_default_state the_state_manager "2024-01-02")).
Proof.
  destruct (persist_replaces_state_file MiniJson.library the_state_manager
              (_default_state the_state_manager "2024-01-02")
              (_default_state the_state_manager "2024-01-02")
              {[ "state.tmp" := "stale" ]}) as (_ & Hfile & Htmp & _).
  split; [apply Htmp; discriminate|exact Hfile].
Defined.

(** ** The indicators *)




